(** * nexconsult: the record extractor and the consultation coordinator

    A shallow embedding of [src/legacy/cnpj_consultor_v2.py] (the extractor
    [CNPJDataExtractor.extract_from_text], the challenge client
    [SolveCaptchaClient._wait_solution] and the coordinator
    [CNPJConsultorV2.consultar]) and of the corresponding functions of the
    older [src/legacy/main.py], followed by the properties of the
    specification that concern them.

    Conventions.
    - A Python [str] is the list of its Unicode code points ([pystr]);
      [len], slicing, [in], [==] and [split] are the list operations.
    - Python values that flow through dictionaries are [pyval]; a [dict] is
      an association list in insertion order.
    - A Python call that may raise returns [res A = exn + A]. *)

From Stdlib Require Import ZArith NArith List Bool Lia String Ascii.
From stdpp Require Import base option list gmap.
Import ListNotations.

Local Open Scope N_scope.

(** ** Python strings *)

Definition pystr := list N.

(** Decoding of the UTF-8 bytes of a Rocq string literal into code points;
    only used to write the literals of the source. *)
Fixpoint utf8_decode (acc : N) (need : nat) (bs : list N) : pystr :=
  match bs with
  | [] => []
  | b :: bs' =>
      match need with
      | O =>
          if b <? 128 then b :: utf8_decode 0 O bs'
          else if b <? 224 then utf8_decode (N.land b 31) 1%nat bs'
          else if b <? 240 then utf8_decode (N.land b 15) 2%nat bs'
          else utf8_decode (N.land b 7) 3%nat bs'
      | S O => N.lor (N.shiftl acc 6) (N.land b 63) :: utf8_decode 0 O bs'
      | S n => utf8_decode (N.lor (N.shiftl acc 6) (N.land b 63)) n bs'
      end
  end.

Definition py (s : string) : pystr :=
  utf8_decode 0 O (map N_of_ascii (list_ascii_of_string s)).

(** [str.isspace], the characters removed by [str.strip()]. *)
Definition isspace (c : N) : bool :=
  ((9 <=? c) && (c <=? 13)) || ((28 <=? c) && (c <=? 32))
  || (c =? 133) || (c =? 160) || (c =? 5760)
  || ((8192 <=? c) && (c <=? 8202))
  || (c =? 8232) || (c =? 8233) || (c =? 8239) || (c =? 8287) || (c =? 12288).

(** The class [\d] of [re] on [str] patterns: the decimal digits (category
    Nd) of the Unicode database of CPython 3.11 (Unicode 14.0).  Each entry
    is the first code point of a run and the length of the run. *)
Definition decimal_digit_runs : list (N * N) :=
  [ (48, 10); (1632, 10); (1776, 10); (1984, 10); (2406, 10); (2534, 10);
    (2662, 10); (2790, 10); (2918, 10); (3046, 10); (3174, 10); (3302, 10);
    (3430, 10); (3558, 10); (3664, 10); (3792, 10); (3872, 10); (4160, 10);
    (4240, 10); (6112, 10); (6160, 10); (6470, 10); (6608, 10); (6784, 10);
    (6800, 10); (6992, 10); (7088, 10); (7232, 10); (7248, 10); (42528, 10);
    (43216, 10); (43264, 10); (43472, 10); (43504, 10); (43600, 10);
    (44016, 10); (65296, 10); (66720, 10); (68912, 10); (69734, 10);
    (69872, 10); (69942, 10); (70096, 10); (70384, 10); (70736, 10);
    (70864, 10); (71248, 10); (71360, 10); (71472, 10); (71904, 10);
    (72016, 10); (72784, 10); (73040, 10); (73120, 10); (92768, 10);
    (92864, 10); (93008, 10); (120782, 50); (123200, 10); (123632, 10);
    (125264, 10); (130032, 10) ].

Definition re_digit (c : N) : bool :=
  existsb (fun r => (fst r <=? c) && (c <? fst r + snd r)) decimal_digit_runs.

Definition str_eqb (a b : pystr) : bool := bool_decide (a = b).

(** Truth value of a [str]: non-empty. *)
Definition str_truthy (s : pystr) : bool :=
  match s with [] => false | _ :: _ => true end.

Fixpoint lstrip (s : pystr) : pystr :=
  match s with
  | [] => []
  | c :: s' => if isspace c then lstrip s' else s
  end.

Definition rstrip (s : pystr) : pystr := rev (lstrip (rev s)).

(** [s.strip()] *)
Definition strip (s : pystr) : pystr := rstrip (lstrip s).

(** [s.split(c)] for a one-character separator [c]. *)
Fixpoint split_chr (sep : N) (s : pystr) : list pystr :=
  match s with
  | [] => [[]]
  | c :: s' =>
      if c =? sep then [] :: split_chr sep s'
      else match split_chr sep s' with
           | [] => [[c]]
           | w :: ws => (c :: w) :: ws
           end
  end.

(** [s.startswith(p)] *)
Fixpoint startswith (p s : pystr) : bool :=
  match p, s with
  | [], _ => true
  | _ :: _, [] => false
  | a :: p', b :: s' => (a =? b) && startswith p' s'
  end.

(** [sub in s] *)
Fixpoint contains (sub s : pystr) : bool :=
  startswith sub s
  || match s with
     | [] => false
     | _ :: s' => contains sub s'
     end.

(** The leftmost occurrence of [sep] in [s]: the text before it and the
    text after it. *)
Fixpoint partition_first (sep s : pystr) : option (pystr * pystr) :=
  if startswith sep s then Some ([], drop (length sep) s)
  else match s with
       | [] => None
       | c :: s' =>
           match partition_first sep s' with
           | Some (a, b) => Some (c :: a, b)
           | None => None
           end
       end.

(** [s.split(sep, 1)] *)
Definition split1 (sep s : pystr) : list pystr :=
  match partition_first sep s with
  | Some (a, b) => [a; b]
  | None => [s]
  end.

(** ["\n".join(ls)], used to write multi-line inputs. *)
Fixpoint unlines (ls : list pystr) : pystr :=
  match ls with
  | [] => []
  | [l] => l
  | l :: ls' => l ++ 10 :: unlines ls'
  end.

(** *** The one regular expression of the source

    [(\d{2}/\d{2}/\d{4}) às (\d{2}:\d{2}:\d{2})]: every token matches exactly
    one character, so a match is a window of fixed width. *)
Inductive re_tok := Digit | Lit (c : N).

Definition tok_match (t : re_tok) (c : N) : bool :=
  match t with
  | Digit => re_digit c
  | Lit c' => c =? c'
  end.

Fixpoint match_here (pat : list re_tok) (s : pystr) : bool :=
  match pat, s with
  | [], _ => true
  | _ :: _, [] => false
  | t :: pat', c :: s' => tok_match t c && match_here pat' s'
  end.

(** [re.search]: the leftmost window that matches, returned as the matched
    text. *)
Fixpoint re_search (pat : list re_tok) (s : pystr) : option pystr :=
  if match_here pat s then Some (take (length pat) s)
  else match s with
       | [] => None
       | _ :: s' => re_search pat s'
       end.

Definition lits (s : pystr) : list re_tok := map Lit s.

Definition emitido_pattern : list re_tok :=
  Eval vm_compute in
  [Digit; Digit] ++ lits (py "/") ++ [Digit; Digit] ++ lits (py "/")
  ++ [Digit; Digit; Digit; Digit] ++ lits (py " às ")
  ++ [Digit; Digit] ++ lits (py ":") ++ [Digit; Digit] ++ lits (py ":")
  ++ [Digit; Digit].

(** [match.group(1)] and [match.group(2)] of a match of [emitido_pattern]. *)
Definition emitido_group1 (m : pystr) : pystr := take 10 m.
Definition emitido_group2 (m : pystr) : pystr := drop 14 m.

(** ** Python values, dictionaries and exceptions *)

#[warnings="-register-all"]
Inductive pyval :=
| VNone
| VBool (b : bool)
| VInt (z : Z)
| VStr (s : pystr)
| VList (l : list pyval)
| VDict (d : list (pystr * pyval)).

Definition dict := list (pystr * pyval).

(** Truth value of an object, as tested by [if x:]. *)
Definition truthy (v : pyval) : bool :=
  match v with
  | VNone => false
  | VBool b => b
  | VInt z => negb (z =? 0)%Z
  | VStr s => str_truthy s
  | VList l => match l with [] => false | _ => true end
  | VDict d => match d with [] => false | _ => true end
  end.

(** Lookup in an association list keyed by strings ([k in d], [d.get(k)]). *)
Fixpoint assoc {A} (k : pystr) (d : list (pystr * A)) : option A :=
  match d with
  | [] => None
  | (k', v) :: d' => if str_eqb k k' then Some v else assoc k d'
  end.

Definition has_key {A} (k : pystr) (d : list (pystr * A)) : bool :=
  match assoc k d with Some _ => true | None => false end.

(** [d[k] = v] on a dictionary: an existing key keeps its position, a new
    key goes last. *)
Fixpoint dict_set (k : pystr) (v : pyval) (d : dict) : dict :=
  match d with
  | [] => [(k, v)]
  | (k', v') :: d' =>
      if str_eqb k k' then (k', v) :: d' else (k', v') :: dict_set k v d'
  end.

Inductive exn_class :=
| ValueError | KeyError | TypeError | AttributeError | OtherException.

(** An exception (an instance of [Exception]) with the text [str(e)]. *)
Record exn := Exn { exn_kind : exn_class; exn_str : pystr }.

Definition res (A : Type) : Type := exn + A.

Definition ret {A} (a : A) : res A := inr a.
Definition raise {A} (e : exn) : res A := inl e.
Definition bind {A B} (m : res A) (k : A -> res B) : res B :=
  match m with
  | inl e => inl e
  | inr a => k a
  end.

Notation "'let*' x := m 'in' k" :=
  (bind m (fun x => k))
  (at level 10, x pattern, m at level 100, k at level 200).

Definition quoted (k : pystr) : pystr := py "'" ++ k ++ py "'".

(** [v[k]] *)
Definition getitem (v : pyval) (k : pystr) : res pyval :=
  match v with
  | VDict d =>
      match assoc k d with
      | Some x => ret x
      | None => raise (Exn KeyError (quoted k))
      end
  | _ => raise (Exn TypeError (py "object is not subscriptable"))
  end.

(** [v[k] = x]; the result is the object [v] after the assignment. *)
Definition setitem (v : pyval) (k : pystr) (x : pyval) : res pyval :=
  match v with
  | VDict d => ret (VDict (dict_set k x d))
  | _ => raise (Exn TypeError (py "object does not support item assignment"))
  end.

(** [data[a][b]] *)
Definition getitem2 (data : dict) (a b : pystr) : res pyval :=
  let* inner := getitem (VDict data) a in
  getitem inner b.

(** [data[a][b] = x]: the inner dictionary is mutated in place, which for
    the enclosing dictionary is the replacement of the value under [a]. *)
Definition setitem2 (data : dict) (a b : pystr) (x : pyval) : res dict :=
  let* inner := getitem (VDict data) a in
  let* inner' := setitem inner b x in
  ret (dict_set a inner' data).

(** [data[a][b].append(x)] *)
Definition append2 (data : dict) (a b : pystr) (x : pyval) : res dict :=
  let* inner := getitem (VDict data) a in
  let* l := getitem inner b in
  match l with
  | VList xs =>
      let* inner' := setitem inner b (VList (xs ++ [x])) in
      ret (dict_set a inner' data)
  | _ => raise (Exn AttributeError (py "object has no attribute 'append'"))
  end.

(** [a, b = xs] *)
Definition unpack2 (xs : list pystr) : res (pystr * pystr) :=
  match xs with
  | [a; b] => ret (a, b)
  | _ => raise (Exn ValueError (py "wrong number of values to unpack"))
  end.

(** ** The extractor of [cnpj_consultor_v2.py] *)

Module Extractor.

(** The dataclass [CNPJData]: eight attributes, no run-time type check. *)
Record CNPJData := mkCNPJData {
  cnpj : pyval;
  empresa : pyval;
  atividades : pyval;
  endereco : pyval;
  contato : pyval;
  situacao : pyval;
  comprovante : pyval;
  metadados : pyval
}.

Definition CNPJData_fields : list pystr :=
  Eval vm_compute in
  [py "cnpj"; py "empresa"; py "atividades"; py "endereco"; py "contato";
   py "situacao"; py "comprovante"; py "metadados"].

(** The call of [CNPJData] with the items of [data] as keyword arguments: a
    [TypeError] for an unexpected or a missing keyword. *)
Definition CNPJData_kwargs (data : dict) : res CNPJData :=
  if forallb (fun kv => existsb (str_eqb (fst kv)) CNPJData_fields) data then
    match assoc (py "cnpj") data, assoc (py "empresa") data,
          assoc (py "atividades") data, assoc (py "endereco") data,
          assoc (py "contato") data, assoc (py "situacao") data,
          assoc (py "comprovante") data, assoc (py "metadados") data with
    | Some a, Some b, Some c, Some d, Some e, Some f, Some g, Some h =>
        ret (mkCNPJData a b c d e f g h)
    | _, _, _, _, _, _, _, _ =>
        raise (Exn TypeError (py "missing required argument"))
    end
  else raise (Exn TypeError (py "unexpected keyword argument")).

(** [dataclasses.asdict] *)
Definition asdict (c : CNPJData) : dict :=
  [ (py "cnpj", cnpj c); (py "empresa", empresa c);
    (py "atividades", atividades c); (py "endereco", endereco c);
    (py "contato", contato c); (py "situacao", situacao c);
    (py "comprovante", comprovante c); (py "metadados", metadados c) ].

Definition empty_str : pyval := VStr [].

Definition cod_desc (codigo desc : pystr) : pyval :=
  VDict [ (py "codigo", VStr codigo); (py "descricao", VStr desc) ].

(** The dictionary [data] as initialised; [clock] is the text returned by
    [time.strftime("%Y-%m-%d %H:%M:%S")]. *)
Definition initial_data (clock : pystr) : dict :=
  [ (py "cnpj",
      VDict [ (py "numero", empty_str); (py "tipo", empty_str);
              (py "data_abertura", empty_str) ]);
    (py "empresa",
      VDict [ (py "razao_social", empty_str); (py "nome_fantasia", empty_str);
              (py "porte", empty_str);
              (py "natureza_juridica", cod_desc [] []) ]);
    (py "atividades",
      VDict [ (py "principal", cod_desc [] []);
              (py "secundarias", VList []) ]);
    (py "endereco",
      VDict [ (py "logradouro", empty_str); (py "numero", empty_str);
              (py "complemento", empty_str); (py "cep", empty_str);
              (py "bairro", empty_str); (py "municipio", empty_str);
              (py "uf", empty_str) ]);
    (py "contato",
      VDict [ (py "email", empty_str); (py "telefone", empty_str) ]);
    (py "situacao",
      VDict [ (py "cadastral", empty_str); (py "data_situacao", empty_str);
              (py "motivo", empty_str); (py "situacao_especial", empty_str);
              (py "data_situacao_especial", empty_str) ]);
    (py "comprovante",
      VDict [ (py "data_emissao", empty_str);
              (py "hora_emissao", empty_str) ]);
    (py "metadados",
      VDict [ (py "timestamp", VStr clock); (py "sucesso", VBool true) ]) ].

Definition field_map : list (pystr * (pystr * pystr)) :=
  Eval vm_compute in
  [ (py "NÚMERO DE INSCRIÇÃO", (py "cnpj", py "numero"));
    (py "DATA DE ABERTURA", (py "cnpj", py "data_abertura"));
    (py "NOME EMPRESARIAL", (py "empresa", py "razao_social"));
    (py "TÍTULO DO ESTABELECIMENTO (NOME DE FANTASIA)",
      (py "empresa", py "nome_fantasia"));
    (py "PORTE", (py "empresa", py "porte"));
    (py "LOGRADOURO", (py "endereco", py "logradouro"));
    (py "NÚMERO", (py "endereco", py "numero"));
    (py "COMPLEMENTO", (py "endereco", py "complemento"));
    (py "CEP", (py "endereco", py "cep"));
    (py "BAIRRO/DISTRITO", (py "endereco", py "bairro"));
    (py "MUNICÍPIO", (py "endereco", py "municipio"));
    (py "UF", (py "endereco", py "uf"));
    (py "TELEFONE", (py "contato", py "telefone"));
    (py "SITUAÇÃO CADASTRAL", (py "situacao", py "cadastral"));
    (py "DATA DA SITUAÇÃO CADASTRAL", (py "situacao", py "data_situacao")) ].

Definition sep : pystr := Eval vm_compute in py " - ".

Definition natureza_header : pystr :=
  Eval vm_compute in py "CÓDIGO E DESCRIÇÃO DA NATUREZA JURÍDICA".
Definition principal_header : pystr :=
  Eval vm_compute in py "CÓDIGO E DESCRIÇÃO DA ATIVIDADE ECONÔMICA PRINCIPAL".
Definition secundarias_header : pystr :=
  Eval vm_compute in
  py "CÓDIGO E DESCRIÇÃO DAS ATIVIDADES ECONÔMICAS SECUNDÁRIAS".
Definition emitido_marker : pystr := Eval vm_compute in py "Emitido no dia".

Definition stop_markers : list pystr :=
  Eval vm_compute in [py "NATUREZA JURÍDICA"; py "LOGRADOURO"].

(** The [while] loop over the secondary activities; [ls] is [lines[j:]]. *)
Fixpoint secundarias_loop (ls : list pystr) (data : dict) : res dict :=
  match ls with
  | [] => ret data
  | l :: ls' =>
      if contains sep l then
        if existsb (fun stop => contains stop l) stop_markers then ret data
        else
          let* (codigo, desc) := unpack2 (split1 sep l) in
          let* data :=
            append2 data (py "atividades") (py "secundarias")
                    (cod_desc codigo desc) in
          secundarias_loop ls' data
      else ret data
  end.

(** One iteration of [for i, line in enumerate(lines)]; [rest] is
    [lines[i+1:]] and [next_line] its first element, or the empty string. *)
Definition extract_line (line next_line : pystr) (rest : list pystr)
    (data : dict) : res dict :=
  match assoc line field_map with
  | Some (section, field) =>
      if str_truthy next_line && negb (has_key next_line field_map) then
        let* filled :=
          if str_eqb section (py "endereco") && str_eqb field (py "numero")
          then let* v := getitem2 data (py "endereco") (py "numero") in
               ret (truthy v)
          else ret false in
        if filled then ret data
        else setitem2 data section field (VStr next_line)
      else ret data
  | None =>
      if str_eqb line (py "MATRIZ") then
        setitem2 data (py "cnpj") (py "tipo") (VStr (py "MATRIZ"))
      else if str_eqb line (py "FILIAL") then
        setitem2 data (py "cnpj") (py "tipo") (VStr (py "FILIAL"))
      else if contains natureza_header line && str_truthy next_line then
        if contains sep next_line then
          let* (codigo, desc) := unpack2 (split1 sep next_line) in
          setitem2 data (py "empresa") (py "natureza_juridica")
                   (cod_desc codigo desc)
        else ret data
      else if contains principal_header line && str_truthy next_line then
        if contains sep next_line then
          let* (codigo, desc) := unpack2 (split1 sep next_line) in
          setitem2 data (py "atividades") (py "principal")
                   (cod_desc codigo desc)
        else ret data
      else if contains secundarias_header line then
        secundarias_loop rest data
      else if contains emitido_marker line then
        match re_search emitido_pattern line with
        | Some m =>
            let* data :=
              setitem2 data (py "comprovante") (py "data_emissao")
                       (VStr (emitido_group1 m)) in
            setitem2 data (py "comprovante") (py "hora_emissao")
                     (VStr (emitido_group2 m))
        | None => ret data
        end
      else ret data
  end.

Definition next_of (rest : list pystr) : pystr :=
  match rest with
  | [] => []
  | n :: _ => n
  end.

Fixpoint extract_lines (lines : list pystr) (data : dict) : res dict :=
  match lines with
  | [] => ret data
  | line :: rest =>
      let* data := extract_line line (next_of rest) rest data in
      extract_lines rest data
  end.

(** [[line.strip() for line in text.split('\n') if line.strip()]] *)
Definition text_lines (text : pystr) : list pystr :=
  List.filter str_truthy (map strip (split_chr 10 text)).

Definition extract_from_text (clock text : pystr) : res CNPJData :=
  let* data := extract_lines (text_lines text) (initial_data clock) in
  CNPJData_kwargs data.

End Extractor.

(** ** Shapes and positions, used to state the properties *)

(** Two objects have the same shape when they have the same Python type
    and, for dictionaries, the same keys in the same order with values of
    the same shape. *)
Fixpoint same_shape (a b : pyval) : bool :=
  match a, b with
  | VNone, VNone => true
  | VBool _, VBool _ => true
  | VInt _, VInt _ => true
  | VStr _, VStr _ => true
  | VList _, VList _ => true
  | VDict d1, VDict d2 =>
      (fix entries (d1 d2 : list (pystr * pyval)) : bool :=
         match d1, d2 with
         | [], [] => true
         | (k1, v1) :: r1, (k2, v2) :: r2 =>
             str_eqb k1 k2 && same_shape v1 v2 && entries r1 r2
         | _, _ => false
         end) d1 d2
  | _, _ => false
  end.

(** [b] is the line that follows the line [a] somewhere in [lines]. *)
Definition adjacent (lines : list pystr) (a b : pystr) : Prop :=
  exists pre rest, lines = pre ++ a :: b :: rest.

(** The value under [section] and [key] of a returned record. *)
Definition field_value (c : Extractor.CNPJData) (section key : pystr)
    : res pyval :=
  getitem2 (Extractor.asdict c) section key.

(** ** A typed reading of the extractor's dictionary

    The dictionary built by [extract_from_text] has a fixed shape.  [view]
    names the parts of it that the scan can change, [encode] writes a view
    back as the dictionary, and [view_line] is the effect of one iteration
    of the scan on a view.  That [view_line] agrees with [extract_line] is
    proved below ([extract_line_view]). *)

Module View.
Import Extractor.

(** The fifteen targets of [field_map]. *)
Inductive simple_field :=
| FNumero | FDataAbertura | FRazaoSocial | FNomeFantasia | FPorte
| FLogradouro | FEndNumero | FComplemento | FCep | FBairro | FMunicipio
| FUf | FTelefone | FCadastral | FDataSituacao.

#[export] Instance simple_field_eq_dec : EqDecision simple_field.
Proof. solve_decision. Defined.

Definition all_fields : list simple_field :=
  [ FNumero; FDataAbertura; FRazaoSocial; FNomeFantasia; FPorte;
    FLogradouro; FEndNumero; FComplemento; FCep; FBairro; FMunicipio;
    FUf; FTelefone; FCadastral; FDataSituacao ].

(** The label of a field: its key in [field_map]. *)
Definition label (f : simple_field) : pystr :=
  match f with
  | FNumero => py "NÚMERO DE INSCRIÇÃO"
  | FDataAbertura => py "DATA DE ABERTURA"
  | FRazaoSocial => py "NOME EMPRESARIAL"
  | FNomeFantasia => py "TÍTULO DO ESTABELECIMENTO (NOME DE FANTASIA)"
  | FPorte => py "PORTE"
  | FLogradouro => py "LOGRADOURO"
  | FEndNumero => py "NÚMERO"
  | FComplemento => py "COMPLEMENTO"
  | FCep => py "CEP"
  | FBairro => py "BAIRRO/DISTRITO"
  | FMunicipio => py "MUNICÍPIO"
  | FUf => py "UF"
  | FTelefone => py "TELEFONE"
  | FCadastral => py "SITUAÇÃO CADASTRAL"
  | FDataSituacao => py "DATA DA SITUAÇÃO CADASTRAL"
  end.

(** The section and key of a field: its value in [field_map]. *)
Definition path (f : simple_field) : pystr * pystr :=
  match f with
  | FNumero => (py "cnpj", py "numero")
  | FDataAbertura => (py "cnpj", py "data_abertura")
  | FRazaoSocial => (py "empresa", py "razao_social")
  | FNomeFantasia => (py "empresa", py "nome_fantasia")
  | FPorte => (py "empresa", py "porte")
  | FLogradouro => (py "endereco", py "logradouro")
  | FEndNumero => (py "endereco", py "numero")
  | FComplemento => (py "endereco", py "complemento")
  | FCep => (py "endereco", py "cep")
  | FBairro => (py "endereco", py "bairro")
  | FMunicipio => (py "endereco", py "municipio")
  | FUf => (py "endereco", py "uf")
  | FTelefone => (py "contato", py "telefone")
  | FCadastral => (py "situacao", py "cadastral")
  | FDataSituacao => (py "situacao", py "data_situacao")
  end.

(** The field whose label is exactly [line], if any. *)
Definition field_of_label (line : pystr) : option simple_field :=
  List.find (fun f => str_eqb line (label f)) all_fields.

Definition is_label (line : pystr) : bool :=
  match field_of_label line with Some _ => true | None => false end.

Record cd := CD { codigo : pystr; descricao : pystr }.

Record view := mkView {
  simple : simple_field -> pystr;
  tipo : pystr;
  natureza : cd;
  principal : cd;
  secundarias : list cd;
  data_emissao : pystr;
  hora_emissao : pystr
}.

Definition initial_view : view :=
  mkView (fun _ => []) [] (CD [] []) (CD [] []) [] [] [].

Definition upd (f : simple_field) (x : pystr) (s : simple_field -> pystr)
    : simple_field -> pystr :=
  fun g => if decide (g = f) then x else s g.

Definition set_simple (f : simple_field) (x : pystr) (v : view) : view :=
  mkView (upd f x (simple v)) (tipo v) (natureza v) (principal v)
         (secundarias v) (data_emissao v) (hora_emissao v).

Definition set_tipo (x : pystr) (v : view) : view :=
  mkView (simple v) x (natureza v) (principal v) (secundarias v)
         (data_emissao v) (hora_emissao v).

Definition set_natureza (c : cd) (v : view) : view :=
  mkView (simple v) (tipo v) c (principal v) (secundarias v)
         (data_emissao v) (hora_emissao v).

Definition set_principal (c : cd) (v : view) : view :=
  mkView (simple v) (tipo v) (natureza v) c (secundarias v)
         (data_emissao v) (hora_emissao v).

Definition add_secundarias (cs : list cd) (v : view) : view :=
  mkView (simple v) (tipo v) (natureza v) (principal v)
         (secundarias v ++ cs) (data_emissao v) (hora_emissao v).

Definition set_emissao (d h : pystr) (v : view) : view :=
  mkView (simple v) (tipo v) (natureza v) (principal v) (secundarias v) d h.

Definition enc_cd (c : cd) : pyval := cod_desc (codigo c) (descricao c).

(** The dictionary of a view.  The keys [email], [motivo],
    [situacao_especial] and [data_situacao_especial] and the key [sucesso]
    have the value of [initial_data]: no view changes them. *)
Definition encode (clock : pystr) (v : view) : dict :=
  let s f := VStr (simple v f) in
  [ (py "cnpj",
      VDict [ (py "numero", s FNumero); (py "tipo", VStr (tipo v));
              (py "data_abertura", s FDataAbertura) ]);
    (py "empresa",
      VDict [ (py "razao_social", s FRazaoSocial);
              (py "nome_fantasia", s FNomeFantasia);
              (py "porte", s FPorte);
              (py "natureza_juridica", enc_cd (natureza v)) ]);
    (py "atividades",
      VDict [ (py "principal", enc_cd (principal v));
              (py "secundarias", VList (map enc_cd (secundarias v))) ]);
    (py "endereco",
      VDict [ (py "logradouro", s FLogradouro); (py "numero", s FEndNumero);
              (py "complemento", s FComplemento); (py "cep", s FCep);
              (py "bairro", s FBairro); (py "municipio", s FMunicipio);
              (py "uf", s FUf) ]);
    (py "contato",
      VDict [ (py "email", empty_str); (py "telefone", s FTelefone) ]);
    (py "situacao",
      VDict [ (py "cadastral", s FCadastral);
              (py "data_situacao", s FDataSituacao);
              (py "motivo", empty_str); (py "situacao_especial", empty_str);
              (py "data_situacao_especial", empty_str) ]);
    (py "comprovante",
      VDict [ (py "data_emissao", VStr (data_emissao v));
              (py "hora_emissao", VStr (hora_emissao v)) ]);
    (py "metadados",
      VDict [ (py "timestamp", VStr clock); (py "sucesso", VBool true) ]) ].

(** The dataclass instance built from the dictionary of a view. *)
Definition to_CNPJData (clock : pystr) (v : view) : CNPJData :=
  match encode clock v with
  | [ (_, a); (_, b); (_, c); (_, d); (_, e); (_, f); (_, g); (_, h) ] =>
      mkCNPJData a b c d e f g h
  | _ => mkCNPJData VNone VNone VNone VNone VNone VNone VNone VNone
  end.

Definition has_stop_marker (l : pystr) : bool :=
  existsb (fun stop => contains stop l) stop_markers.

(** A line of the form [<code> - <description>] that carries no boundary
    marker. *)
Definition is_activity_line (l : pystr) : bool :=
  contains sep l && negb (has_stop_marker l).

(** The code and the description of a line, split at the first [" - "]. *)
Definition split_activity (l : pystr) : cd :=
  match partition_first sep l with
  | Some (c, d) => CD c d
  | None => CD l []
  end.

Fixpoint take_while {A} (p : A -> bool) (l : list A) : list A :=
  match l with
  | [] => []
  | x :: l' => if p x then x :: take_while p l' else []
  end.

(** The activities read after a secondary-activities header: the longest
    run of activity lines, in order. *)
Definition scan_activities (rest : list pystr) : list cd :=
  map split_activity (take_while is_activity_line rest).

(** Whether the iteration on [line] runs the loop over the secondary
    activities: the header occurs in the line and no earlier branch of the
    [elif] chain takes the line. *)
Definition takes_secundarias (line next_line : pystr) : bool :=
  contains secundarias_header line
  && negb (contains natureza_header line && str_truthy next_line)
  && negb (contains principal_header line && str_truthy next_line).

(** The secondary activities of a whole scan: the activities read after
    each header, in the order of the headers. *)
Fixpoint secundarias_of_lines (lines : list pystr) : list cd :=
  match lines with
  | [] => []
  | line :: rest =>
      (if takes_secundarias line (next_of rest) then scan_activities rest
       else [])
      ++ secundarias_of_lines rest
  end.

(** The branch of [extract_line] taken by a line that is no key of
    [field_map]. *)
Inductive branch :=
| BMatriz | BFilial | BNatureza | BPrincipal | BSecundarias | BEmitido
| BNone.

Definition branch_of (line next_line : pystr) : branch :=
  if str_eqb line (py "MATRIZ") then BMatriz
  else if str_eqb line (py "FILIAL") then BFilial
  else if contains natureza_header line && str_truthy next_line
  then BNatureza
  else if contains principal_header line && str_truthy next_line
  then BPrincipal
  else if contains secundarias_header line then BSecundarias
  else if contains emitido_marker line then BEmitido
  else BNone.

Definition view_line (line next_line : pystr) (rest : list pystr) (v : view)
    : view :=
  match field_of_label line with
  | Some f =>
      if str_truthy next_line && negb (is_label next_line) then
        match f with
        | FEndNumero =>
            if str_truthy (simple v FEndNumero) then v
            else set_simple f next_line v
        | _ => set_simple f next_line v
        end
      else v
  | None =>
      match branch_of line next_line with
      | BMatriz => set_tipo (py "MATRIZ") v
      | BFilial => set_tipo (py "FILIAL") v
      | BNatureza =>
          if contains sep next_line
          then set_natureza (split_activity next_line) v
          else v
      | BPrincipal =>
          if contains sep next_line
          then set_principal (split_activity next_line) v
          else v
      | BSecundarias => add_secundarias (scan_activities rest) v
      | BEmitido =>
          match re_search emitido_pattern line with
          | Some m => set_emissao (emitido_group1 m) (emitido_group2 m) v
          | None => v
          end
      | BNone => v
      end
  end.

Fixpoint view_lines (lines : list pystr) (v : view) : view :=
  match lines with
  | [] => v
  | line :: rest => view_lines rest (view_line line (next_of rest) rest v)
  end.

(** Every part of a view is at its zero value or was read at a position of
    [lines] that its branch of the scan recognises. *)
Record located (lines : list pystr) (v : view) : Prop := {
  loc_simple : forall f,
    simple v f = [] \/
    (adjacent lines (label f) (simple v f) /\ is_label (simple v f) = false);
  loc_tipo :
    tipo v = [] \/
    (In (tipo v) lines /\ (tipo v = py "MATRIZ" \/ tipo v = py "FILIAL"));
  loc_natureza :
    natureza v = CD [] [] \/
    exists line next_line,
      adjacent lines line next_line
      /\ contains natureza_header line = true
      /\ contains sep next_line = true
      /\ natureza v = split_activity next_line;
  loc_principal :
    principal v = CD [] [] \/
    exists line next_line,
      adjacent lines line next_line
      /\ contains principal_header line = true
      /\ contains sep next_line = true
      /\ principal v = split_activity next_line;
  loc_secundarias :
    secundarias v = [] \/
    exists line, In line lines /\ contains secundarias_header line = true;
  loc_emissao :
    (data_emissao v = [] /\ hora_emissao v = []) \/
    exists line m,
      In line lines
      /\ contains emitido_marker line = true
      /\ re_search emitido_pattern line = Some m
      /\ data_emissao v = emitido_group1 m
      /\ hora_emissao v = emitido_group2 m
}.

End View.

(** ** The extractor of [main.py] *)

Module Legacy.
Import Extractor.

(** [data[a][b][c] = x] *)
Definition setitem3 (data : dict) (a b c : pystr) (x : pyval) : res dict :=
  let* inner := getitem (VDict data) a in
  let* inner2 := getitem inner b in
  let* inner2' := setitem inner2 c x in
  let* inner' := setitem inner b inner2' in
  ret (dict_set a inner' data).

Definition dados_iniciais : dict :=
  [ (py "cnpj",
      VDict [ (py "numero", empty_str); (py "tipo", empty_str);
              (py "data_abertura", empty_str) ]);
    (py "empresa",
      VDict [ (py "razao_social", empty_str); (py "nome_fantasia", empty_str);
              (py "porte", empty_str);
              (py "natureza_juridica", cod_desc [] []) ]);
    (py "atividades",
      VDict [ (py "principal", cod_desc [] []);
              (py "secundarias", VList []) ]);
    (py "endereco",
      VDict [ (py "logradouro", empty_str); (py "numero", empty_str);
              (py "complemento", empty_str); (py "cep", empty_str);
              (py "bairro", empty_str); (py "municipio", empty_str);
              (py "uf", empty_str) ]);
    (py "contato",
      VDict [ (py "email", empty_str); (py "telefone", empty_str) ]);
    (py "situacao",
      VDict [ (py "cadastral", empty_str); (py "data_situacao", empty_str);
              (py "motivo", empty_str); (py "situacao_especial", empty_str);
              (py "data_situacao_especial", empty_str) ]);
    (py "comprovante",
      VDict [ (py "data_emissao", empty_str);
              (py "hora_emissao", empty_str) ]) ].

(** [proxima_linha(i)], where [resto] is [linhas[i+1:]]: the first line that
    is not blank, stripped, or the empty string. *)
Fixpoint proxima_linha (resto : list pystr) : pystr :=
  match resto with
  | [] => []
  | l :: resto' =>
      if negb (str_truthy (strip l)) then proxima_linha resto' else strip l
  end.

Definition asteriscos : pystr := Eval vm_compute in py "********".

Definition marcadores : list pystr :=
  Eval vm_compute in
  [py "CÓDIGO E DESCRIÇÃO"; py "LOGRADOURO"; py "NATUREZA JURÍDICA"].

(** The [while] loop over the secondary activities; [ls] is [linhas[j:]]. *)
Fixpoint secundarias_loop (ls : list pystr) (dados : dict) : res dict :=
  match ls with
  | [] => ret dados
  | l :: ls' =>
      let linha_atividade := strip l in
      if negb (str_truthy linha_atividade) then secundarias_loop ls' dados
      else if existsb (fun campo => contains campo linha_atividade) marcadores
      then ret dados
      else
        let* dados :=
          if contains sep linha_atividade then
            let* (codigo, descricao) := unpack2 (split1 sep linha_atividade) in
            append2 dados (py "atividades") (py "secundarias")
                    (cod_desc codigo descricao)
          else ret dados in
        secundarias_loop ls' dados
  end.

(** [x in linhas[i + 2]], false when there is no such line. *)
Definition in_line_i2 (x : pystr) (resto : list pystr) : bool :=
  match resto with
  | _ :: l2 :: _ => contains x l2
  | _ => false
  end.

(** One iteration of [for i, linha in enumerate(linhas)]; [linha] is
    already stripped and [resto] is [linhas[i+1:]]. *)
Definition processar_linha (linha : pystr) (resto : list pystr)
    (dados : dict) : res dict :=
  let proxima := proxima_linha resto in
  if contains (py "NÚMERO DE INSCRIÇÃO") linha then
    let* dados := setitem2 dados (py "cnpj") (py "numero") (VStr proxima) in
    if in_line_i2 (py "MATRIZ") resto then
      setitem2 dados (py "cnpj") (py "tipo") (VStr (py "MATRIZ"))
    else if in_line_i2 (py "FILIAL") resto then
      setitem2 dados (py "cnpj") (py "tipo") (VStr (py "FILIAL"))
    else ret dados
  else if contains (py "DATA DE ABERTURA") linha then
    setitem2 dados (py "cnpj") (py "data_abertura") (VStr proxima)
  else if contains (py "NOME EMPRESARIAL") linha then
    setitem2 dados (py "empresa") (py "razao_social") (VStr proxima)
  else if contains (py "TÍTULO DO ESTABELECIMENTO (NOME DE FANTASIA)") linha
  then setitem2 dados (py "empresa") (py "nome_fantasia") (VStr proxima)
  else if contains (py "PORTE") linha && (length linha <? 20)%nat then
    setitem2 dados (py "empresa") (py "porte") (VStr proxima)
  else if contains natureza_header linha then
    if contains sep proxima then
      let* (codigo, descricao) := unpack2 (split1 sep proxima) in
      let* dados :=
        setitem3 dados (py "empresa") (py "natureza_juridica") (py "codigo")
                 (VStr codigo) in
      setitem3 dados (py "empresa") (py "natureza_juridica") (py "descricao")
               (VStr descricao)
    else ret dados
  else if contains principal_header linha then
    if contains sep proxima then
      let* (codigo, descricao) := unpack2 (split1 sep proxima) in
      let* dados :=
        setitem3 dados (py "atividades") (py "principal") (py "codigo")
                 (VStr codigo) in
      setitem3 dados (py "atividades") (py "principal") (py "descricao")
               (VStr descricao)
    else ret dados
  else if contains secundarias_header linha then
    secundarias_loop resto dados
  else if contains (py "LOGRADOURO") linha then
    setitem2 dados (py "endereco") (py "logradouro") (VStr proxima)
  else
    let* numero_vazio :=
      if contains (py "NÚMERO") linha then
        let* numero := getitem2 dados (py "endereco") (py "numero") in
        ret (negb (truthy numero))
      else ret false in
    if numero_vazio then
      setitem2 dados (py "endereco") (py "numero") (VStr proxima)
    else if contains (py "BAIRRO/DISTRITO") linha then
      setitem2 dados (py "endereco") (py "bairro") (VStr proxima)
    else if contains (py "MUNICÍPIO") linha then
      setitem2 dados (py "endereco") (py "municipio") (VStr proxima)
    else if contains (py "UF") linha && (length linha <? 10)%nat then
      setitem2 dados (py "endereco") (py "uf") (VStr proxima)
    else if contains (py "CEP") linha then
      setitem2 dados (py "endereco") (py "cep") (VStr proxima)
    else if contains (py "TELEFONE") linha then
      if str_truthy proxima && negb (str_eqb proxima asteriscos) then
        setitem2 dados (py "contato") (py "telefone") (VStr proxima)
      else ret dados
    else if str_eqb linha (py "SITUAÇÃO CADASTRAL") then
      if str_truthy proxima
         && negb (existsb (str_eqb proxima)
                    [py "DATA DA SITUAÇÃO CADASTRAL"; py "MOTIVO"])
      then setitem2 dados (py "situacao") (py "cadastral") (VStr proxima)
      else ret dados
    else if contains (py "DATA DA SITUAÇÃO CADASTRAL") linha then
      if str_truthy proxima && contains (py "/") proxima then
        setitem2 dados (py "situacao") (py "data_situacao") (VStr proxima)
      else ret dados
    else if contains (py "MOTIVO DE SITUAÇÃO CADASTRAL") linha then
      if str_truthy proxima && negb (str_eqb proxima asteriscos)
         && str_truthy (strip proxima)
      then setitem2 dados (py "situacao") (py "motivo") (VStr proxima)
      else ret dados
    else if str_eqb linha (py "SITUAÇÃO ESPECIAL") then
      if str_truthy proxima && negb (str_eqb proxima asteriscos)
         && str_truthy (strip proxima)
      then
        setitem2 dados (py "situacao") (py "situacao_especial") (VStr proxima)
      else ret dados
    else if contains (py "DATA DA SITUAÇÃO ESPECIAL") linha then
      if str_truthy proxima && negb (str_eqb proxima asteriscos)
         && contains (py "/") proxima
      then
        setitem2 dados (py "situacao") (py "data_situacao_especial")
                 (VStr proxima)
      else ret dados
    else if contains emitido_marker linha then
      match re_search emitido_pattern linha with
      | Some m =>
          let* dados :=
            setitem2 dados (py "comprovante") (py "data_emissao")
                     (VStr (emitido_group1 m)) in
          setitem2 dados (py "comprovante") (py "hora_emissao")
                   (VStr (emitido_group2 m))
      | None => ret dados
      end
    else ret dados.

Fixpoint processar_linhas (linhas : list pystr) (dados : dict) : res dict :=
  match linhas with
  | [] => ret dados
  | l :: resto =>
      let* dados := processar_linha (strip l) resto dados in
      processar_linhas resto dados
  end.

(** [_processar_dados] *)
Definition _processar_dados (texto : pystr) : res dict :=
  processar_linhas (split_chr 10 texto) dados_iniciais.

End Legacy.

(** ** The challenge client of [cnpj_consultor_v2.py] *)

(** [v.get(k, default)] *)
Definition pyget (v : pyval) (k : pystr) (default : pyval) : res pyval :=
  match v with
  | VDict d =>
      match assoc k d with
      | Some x => ret x
      | None => ret default
      end
  | _ => raise (Exn AttributeError (py "object has no attribute 'get'"))
  end.

(** [v == 1] *)
Definition eq_one (v : pyval) : bool :=
  match v with
  | VInt z => (z =? 1)%Z
  | VBool b => b
  | _ => false
  end.

(** [v == s] for a string [s] *)
Definition eq_str (v : pyval) (s : pystr) : bool :=
  match v with
  | VStr s' => str_eqb s' s
  | _ => false
  end.

Module Captcha.

(** What one request to [/res.php] does: [session.get] or [response.json()]
    raises, or the body decodes to an object. *)
Inductive reply :=
| ReplyRaises (e : exn)
| ReplyJson (result : pyval).

(** The solving service as seen by one call of [_wait_solution]: the reply
    to the [k]-th request, the seconds the request takes, and the seconds by
    which the sleep that follows it overshoots.  Time is the reading of
    [time.time()] relative to [start_time], in whole seconds; the clock
    never runs backwards. *)
Record service := {
  reply_of : nat -> reply;
  latency : nat -> N;
  overshoot : nat -> N
}.

Inductive event :=
| Poll (k : nat)
| Sleep (secs : Z).

(** How one iteration of the loop ends. *)
Inductive action :=
| Return (token : pyval)
| Break
| SleepAndContinue (secs : Z).

(** The body of the [try]. *)
Definition poll_try (r : reply) : res action :=
  let* result :=
    match r with
    | ReplyRaises e => raise e
    | ReplyJson v => ret v
    end in
  let* status := pyget result (py "status") VNone in
  if eq_one status then
    let* token := getitem result (py "request") in
    ret (Return token)
  else
    let* request := pyget result (py "request") VNone in
    if negb (eq_str request (py "CAPCHA_NOT_READY")) then ret Break
    else ret (SleepAndContinue 3).

(** The [try] with its [except Exception], which sleeps five seconds. *)
Definition poll_action (r : reply) : action :=
  match poll_try r with
  | inr a => a
  | inl _ => SleepAndContinue 5
  end.

(** The [while] loop; [k] requests were made and [elapsed] is
    [time.time() - start_time].  [None] when [fuel] runs out. *)
Fixpoint wait_loop (fuel : nat) (svc : service) (timeout : Z) (k : nat)
    (elapsed : Z) (tr : list event) : option (pyval * list event) :=
  match fuel with
  | O => None
  | S fuel' =>
      if (elapsed <? timeout)%Z then
        match poll_action (reply_of svc k) with
        | Return token => Some (token, tr ++ [Poll k])
        | Break => Some (VNone, tr ++ [Poll k])
        | SleepAndContinue secs =>
            wait_loop fuel' svc timeout (S k)
              (elapsed + Z.of_N (latency svc k) + secs
               + Z.of_N (overshoot svc k))%Z
              (tr ++ [Poll k; Sleep secs])
        end
      else Some (VNone, tr)
  end.

(** [_wait_solution]: the returned object ([None] is [VNone]) and the
    requests and sleeps made, in order. *)
Definition _wait_solution (fuel : nat) (svc : service) (timeout : Z)
    : option (pyval * list event) :=
  wait_loop fuel svc timeout O 0%Z [].

(** Iterations that always suffice. *)
Definition enough_fuel (timeout : Z) : nat := S (Z.to_nat timeout).

(** The runs of the loop from the [k]-th request on, as a relation between
    the elapsed time, the returned object and the events. *)
Inductive run (svc : service) (timeout : Z)
    : nat -> Z -> pyval -> list event -> Prop :=
| run_timeout k elapsed :
    (timeout <= elapsed)%Z ->
    run svc timeout k elapsed VNone []
| run_return k elapsed token :
    (elapsed < timeout)%Z ->
    poll_action (reply_of svc k) = Return token ->
    run svc timeout k elapsed token [Poll k]
| run_break k elapsed :
    (elapsed < timeout)%Z ->
    poll_action (reply_of svc k) = Break ->
    run svc timeout k elapsed VNone [Poll k]
| run_sleep k elapsed secs result tr :
    (elapsed < timeout)%Z ->
    poll_action (reply_of svc k) = SleepAndContinue secs ->
    run svc timeout (S k)
        (elapsed + Z.of_N (latency svc k) + secs + Z.of_N (overshoot svc k))%Z
        result tr ->
    run svc timeout k elapsed result (Poll k :: Sleep secs :: tr).

(** A trace in which every request but the last is followed by a sleep of
    at least three seconds, and every sleep by a request or by the end. *)
Fixpoint well_paced (tr : list event) : bool :=
  match tr with
  | [] => true
  | [Poll _] => true
  | Poll _ :: Sleep secs :: tr' => (3 <=? secs)%Z && well_paced tr'
  | _ => false
  end.

(** What the [k]-th request, once made, decides about the call. *)
Definition decided_by (svc : service) (result : pyval) (tr : list event)
    (k : nat) : Prop :=
  match poll_action (reply_of svc k) with
  | Return token => result = token /\ last tr = Some (Poll k)
  | Break => result = VNone /\ last tr = Some (Poll k)
  | SleepAndContinue secs =>
      exists pre post, tr = pre ++ Poll k :: Sleep secs :: post
  end.

(** The numbers of the requests of a trace, in order. *)
Definition requests (tr : list event) : list nat :=
  flat_map (fun ev => match ev with Poll k => [k] | Sleep _ => [] end) tr.

(** The seconds that the iterations recorded in a trace take: for each
    request that is followed by a sleep, the request, the sleep and its
    overshoot. *)
Fixpoint duration (svc : service) (tr : list event) : Z :=
  match tr with
  | Poll k :: Sleep secs :: tr' =>
      (Z.of_N (latency svc k) + secs + Z.of_N (overshoot svc k)
       + duration svc tr')%Z
  | _ => 0%Z
  end.

(** How a call that returned [result] with the trace [tr] ended: at its
    last request, answered with the token or with an explicit error, or
    with the timeout elapsed after the last sleep (or before any request). *)
Definition ended (svc : service) (timeout : Z) (result : pyval)
    (tr : list event) : Prop :=
  match last tr with
  | Some (Poll k) =>
      poll_action (reply_of svc k) = Return result
      \/ (poll_action (reply_of svc k) = Break /\ result = VNone)
  | _ => result = VNone /\ (timeout <= duration svc tr)%Z
  end.

End Captcha.

(** ** The challenge client of [main.py] *)

Module LegacyCaptcha.
Import Captcha.

(** The body of the [try] of [_wait_for_result]: an explicit error status
    raises inside the [try]. *)
Definition poll_try (r : reply) : res action :=
  let* result :=
    match r with
    | ReplyRaises e => raise e
    | ReplyJson v => ret v
    end in
  let* status := pyget result (py "status") VNone in
  if eq_one status then
    let* token := getitem result (py "request") in
    ret (Return (VDict [(py "token", token)]))
  else
    let* request := pyget result (py "request") VNone in
    if eq_str request (py "CAPCHA_NOT_READY") then ret (SleepAndContinue 5)
    else raise (Exn OtherException (py "Erro na resolução")).

Definition poll_action (r : reply) : action :=
  match poll_try r with
  | inr a => a
  | inl _ => SleepAndContinue 5
  end.

(** [for attempt in range(max_attempts)]; [todo] attempts remain and [k]
    were made. *)
Fixpoint wait_loop (todo : nat) (reply_of : nat -> reply) (k : nat)
    (tr : list event) : pyval * list event :=
  match todo with
  | O => (VNone, tr)
  | S todo' =>
      match poll_action (reply_of k) with
      | Return token => (token, tr ++ [Poll k])
      | Break => (VNone, tr ++ [Poll k])
      | SleepAndContinue secs =>
          wait_loop todo' reply_of (S k) (tr ++ [Poll k; Sleep secs])
      end
  end.

Definition _wait_for_result (reply_of : nat -> reply) (max_attempts : nat)
    : pyval * list event :=
  wait_loop max_attempts reply_of O [].

End LegacyCaptcha.

(** ** The coordinator of [cnpj_consultor_v2.py] *)

Module Coordinator.
Import Extractor.

(** A path of the cache directory at which there is something: a file
    whose text does not decode ([read_text] or [json.loads] raises, as for
    an empty or truncated file), a file that decodes to an object, or a
    path that cannot be examined, for which [exists()] raises [e] (an
    [OSError] that [pathlib] does not take for absence, such as
    [PermissionError]). *)
Inductive cache_file :=
| Unreadable
| Json (data : pyval)
| Inaccessible (e : exn).

(** What the coordinator does to the world outside it, in order. *)
Inductive event :=
| CacheLookup (cnpj : pystr)
| CacheWrite (cnpj : pystr)
| SetupBrowser
| Goto (url : pystr)
| SolveCaptcha
| SubmitQuery
| InnerText
| Extract
| Cleanup
| LogInfo
| LogWarning
| LogError (attempt : nat) (message : pystr)
| Sleep (secs : Z).

(** The cache directory, keyed by the stem of the file name, and the
    events so far. *)
Record state := mkState {
  cache : gmap pystr cache_file;
  trace : list event
}.

(** The behaviour of the browser session during one attempt: for each call
    of the collaborator, the exception it raises, if any, and what it
    returns. *)
Record attempt_env := {
  a_setup : option exn;
  a_goto : option exn;
  a_captcha : option exn;
  a_submit : option exn;
  a_inner_text : res pystr;
  a_url : pystr;
  a_clock : pystr;
  a_cleanup : option exn
}.

(** The environment of one call of [consultar]. *)
Record env := {
  attempt_of : nat -> attempt_env;
  (** [time.time()], in seconds *)
  now : Z;
  (** [time.mktime(time.strptime(s, "%Y-%m-%d %H:%M:%S"))]; [None] when
      it raises *)
  mktime_strptime : pystr -> option Z;
  (** whether [write_text] of the cache file raises *)
  write_raises : bool;
  (** when it raises: whether it had opened the file, which truncates it *)
  write_truncates : bool;
  (** [time.strftime("%Y-%m-%d %H:%M:%S")] read by [_error_response] *)
  error_clock : pystr
}.

Definition M (A : Type) : Type := state -> res A * state.

Definition mret {A} (a : A) : M A := fun st => (inr a, st).

Definition mbind {A B} (m : M A) (k : A -> M B) : M B :=
  fun st =>
    match m st with
    | (inl e, st') => (inl e, st')
    | (inr a, st') => k a st'
    end.

Notation "'let!' x := m 'in' k" :=
  (mbind m (fun x => k))
  (at level 10, x pattern, m at level 100, k at level 200).

Definition lift {A} (r : res A) : M A := fun st => (r, st).

Definition emit (ev : event) : M unit :=
  fun st => (inr tt, mkState (cache st) (trace st ++ [ev])).

(** [try: body except Exception as e: handler e] *)
Definition try_except {A} (body : M A) (handler : exn -> M A) : M A :=
  fun st =>
    match body st with
    | (inl e, st') => handler e st'
    | (inr a, st') => (inr a, st')
    end.

(** [try: body finally: final] *)
Definition try_finally {A} (body : M A) (final : M unit) : M A :=
  fun st =>
    match body st with
    | (r, st') =>
        match final st' with
        | (inl e, st'') => (inl e, st'')
        | (inr _, st'') => (r, st'')
        end
    end.

(** A call of the collaborator that returns nothing. *)
Definition call (ev : event) (outcome : option exn) : M unit :=
  let! _ := emit ev in
  match outcome with
  | Some e => lift (raise e)
  | None => mret tt
  end.

(** [re.sub(r'\D', '', cnpj)] *)
Definition strip_non_digits (cnpj : pystr) : pystr :=
  List.filter re_digit cnpj.

Definition _clean_cnpj (cnpj : pystr) : res pystr :=
  let clean := strip_non_digits cnpj in
  if negb (length clean =? 14)%nat then
    raise (Exn ValueError (py "CNPJ inválido: " ++ cnpj))
  else ret clean.

(** The [try] of [_get_cache], entered when the file exists. *)
Definition read_cache (E : env) (file : cache_file) : res pyval :=
  let* data :=
    match file with
    | Unreadable => raise (Exn ValueError (py "unreadable cache file"))
    | Json v => ret v
    | Inaccessible e => raise e
    end in
  let* md := pyget data (py "metadados") (VDict []) in
  let* ts := pyget md (py "timestamp") (VStr []) in
  let* cache_time :=
    match ts with
    | VStr s =>
        match mktime_strptime E s with
        | Some t => ret t
        | None => raise (Exn ValueError (py "time data does not match format"))
        end
    | _ => raise (Exn TypeError (py "strptime() argument 0 must be str"))
    end in
  if (now E - cache_time <? 86400)%Z then ret data else ret VNone.

(** [_get_cache]: [cache_file.exists()] is evaluated outside the [try],
    so what it raises leaves the function; everything inside the [try]
    that raises is caught by the bare [except] and ends in [return None]. *)
Definition _get_cache (E : env) (cnpj : pystr) : M pyval :=
  let! _ := emit (CacheLookup cnpj) in
  fun st =>
    match cache st !! cnpj with
    | Some (Inaccessible e) => (inl e, st)
    | Some file =>
        match read_cache E file with
        | inr v => (inr v, st)
        | inl _ => (inr VNone, st)
        end
    | None => (inr VNone, st)
    end.

(** [_save_cache]: [write_text] opens the file for writing, which empties
    it, and then writes.  When it raises after opening, the file is left
    empty or cut short, and does not decode; when it raises before, the
    directory is as it was.  The [except Exception] logs a warning. *)
Definition _save_cache (E : env) (cnpj : pystr) (data : pyval) : M unit :=
  let! _ := emit (CacheWrite cnpj) in
  if write_raises E then
    let! _ :=
      fun st =>
        (inr tt,
         if write_truncates E
         then mkState (<[cnpj := Unreadable]> (cache st)) (trace st)
         else st) in
    emit LogWarning
  else fun st => (inr tt, mkState (<[cnpj := Json data]> (cache st)) (trace st)).

Definition _error_response (E : env) (error : pystr) : pyval :=
  VDict [ (py "erro", VStr error);
          (py "metadados",
            VDict [ (py "sucesso", VBool false);
                    (py "timestamp", VStr (error_clock E)) ]) ].

Definition query_url : pystr :=
  py "https://solucoes.receita.fazenda.gov.br/servicos/cnpjreva/Cnpjreva_Solicitacao.asp?cnpj=".

Definition _perform_consultation (a : attempt_env) (cnpj : pystr) : M pyval :=
  try_finally
    (let! _ := call SetupBrowser (a_setup a) in
     let! _ := call (Goto (query_url ++ cnpj)) (a_goto a) in
     let! _ := call SolveCaptcha (a_captcha a) in
     let! _ := call SubmitQuery (a_submit a) in
     let! _ := emit InnerText in
     let! text := lift (a_inner_text a) in
     let! _ := emit Extract in
     let! data := lift (extract_from_text (a_clock a) text) in
     let! md :=
       lift (setitem (metadados data) (py "url_consulta") (VStr (a_url a))) in
     mret (VDict (asdict (mkCNPJData (Extractor.cnpj data) (empresa data)
                            (atividades data) (endereco data) (contato data)
                            (situacao data) (comprovante data) md))))
    (call Cleanup (a_cleanup a)).

(** The body of the [try] of one attempt. *)
Definition attempt_try (E : env) (cnpj_clean : pystr) (use_cache : bool)
    (attempt : nat) : M pyval :=
  let! result := _perform_consultation (attempt_of E attempt) cnpj_clean in
  let! md := lift (pyget result (py "metadados") (VDict [])) in
  let! sucesso := lift (pyget md (py "sucesso") VNone) in
  let! _ :=
    if truthy sucesso && use_cache then _save_cache E cnpj_clean result
    else mret tt in
  mret result.

(** [for attempt in range(max_retries)], over the attempts still to run. *)
Fixpoint attempts_loop (E : env) (cnpj_clean : pystr) (use_cache : bool)
    (max_retries : nat) (todo : list nat) : M pyval :=
  match todo with
  | [] => mret (_error_response E (py "Máximo de tentativas excedido"))
  | attempt :: todo' =>
      try_except
        (attempt_try E cnpj_clean use_cache attempt)
        (fun e =>
           let! _ := emit (LogError (attempt + 1) (exn_str e)) in
           if (attempt <? max_retries - 1)%nat then
             let! _ := emit (Sleep 10) in
             attempts_loop E cnpj_clean use_cache max_retries todo'
           else mret (_error_response E (exn_str e)))
  end.

Definition consultar (E : env) (cnpj : pystr) (use_cache : bool) : M pyval :=
  let! cnpj_clean := lift (_clean_cnpj cnpj) in
  let! hit :=
    if use_cache then
      let! cached := _get_cache E cnpj_clean in
      if truthy cached then
        let! _ := emit LogInfo in
        mret (Some cached)
      else mret None
    else mret None in
  match hit with
  | Some cached => mret cached
  | None =>
      let max_retries := 3%nat in
      attempts_loop E cnpj_clean use_cache max_retries (seq 0 max_retries)
  end.

(** Whether the cache lookup ends the call: [_get_cache] returns an object
    that [if cached:] accepts, which [consultar] returns, or [exists()]
    raises, which [consultar] lets through.  When it is [false], the
    lookup returns a value that [if cached:] rejects and [consultar] goes
    on to the attempts. *)
Definition cache_hit (E : env) (st : state) (cnpj_clean : pystr) : bool :=
  match cache st !! cnpj_clean with
  | Some (Inaccessible _) => true
  | Some file =>
      match read_cache E file with
      | inr v => truthy v
      | inl _ => false
      end
  | None => false
  end.

(** An attempt fails when [_perform_consultation] raises, whatever the
    identifier and the state it starts from. *)
Definition attempt_fails (a : attempt_env) : Prop :=
  forall cnpj st, exists e st', _perform_consultation a cnpj st = (inl e, st').

(** The number of attempts a trace records. *)
Definition count_attempts (tr : list event) : nat :=
  length (List.filter
            (fun ev => match ev with SetupBrowser => true | _ => false end) tr).

(** Whether an event reaches the browser session, the challenge solver or
    the extractor. *)
Definition is_session_event (ev : event) : bool :=
  match ev with
  | SetupBrowser | Goto _ | SolveCaptcha | SubmitQuery | InnerText
  | Extract | Cleanup => true
  | _ => false
  end.

(** The events of one attempt: one browser set-up, and session events
    only. *)
Definition one_attempt (evs : list event) : Prop :=
  count_attempts evs = 1%nat /\ forallb is_session_event evs = true.

End Coordinator.

(** ** Inputs and environments used in the examples *)

Section Inputs.
Import Extractor View Coordinator.

(** What [_perform_consultation] returns when no call of the session
    raises: the dictionary of the extracted record with [url_consulta]
    added to [metadados]. *)
Definition consultation_result (a : attempt_env) (text : pystr) : pyval :=
  let c := to_CNPJData (a_clock a)
             (view_lines (text_lines text) initial_view) in
  VDict (asdict (mkCNPJData (Extractor.cnpj c) (empresa c) (atividades c)
                   (endereco c) (contato c) (situacao c) (comprovante c)
                   (VDict [ (py "timestamp", VStr (a_clock a));
                            (py "sucesso", VBool true);
                            (py "url_consulta", VStr (a_url a)) ]))).

(** The masked telephone of a registry page. *)
Definition masked_phone_text : pystr :=
  unlines [py "TELEFONE"; py "********"].

(** The lines of the boundary example of the specification. *)
Definition boundary_lines : list pystr :=
  [ py "CÓDIGO E DESCRIÇÃO DAS ATIVIDADES ECONÔMICAS SECUNDÁRIAS";
    py "01.01-1 - A"; py "02.02-2 - B"; py "LOGRADOURO"; py "Rua X" ].

(** The page of the end-to-end scenario of the specification. *)
Definition scenario_text : pystr :=
  unlines [py "NÚMERO DE INSCRIÇÃO"; py "38.139.407/0001-77"; py "MATRIZ"].

Definition sample_clock : pystr := py "2026-11-04 10:00:00".

Definition sample_id : pystr := py "38.139.407/0001-77".

Definition navigation_timeout : exn :=
  Exn OtherException (py "Timeout 30000ms exceeded").

(** An attempt whose navigation times out. *)
Definition failing_attempt : attempt_env :=
  {| a_setup := None; a_goto := Some navigation_timeout; a_captcha := None;
     a_submit := None; a_inner_text := inr []; a_url := [];
     a_clock := sample_clock; a_cleanup := None |}.

(** An attempt in which every call succeeds. *)
Definition working_attempt : attempt_env :=
  {| a_setup := None; a_goto := None; a_captcha := None; a_submit := None;
     a_inner_text := inr scenario_text;
     a_url := py "https://solucoes.receita.fazenda.gov.br/servicos/cnpjreva/Cnpjreva_Comprovante.asp";
     a_clock := sample_clock; a_cleanup := None |}.

(** An environment in which every attempt fails; the clock reads 400
    seconds after the time of every timestamp. *)
Definition failing_env : env :=
  {| attempt_of := fun _ => failing_attempt;
     now := 1762250400;
     mktime_strptime := fun _ => Some 1762250000%Z;
     write_raises := false;
     write_truncates := false;
     error_clock := sample_clock |}.

Definition empty_state : state := mkState ∅ [].

Definition cached_metadados : dict :=
  [ (py "timestamp", VStr (py "2026-11-04 09:53:20"));
    (py "sucesso", VBool true) ].

Definition cached_record : dict :=
  [ (py "cnpj", VDict [ (py "numero", VStr sample_id) ]);
    (py "metadados", VDict cached_metadados) ].

Definition cached_state : state :=
  mkState {[ py "38139407000177" := Json (VDict cached_record) ]} [].

(** A service that answers twice that the solution is not ready and then
    delivers it, and one that first reports an error. *)
Definition not_ready : Captcha.reply :=
  Captcha.ReplyJson
    (VDict [ (py "status", VInt 0); (py "request", VStr (py "CAPCHA_NOT_READY")) ]).

Definition solved : Captcha.reply :=
  Captcha.ReplyJson
    (VDict [ (py "status", VInt 1); (py "request", VStr (py "P1_token")) ]).

Definition unsolvable : Captcha.reply :=
  Captcha.ReplyJson
    (VDict [ (py "status", VInt 0);
             (py "request", VStr (py "ERROR_CAPTCHA_UNSOLVABLE")) ]).

Definition slow_service : Captcha.service :=
  {| Captcha.reply_of := fun k => if (k <? 2)%nat then not_ready else solved;
     Captcha.latency := fun _ => 1;
     Captcha.overshoot := fun _ => 0 |}.

Definition error_then_solved (k : nat) : Captcha.reply :=
  match k with
  | O => unsolvable
  | _ => solved
  end.

End Inputs.

(** ** Readings of traces and environments *)

Section CoordinatorReadings.
Import Extractor View Coordinator.

(** An attempt in which no call of the session raises and the page text is
    [text]. *)
Definition attempt_succeeds (a : attempt_env) (text : pystr) : Prop :=
  a_setup a = None /\ a_goto a = None /\ a_captcha a = None
  /\ a_submit a = None /\ a_inner_text a = inr text /\ a_cleanup a = None.

(** The durations of the sleeps of a trace, in order. *)
Definition sleeps_of (tr : list event) : list Z :=
  flat_map (fun ev => match ev with Sleep secs => [secs] | _ => [] end) tr.

Definition is_cache_event (ev : event) : bool :=
  match ev with
  | CacheLookup _ | CacheWrite _ => true
  | _ => false
  end.

(** The events of an attempt in which every call succeeds. *)
Definition success_events (cnpj_clean : pystr) : list event :=
  [ SetupBrowser; Goto (query_url ++ cnpj_clean); SolveCaptcha; SubmitQuery;
    InnerText; Extract; Cleanup ].

(** What a successful attempt leaves in the cache and in the trace after
    its own events. *)
Definition saved_cache (E : env) (cnpj_clean : pystr) (use_cache : bool)
    (result : pyval) (c : gmap pystr cache_file) : gmap pystr cache_file :=
  if use_cache then
    if write_raises E then
      if write_truncates E then <[cnpj_clean := Unreadable]> c else c
    else <[cnpj_clean := Json result]> c
  else c.

(** The path of the cache file can be examined: [exists()] does not
    raise. *)
Definition accessible (st : state) (cnpj_clean : pystr) : Prop :=
  forall e, cache st !! cnpj_clean <> Some (Inaccessible e).

Definition save_events (E : env) (cnpj_clean : pystr) (use_cache : bool)
    : list event :=
  if use_cache then
    CacheWrite cnpj_clean :: (if write_raises E then [LogWarning] else [])
  else [].

(** The events of [consultar] before the first attempt. *)
Definition lookup_events (cnpj_clean : pystr) (use_cache : bool)
    : list event :=
  if use_cache then [CacheLookup cnpj_clean] else [].

(** The number of times a trace releases the session. *)
Definition count_cleanups (tr : list event) : nat :=
  length (List.filter
            (fun ev => match ev with Cleanup => true | _ => false end) tr).

(** An environment in which the first attempt fails and the second
    succeeds. *)
Definition recovering_env : env :=
  {| attempt_of := fun k => match k with
                            | O => failing_attempt
                            | _ => working_attempt
                            end;
     now := 1762250400;
     mktime_strptime := fun _ => Some 1762250000%Z;
     write_raises := false;
     write_truncates := false;
     error_clock := sample_clock |}.

(** The exception with which the body of the [try] of
    [_perform_consultation] ends, if any: that of the first call that
    raises. *)
Definition body_failure (a : attempt_env) : option exn :=
  match a_setup a with
  | Some e => Some e
  | None =>
      match a_goto a with
      | Some e => Some e
      | None =>
          match a_captcha a with
          | Some e => Some e
          | None =>
              match a_submit a with
              | Some e => Some e
              | None =>
                  match a_inner_text a with
                  | inl e => Some e
                  | inr _ => None
                  end
              end
          end
      end
  end.

(** The events of the body of the [try] when no call raises. *)
Definition body_events (cnpj_clean : pystr) : list event :=
  [ SetupBrowser; Goto (query_url ++ cnpj_clean); SolveCaptcha; SubmitQuery;
    InnerText; Extract ].

(** [clean] is [cnpj] with some characters left out. *)
Fixpoint is_subsequence (clean cnpj : pystr) : bool :=
  match clean, cnpj with
  | [], _ => true
  | _ :: _, [] => false
  | c :: clean', d :: cnpj' =>
      if (c =? d)%N then is_subsequence clean' cnpj'
      else is_subsequence clean cnpj'
  end.

(** An environment in which every attempt succeeds and the cache file
    cannot be written once it is open; the clock reads 100000 seconds
    after the time of every timestamp. *)
Definition truncating_env : env :=
  {| attempt_of := fun _ => working_attempt;
     now := 1762350000;
     mktime_strptime := fun _ => Some 1762250000%Z;
     write_raises := true;
     write_truncates := true;
     error_clock := sample_clock |}.

Definition permission_denied : exn :=
  Exn OtherException (py "[Errno 13] Permission denied").

(** A cache directory in which the file of the sample identifier cannot
    be examined. *)
Definition locked_state : state :=
  mkState {[ py "38139407000177" := Inaccessible permission_denied ]} [].

End CoordinatorReadings.

(** ** [solve_hcaptcha] of [cnpj_consultor_v2.py] *)

Module Solver.
Import Captcha.

(** The body of the [try] of [_submit_captcha]: the reply to the request
    to [/in.php] is decoded, and with status 1 its [request] entry is
    formatted for the log and returned. *)
Definition submit_try (r : reply) : res pyval :=
  let* result :=
    match r with
    | ReplyRaises e => raise e
    | ReplyJson v => ret v
    end in
  let* status := pyget result (py "status") VNone in
  if eq_one status then
    let* logged := getitem result (py "request") in
    getitem result (py "request")
  else ret VNone.

(** [_submit_captcha]: the [except Exception] logs and falls through to
    [return None]. *)
Definition _submit_captcha (r : reply) : res pyval :=
  match submit_try r with
  | inr v => ret v
  | inl _ => ret VNone
  end.

(** The solving service as seen by one call of [solve_hcaptcha]: the reply
    to the submission of each attempt, the service that the wait of each
    attempt polls, and [self.timeout]. *)
Record solver_env := {
  submit_reply : nat -> reply;
  service_of : nat -> service;
  timeout : Z
}.

Inductive event :=
| Submit (attempt : nat)
| Wait (attempt : nat) (polls : list Captcha.event)
| LogWarning (attempt : nat)
| Pause (secs : Z).

(** How the body of the [try] of one attempt ends when it does not raise. *)
Inductive outcome :=
| NextAttempt
| ReturnToken (token : pyval).

(** The body of the [try] of one attempt; [None] when the wait runs out of
    [fuel]. *)
Definition attempt_try (fuel : nat) (sv : solver_env) (attempt : nat)
    : option (res outcome * list event) :=
  match _submit_captcha (submit_reply sv attempt) with
  | inl e => Some (inl e, [Submit attempt])
  | inr captcha_id =>
      if negb (truthy captcha_id) then
        Some (inr NextAttempt, [Submit attempt])
      else
        match _wait_solution fuel (service_of sv attempt) (timeout sv) with
        | None => None
        | Some (token, polls) =>
            Some (inr (if truthy token then ReturnToken token
                       else NextAttempt),
                  [Submit attempt; Wait attempt polls])
        end
  end.

Definition prepend (evs : list event) (r : option (pyval * list event))
    : option (pyval * list event) :=
  match r with
  | Some (v, tr) => Some (v, evs ++ tr)
  | None => None
  end.

(** [for attempt in range(max_retries)], over the attempts still to run. *)
Fixpoint solve_loop (fuel : nat) (sv : solver_env) (max_retries : nat)
    (todo : list nat) : option (pyval * list event) :=
  match todo with
  | [] => Some (VNone, [])
  | attempt :: todo' =>
      match attempt_try fuel sv attempt with
      | None => None
      | Some (inr (ReturnToken token), evs) => Some (token, evs)
      | Some (inr NextAttempt, evs) =>
          prepend evs (solve_loop fuel sv max_retries todo')
      | Some (inl e, evs) =>
          prepend
            (evs ++ LogWarning (attempt + 1)
                 :: (if (attempt <? max_retries - 1)%nat then [Pause 5]
                     else []))
            (solve_loop fuel sv max_retries todo')
      end
  end.

Definition solve_hcaptcha (fuel : nat) (sv : solver_env)
    : option (pyval * list event) :=
  let max_retries := 3%nat in
  solve_loop fuel sv max_retries (seq 0 max_retries).

(** The number of submissions of a trace. *)
Definition submissions (tr : list event) : nat :=
  length (List.filter
            (fun ev => match ev with Submit _ => true | _ => false end) tr).

Definition is_pause (ev : event) : bool :=
  match ev with
  | Pause _ | LogWarning _ => true
  | _ => false
  end.

(** Attempt [k] delivers [token]: its submission is accepted with an
    identifier that [if not captcha_id] lets through, and its wait returns
    [token], which [if token] accepts. *)
Definition delivers (sv : solver_env) (k : nat) (token : pyval) : Prop :=
  exists captcha_id polls,
    _submit_captcha (submit_reply sv k) = inr captcha_id
    /\ truthy captcha_id = true
    /\ _wait_solution (enough_fuel (timeout sv)) (service_of sv k) (timeout sv)
       = Some (token, polls)
    /\ truthy token = true.

End Solver.

(** ** [solve_hcaptcha] of [main.py] *)

Module LegacySolver.
Import Captcha.

(** The body of the [try]: a status other than 1 raises, with the
    [request] entry in the message. *)
Definition solve_try (submit : reply) (reply_of : nat -> reply)
    : res (pyval * list event) :=
  let* result :=
    match submit with
    | ReplyRaises e => raise e
    | ReplyJson v => ret v
    end in
  let* status := pyget result (py "status") VNone in
  if negb (eq_one status) then
    let* request :=
      pyget result (py "request") (VStr (py "Erro desconhecido")) in
    raise (Exn OtherException (py "Erro ao submeter captcha"))
  else
    let* captcha_id := getitem result (py "request") in
    ret (LegacyCaptcha._wait_for_result reply_of 60).

(** [solve_hcaptcha]: the [except Exception] prints and returns [None]. *)
Definition solve_hcaptcha (submit : reply) (reply_of : nat -> reply)
    : res (pyval * list event) :=
  match solve_try submit reply_of with
  | inr r => ret r
  | inl _ => ret (VNone, [])
  end.

(** The requests and sleeps of the [n] rounds from [k] on when none of
    them returns. *)
Definition rounds_from (k n : nat) : list event :=
  flat_map (fun i => [Poll i; Sleep 5]) (seq k n).

Definition rounds (n : nat) : list event := rounds_from 0 n.

(** The number of requests of a trace. *)
Definition polls (tr : list event) : nat :=
  length (List.filter
            (fun ev => match ev with Poll _ => true | _ => false end) tr).

(** The seconds a trace sleeps. *)
Definition slept (tr : list event) : Z :=
  fold_right (fun ev acc => match ev with Sleep s => s + acc | _ => acc end)%Z
             0%Z tr.

(** The reply carries a solution: an object with status 1 and a [request]
    entry. *)
Definition solution_of (r : reply) : option pyval :=
  match r with
  | ReplyJson (VDict d) =>
      match assoc (py "status") d with
      | Some status =>
          if eq_one status then assoc (py "request") d else None
      | None => None
      end
  | _ => None
  end.

End LegacySolver.

Section SolverInputs.

(** A service that rejects the first submission, accepts the second and
    delivers its token at the third request. *)
Definition second_try_env : Solver.solver_env :=
  {| Solver.submit_reply := fun k =>
       match k with
       | O => unsolvable
       | _ => Captcha.ReplyJson
                (VDict [ (py "status", VInt 1);
                         (py "request", VStr (py "7001")) ])
       end;
     Solver.service_of := fun _ => slow_service;
     Solver.timeout := 300 |}.

End SolverInputs.

(** ** The browser session of [cnpj_consultor_v2.py] *)

Module Session.

(** The calls of the Playwright driver that [_setup_browser] and
    [_cleanup] make. *)
Inductive call :=
| Start | Launch | NewContext | NewPage | Route | Close | Stop.

Inductive event :=
| Call (c : call) (handle : nat)
| WaitSelector
| GetAttribute
| Solve (tr : list Solver.event)
| Evaluate (token : pyval)
| Sleep (secs : Z)
| Screenshot (error_type : pystr)
| Content
| WriteHtml (error_type : pystr).

(** The attributes [self.playwright], [self.browser] and [self.page] of the
    coordinator; a handle is the number of the [start()] that led to it.
    [started] counts the drivers started so far. *)
Record state := mkState {
  playwright : option nat;
  browser : option nat;
  page : option nat;
  started : nat;
  trace : list event
}.

(** The world outside: the exception each driver call raises, if any, and
    the behaviour of the page during [_solve_captcha] and
    [_save_debug_info]. *)
Record world := {
  raises : call -> nat -> option exn;
  (** [wait_for_selector] raises, or returns an object that [if element]
      accepts or not *)
  selector : res bool;
  get_attribute : option exn;
  solver : Solver.solver_env;
  evaluate : option exn;
  screenshot : option exn;
  content : option exn;
  write_text : option exn
}.

Definition M (A : Type) : Type := state -> res A * state.

Definition mret {A} (a : A) : M A := fun st => (inr a, st).

Definition mbind {A B} (m : M A) (k : A -> M B) : M B :=
  fun st =>
    match m st with
    | (inl e, st') => (inl e, st')
    | (inr a, st') => k a st'
    end.

Notation "'let!' x := m 'in' k" :=
  (mbind m (fun x => k))
  (at level 10, x pattern, m at level 100, k at level 200).

Definition log (ev : event) (st : state) : state :=
  mkState (playwright st) (browser st) (page st) (started st)
          (trace st ++ [ev]).

(** A call that returns nothing or raises. *)
Definition perform (ev : event) (outcome : option exn) : M unit :=
  fun st =>
    (match outcome with Some e => inl e | None => inr tt end, log ev st).

Definition driver (w : world) (c : call) (handle : nat) : M unit :=
  perform (Call c handle) (raises w c handle).

Definition set_playwright (h : option nat) : M unit :=
  fun st =>
    (inr tt, mkState h (browser st) (page st) (started st) (trace st)).

Definition set_browser (h : option nat) : M unit :=
  fun st =>
    (inr tt, mkState (playwright st) h (page st) (started st) (trace st)).

Definition set_page (h : option nat) : M unit :=
  fun st =>
    (inr tt, mkState (playwright st) (browser st) h (started st) (trace st)).

(** [async_playwright().start()]: the handle of a new driver. *)
Definition start (w : world) : M nat :=
  fun st =>
    let h := started st in
    (match raises w Start h with Some e => inl e | None => inr h end,
     mkState (playwright st) (browser st) (page st) (S h)
             (trace st ++ [Call Start h])).

Definition _setup_browser (w : world) : M unit :=
  fun st =>
    match playwright st with
    | Some _ => (inr tt, st)
    | None =>
        (let! h := start w in
         let! _ := set_playwright (Some h) in
         let! _ := driver w Launch h in
         let! _ := set_browser (Some h) in
         let! _ := driver w NewContext h in
         let! _ := driver w NewPage h in
         let! _ := set_page (Some h) in
         driver w Route h) st
    end.

Definition _cleanup (w : world) : M unit :=
  let! _ :=
    fun st =>
      match browser st with
      | Some b =>
          (let! _ := driver w Close b in set_browser None) st
      | None => (inr tt, st)
      end in
  fun st =>
    match playwright st with
    | Some p =>
        (let! _ := driver w Stop p in set_playwright None) st
    | None => (inr tt, st)
    end.

(** [_save_debug_info]: with a page, the screenshot, the page content and
    the file are tried in turn, and the bare [except] ends the function
    silently at the first that raises. *)
Definition _save_debug_info (w : world) (error_type : pystr) : M unit :=
  fun st =>
    match page st with
    | None => (inr tt, st)
    | Some _ =>
        match
          (let! _ := perform (Screenshot error_type) (screenshot w) in
           let! _ := perform Content (content w) in
           perform (WriteHtml error_type) (write_text w)) st
        with
        | (_, st') => (inr tt, st')
        end
    end.

(** What [self.page.wait_for_selector] raises when [self.page] is
    [None]. *)
Definition no_page : exn :=
  Exn AttributeError
      (py "'NoneType' object has no attribute 'wait_for_selector'").

(** The body of the [try] of [_solve_captcha]; [None] when the solver runs
    out of [fuel].  Without a page the attribute lookup on [self.page]
    raises before any call is made. *)
Definition solve_body (fuel : nat) (w : world) (st : state)
    : option (res unit * state) :=
  match page st with
  | None => Some (inl no_page, st)
  | Some _ =>
      let st1 := log WaitSelector st in
      match selector w with
      | inl e => Some (inl e, st1)
      | inr false => Some (inr tt, st1)
      | inr true =>
          let st2 := log GetAttribute st1 in
          match get_attribute w with
          | Some e => Some (inl e, st2)
          | None =>
              match Solver.solve_hcaptcha fuel (solver w) with
              | None => None
              | Some (token, tr) =>
                  let st3 := log (Solve tr) st2 in
                  if truthy token then
                    Some ((let! _ := perform (Evaluate token) (evaluate w) in
                           perform (Sleep 2) None) st3)
                  else
                    Some (inl (Exn OtherException
                                 (py "Falha ao resolver captcha")), st3)
              end
          end
      end
  end.

(** [_solve_captcha]: the [except Exception] saves the debug information
    and raises the exception again. *)
Definition _solve_captcha (fuel : nat) (w : world) (st : state)
    : option (res unit * state) :=
  match solve_body fuel w st with
  | None => None
  | Some (inr tt, st') => Some (inr tt, st')
  | Some (inl e, st') =>
      Some ((let! _ := _save_debug_info w (py "captcha_error") in
             fun st'' => (inl e, st'')) st')
  end.

(** The driver calls of a trace. *)
Definition calls_of (tr : list event) : list (call * nat) :=
  flat_map (fun ev => match ev with Call c h => [(c, h)] | _ => [] end) tr.

(** The submissions to the solving service that a trace records. *)
Definition submissions_of (tr : list event) : nat :=
  list_sum (map (fun ev => match ev with
                           | Solve t => Solver.submissions t
                           | _ => 0%nat
                           end) tr).

Definition is_debug_event (ev : event) : bool :=
  match ev with
  | Screenshot _ | Content | WriteHtml _ => true
  | _ => false
  end.

(** No driver and no browser is held. *)
Definition released (st : state) : Prop :=
  playwright st = None /\ browser st = None.

End Session.

Section SessionInputs.

(** A world in which no call raises and the page has no challenge, and one
    in which closing the browser fails. *)
Definition quiet_world : Session.world :=
  {| Session.raises := fun _ _ => None;
     Session.selector := inr false;
     Session.get_attribute := None;
     Session.solver := second_try_env;
     Session.evaluate := None;
     Session.screenshot := None;
     Session.content := None;
     Session.write_text := None |}.

Definition stuck_world : Session.world :=
  {| Session.raises := fun c _ =>
       match c with
       | Session.Close => Some navigation_timeout
       | _ => None
       end;
     Session.selector := inr false;
     Session.get_attribute := None;
     Session.solver := second_try_env;
     Session.evaluate := None;
     Session.screenshot := None;
     Session.content := None;
     Session.write_text := None |}.

End SessionInputs.

(** ** Readings of the extracted record *)

Section ExtractorReadings.
Import Extractor View.

(** The two groups of the regular expression of the emission stamp, and
    the text between them. *)
Definition date_pattern : list re_tok :=
  Eval vm_compute in
  [Digit; Digit] ++ lits (py "/") ++ [Digit; Digit] ++ lits (py "/")
  ++ [Digit; Digit; Digit; Digit].

Definition time_pattern : list re_tok :=
  Eval vm_compute in
  [Digit; Digit] ++ lits (py ":") ++ [Digit; Digit] ++ lits (py ":")
  ++ [Digit; Digit].

Definition stamp_infix : pystr := Eval vm_compute in py " às ".

(** The line that an activity was split from. *)
Definition joined (a : cd) : pystr := codigo a ++ sep ++ descricao a.

(** An activity that is one of [lines], cut at its first [" - "]. *)
Definition cut_from (lines : list pystr) (a : cd) : Prop :=
  In (joined a) lines /\ contains sep (codigo a) = false.

End ExtractorReadings.

(** ** A typed reading of the dictionary of [_processar_dados]

    As for [extract_from_text]: [lview] names the parts of the dictionary
    of [main.py] that its scan can change, [lencode] writes a view back as
    the dictionary and [lstep] is the effect of one iteration on a view.
    That [lstep] agrees with [processar_linha] is proved below
    ([processar_linha_view]). *)

Module LegacyView.
Import Extractor View Legacy.

(** The string fields that the scan assigns. *)
Inductive lfield :=
| LNumero | LTipo | LDataAbertura | LRazaoSocial | LNomeFantasia | LPorte
| LLogradouro | LEndNumero | LBairro | LMunicipio | LUf | LCep | LTelefone
| LCadastral | LDataSituacao | LMotivo | LSitEspecial | LDataEspecial
| LDataEmissao | LHoraEmissao.

#[export] Instance lfield_eq_dec : EqDecision lfield.
Proof. solve_decision. Defined.

Record lview := mkLView {
  lsimple : lfield -> pystr;
  lnatureza : cd;
  lprincipal : cd;
  lsecundarias : list cd
}.

Definition linitial : lview :=
  mkLView (fun _ => []) (CD [] []) (CD [] []) [].

Definition lupd (f : lfield) (x : pystr) (s : lfield -> pystr)
    : lfield -> pystr :=
  fun g => if decide (g = f) then x else s g.

Definition lset (f : lfield) (x : pystr) (v : lview) : lview :=
  mkLView (lupd f x (lsimple v)) (lnatureza v) (lprincipal v)
          (lsecundarias v).

Definition lset_natureza (c : cd) (v : lview) : lview :=
  mkLView (lsimple v) c (lprincipal v) (lsecundarias v).

Definition lset_principal (c : cd) (v : lview) : lview :=
  mkLView (lsimple v) (lnatureza v) c (lsecundarias v).

Definition ladd (cs : list cd) (v : lview) : lview :=
  mkLView (lsimple v) (lnatureza v) (lprincipal v) (lsecundarias v ++ cs).

(** The dictionary of a view.  The keys [complemento] and [email] have the
    value of the initial dictionary: no view changes them. *)
Definition lencode (v : lview) : dict :=
  let s f := VStr (lsimple v f) in
  [ (py "cnpj",
      VDict [ (py "numero", s LNumero); (py "tipo", s LTipo);
              (py "data_abertura", s LDataAbertura) ]);
    (py "empresa",
      VDict [ (py "razao_social", s LRazaoSocial);
              (py "nome_fantasia", s LNomeFantasia);
              (py "porte", s LPorte);
              (py "natureza_juridica", enc_cd (lnatureza v)) ]);
    (py "atividades",
      VDict [ (py "principal", enc_cd (lprincipal v));
              (py "secundarias", VList (map enc_cd (lsecundarias v))) ]);
    (py "endereco",
      VDict [ (py "logradouro", s LLogradouro); (py "numero", s LEndNumero);
              (py "complemento", empty_str); (py "cep", s LCep);
              (py "bairro", s LBairro); (py "municipio", s LMunicipio);
              (py "uf", s LUf) ]);
    (py "contato",
      VDict [ (py "email", empty_str); (py "telefone", s LTelefone) ]);
    (py "situacao",
      VDict [ (py "cadastral", s LCadastral);
              (py "data_situacao", s LDataSituacao);
              (py "motivo", s LMotivo);
              (py "situacao_especial", s LSitEspecial);
              (py "data_situacao_especial", s LDataEspecial) ]);
    (py "comprovante",
      VDict [ (py "data_emissao", s LDataEmissao);
              (py "hora_emissao", s LHoraEmissao) ]) ].

(** The section and key of a field. *)
Definition lpath (f : lfield) : pystr * pystr :=
  match f with
  | LNumero => (py "cnpj", py "numero")
  | LTipo => (py "cnpj", py "tipo")
  | LDataAbertura => (py "cnpj", py "data_abertura")
  | LRazaoSocial => (py "empresa", py "razao_social")
  | LNomeFantasia => (py "empresa", py "nome_fantasia")
  | LPorte => (py "empresa", py "porte")
  | LLogradouro => (py "endereco", py "logradouro")
  | LEndNumero => (py "endereco", py "numero")
  | LBairro => (py "endereco", py "bairro")
  | LMunicipio => (py "endereco", py "municipio")
  | LUf => (py "endereco", py "uf")
  | LCep => (py "endereco", py "cep")
  | LTelefone => (py "contato", py "telefone")
  | LCadastral => (py "situacao", py "cadastral")
  | LDataSituacao => (py "situacao", py "data_situacao")
  | LMotivo => (py "situacao", py "motivo")
  | LSitEspecial => (py "situacao", py "situacao_especial")
  | LDataEspecial => (py "situacao", py "data_situacao_especial")
  | LDataEmissao => (py "comprovante", py "data_emissao")
  | LHoraEmissao => (py "comprovante", py "hora_emissao")
  end.

(** The activities that the loop of [main.py] reads from [ls]: blank lines
    and lines without [" - "] are passed over, and the first line with a
    marker ends the loop. *)
Fixpoint legacy_scan (ls : list pystr) : list cd :=
  match ls with
  | [] => []
  | l :: ls' =>
      let linha_atividade := strip l in
      if negb (str_truthy linha_atividade) then legacy_scan ls'
      else if existsb (fun campo => contains campo linha_atividade) marcadores
      then []
      else
        (if contains sep linha_atividade
         then [split_activity linha_atividade] else [])
        ++ legacy_scan ls'
  end.

(** Whether a value read after a label passes the test of its branch. *)
Definition unmasked (x : pystr) : bool :=
  str_truthy x && negb (str_eqb x asteriscos).

(** One iteration of the scan on a view. *)
Definition lstep (linha : pystr) (resto : list pystr) (v : lview) : lview :=
  let proxima := proxima_linha resto in
  if contains (py "NÚMERO DE INSCRIÇÃO") linha then
    let v := lset LNumero proxima v in
    if in_line_i2 (py "MATRIZ") resto then lset LTipo (py "MATRIZ") v
    else if in_line_i2 (py "FILIAL") resto then lset LTipo (py "FILIAL") v
    else v
  else if contains (py "DATA DE ABERTURA") linha then
    lset LDataAbertura proxima v
  else if contains (py "NOME EMPRESARIAL") linha then
    lset LRazaoSocial proxima v
  else if contains (py "TÍTULO DO ESTABELECIMENTO (NOME DE FANTASIA)") linha
  then lset LNomeFantasia proxima v
  else if contains (py "PORTE") linha && (length linha <? 20)%nat then
    lset LPorte proxima v
  else if contains natureza_header linha then
    if contains sep proxima then lset_natureza (split_activity proxima) v
    else v
  else if contains principal_header linha then
    if contains sep proxima then lset_principal (split_activity proxima) v
    else v
  else if contains secundarias_header linha then ladd (legacy_scan resto) v
  else if contains (py "LOGRADOURO") linha then lset LLogradouro proxima v
  else if contains (py "NÚMERO") linha
          && negb (str_truthy (lsimple v LEndNumero))
  then lset LEndNumero proxima v
  else if contains (py "BAIRRO/DISTRITO") linha then lset LBairro proxima v
  else if contains (py "MUNICÍPIO") linha then lset LMunicipio proxima v
  else if contains (py "UF") linha && (length linha <? 10)%nat then
    lset LUf proxima v
  else if contains (py "CEP") linha then lset LCep proxima v
  else if contains (py "TELEFONE") linha then
    if unmasked proxima then lset LTelefone proxima v else v
  else if str_eqb linha (py "SITUAÇÃO CADASTRAL") then
    if str_truthy proxima
       && negb (existsb (str_eqb proxima)
                  [py "DATA DA SITUAÇÃO CADASTRAL"; py "MOTIVO"])
    then lset LCadastral proxima v else v
  else if contains (py "DATA DA SITUAÇÃO CADASTRAL") linha then
    if str_truthy proxima && contains (py "/") proxima
    then lset LDataSituacao proxima v else v
  else if contains (py "MOTIVO DE SITUAÇÃO CADASTRAL") linha then
    if unmasked proxima && str_truthy (strip proxima)
    then lset LMotivo proxima v else v
  else if str_eqb linha (py "SITUAÇÃO ESPECIAL") then
    if unmasked proxima && str_truthy (strip proxima)
    then lset LSitEspecial proxima v else v
  else if contains (py "DATA DA SITUAÇÃO ESPECIAL") linha then
    if unmasked proxima && contains (py "/") proxima
    then lset LDataEspecial proxima v else v
  else if contains emitido_marker linha then
    match re_search emitido_pattern linha with
    | Some m =>
        lset LHoraEmissao (emitido_group2 m)
          (lset LDataEmissao (emitido_group1 m) v)
    | None => v
    end
  else v.

Fixpoint lsteps (linhas : list pystr) (v : lview) : lview :=
  match linhas with
  | [] => v
  | l :: resto => lsteps resto (lstep (strip l) resto v)
  end.

(** A value that the scan of [main.py] may have stored in a field: empty,
    or accepted by the test that guards the assignment of the field. *)
Definition admitted (f : lfield) (x : pystr) : bool :=
  match f with
  | LTelefone | LMotivo | LSitEspecial => negb (str_eqb x asteriscos)
  | LDataEspecial =>
      negb (str_truthy x)
      || (negb (str_eqb x asteriscos) && contains (py "/") x)
  | LDataSituacao => negb (str_truthy x) || contains (py "/") x
  | LCadastral =>
      negb (existsb (str_eqb x)
              [py "DATA DA SITUAÇÃO CADASTRAL"; py "MOTIVO"])
  | LTipo =>
      existsb (str_eqb x) [ []; py "MATRIZ"; py "FILIAL" ]
  | _ => true
  end.

End LegacyView.

(** * Properties *)

(** One case of [_perform_consultation]: the events are appended to the
    trace, they are those of one attempt, and a failed case returns nothing. *)
Ltac perform_case :=
  eexists _, _; split; [reflexivity|]; split; [split; reflexivity|];
  intros result Hr; try discriminate.

(** ** Strings *)

Example py_decodes_accents : py "às" = [224; 115].
Proof. reflexivity. Qed.

Example emitido_search :
  re_search emitido_pattern (py "Emitido no dia 04/11/2026 às 10:20:30 (x)")
  = Some (py "04/11/2026 às 10:20:30").
Proof. vm_compute. reflexivity. Qed.

(** ** The extractor and its typed reading *)

Section ExtractorView.
Import Extractor View.

Lemma str_eqb_eq (a b : pystr) : str_eqb a b = true <-> a = b.
Proof. unfold str_eqb. apply bool_decide_eq_true. Qed.

Lemma str_eqb_refl (a : pystr) : str_eqb a a = true.
Proof. by apply str_eqb_eq. Qed.

Lemma field_map_table :
  field_map = map (fun f => (label f, path f)) all_fields.
Proof. vm_compute. reflexivity. Qed.

Lemma assoc_field_map (line : pystr) :
  assoc line field_map = path <$> field_of_label line.
Proof.
  rewrite field_map_table. unfold field_of_label.
  induction all_fields as [|f fs IH]; [reflexivity|].
  cbn [map assoc List.find]. destruct (str_eqb line (label f)); [reflexivity|].
  exact IH.
Qed.

Lemma has_key_field_map (line : pystr) :
  has_key line field_map = is_label line.
Proof.
  unfold has_key, is_label. rewrite assoc_field_map.
  by destruct (field_of_label line).
Qed.

Lemma contains_partition (sub s : pystr) :
  contains sub s = true -> exists a b, partition_first sub s = Some (a, b).
Proof.
  induction s as [|c s IH]; cbn [contains partition_first]; intros H.
  - rewrite orb_false_r in H. rewrite H. eauto.
  - destruct (startswith sub (c :: s)); [eauto|].
    cbn in H. destruct (IH H) as (a & b & ->). eauto.
Qed.

Lemma partition_contains (sub s a b : pystr) :
  partition_first sub s = Some (a, b) -> contains sub s = true.
Proof.
  revert a b.
  induction s as [|c s IH]; cbn [contains partition_first]; intros a b H.
  - destruct (startswith sub []); [reflexivity|discriminate].
  - destruct (startswith sub (c :: s)); [reflexivity|].
    destruct (partition_first sub s) as [[a' b']|] eqn:E; [|discriminate].
    cbn. eapply IH. reflexivity.
Qed.

Lemma add_secundarias_nil (v : view) : add_secundarias [] v = v.
Proof. destruct v. unfold add_secundarias. cbn. by rewrite app_nil_r. Qed.

Lemma add_secundarias_app (cs ds : list cd) (v : view) :
  add_secundarias ds (add_secundarias cs v) = add_secundarias (cs ++ ds) v.
Proof. destruct v. unfold add_secundarias. cbn. by rewrite app_assoc. Qed.

Lemma append2_view (clock a b : pystr) (v : view) :
  append2 (encode clock v) (py "atividades") (py "secundarias") (cod_desc a b)
  = inr (encode clock (add_secundarias [CD a b] v)).
Proof.
  destruct v as [s t n p secs de he].
  unfold add_secundarias, encode. cbn [secundarias simple tipo natureza
    principal View.data_emissao View.hora_emissao].
  rewrite map_app. reflexivity.
Qed.

Lemma scan_activities_cons (l : pystr) (ls : list pystr) :
  scan_activities (l :: ls)
  = if is_activity_line l then split_activity l :: scan_activities ls else [].
Proof. unfold scan_activities. cbn. by destruct (is_activity_line l). Qed.

Lemma secundarias_loop_view (clock : pystr) (ls : list pystr) (v : view) :
  secundarias_loop ls (encode clock v)
  = inr (encode clock (add_secundarias (scan_activities ls) v)).
Proof.
  revert v. induction ls as [|l ls IH]; intros v.
  - cbn. by rewrite add_secundarias_nil.
  - rewrite scan_activities_cons. cbn [secundarias_loop].
    unfold is_activity_line, has_stop_marker.
    destruct (contains sep l) eqn:Hsep; cbn [andb];
      [|by rewrite add_secundarias_nil].
    destruct (existsb _ stop_markers); cbn [negb];
      [by rewrite add_secundarias_nil|].
    unfold split_activity, split1.
    destruct (contains_partition _ _ Hsep) as (a & b & ->).
    cbn [unpack2 bind ret]. rewrite append2_view. cbn [bind].
    rewrite IH, add_secundarias_app. reflexivity.
Qed.

Lemma set_simple_view (clock : pystr) (f : simple_field) (x : pystr)
    (v : view) :
  setitem2 (encode clock v) (fst (path f)) (snd (path f)) (VStr x)
  = inr (encode clock (set_simple f x v)).
Proof. destruct v, f; reflexivity. Qed.

Lemma extract_line_view (clock line next_line : pystr) (rest : list pystr)
    (v : view) :
  extract_line line next_line rest (encode clock v)
  = inr (encode clock (view_line line next_line rest v)).
Proof.
  unfold extract_line, view_line.
  rewrite assoc_field_map, has_key_field_map.
  destruct (field_of_label line) as [f|]; cbn [fmap option_fmap option_map].
  - destruct (path f) as [section field] eqn:Hp.
    destruct (str_truthy next_line && negb (is_label next_line));
      [|reflexivity].
    pose proof (set_simple_view clock f next_line v) as Hset.
    rewrite Hp in Hset. cbn [fst snd] in Hset.
    destruct f; inversion Hp; subst; try exact Hset.
    destruct v as [s t n p secs de he]. cbn [simple].
    change (getitem2 _ _ _) with (ret (A:=pyval) (VStr (s FEndNumero))).
    cbn [bind ret truthy].
    destruct (str_truthy (s FEndNumero)); [reflexivity|exact Hset].
  - unfold branch_of.
    destruct (str_eqb line (py "MATRIZ")); [by destruct v|].
    destruct (str_eqb line (py "FILIAL")); [by destruct v|].
    destruct (contains natureza_header line && str_truthy next_line).
    { destruct (contains sep next_line) eqn:Hsep; [|reflexivity].
      unfold split_activity, split1.
      destruct (contains_partition _ _ Hsep) as (a & b & ->).
      by destruct v. }
    destruct (contains principal_header line && str_truthy next_line).
    { destruct (contains sep next_line) eqn:Hsep; [|reflexivity].
      unfold split_activity, split1.
      destruct (contains_partition _ _ Hsep) as (a & b & ->).
      by destruct v. }
    destruct (contains secundarias_header line);
      [apply secundarias_loop_view|].
    destruct (contains emitido_marker line); [|reflexivity].
    destruct (re_search emitido_pattern line); [|reflexivity].
    by destruct v.
Qed.

Lemma extract_lines_view (clock : pystr) (lines : list pystr) (v : view) :
  extract_lines lines (encode clock v)
  = inr (encode clock (view_lines lines v)).
Proof.
  revert v. induction lines as [|line rest IH]; intros v; [reflexivity|].
  cbn [extract_lines view_lines]. rewrite extract_line_view. cbn [bind].
  apply IH.
Qed.

Lemma initial_data_view (clock : pystr) :
  initial_data clock = encode clock initial_view.
Proof. reflexivity. Qed.

Lemma CNPJData_kwargs_view (clock : pystr) (v : view) :
  CNPJData_kwargs (encode clock v) = inr (to_CNPJData clock v).
Proof. destruct v. reflexivity. Qed.

(** The extractor never raises, and its result is the dictionary of the
    view reached by the typed scan. *)
Lemma extract_from_text_view (clock text : pystr) :
  extract_from_text clock text
  = inr (to_CNPJData clock (view_lines (text_lines text) initial_view)).
Proof.
  unfold extract_from_text.
  rewrite initial_data_view, extract_lines_view. cbn [bind].
  apply CNPJData_kwargs_view.
Qed.

Lemma asdict_view (clock : pystr) (v : view) :
  asdict (to_CNPJData clock v) = encode clock v.
Proof. destruct v. reflexivity. Qed.

(** A property of views that every iteration preserves holds at the end
    of the scan. *)
Lemma view_lines_invariant (lines : list pystr) (I : view -> Prop) :
  (forall pre line rest v,
      lines = pre ++ line :: rest -> I v ->
      I (view_line line (next_of rest) rest v)) ->
  forall v, I v -> I (view_lines lines v).
Proof.
  intros Hstep.
  assert (forall suf pre v, lines = pre ++ suf -> I v -> I (view_lines suf v))
    as Hgen.
  { induction suf as [|line rest IH]; intros pre v Hl Hv; [exact Hv|].
    cbn [view_lines]. apply (IH (pre ++ [line])).
    - by rewrite <- app_assoc.
    - by apply (Hstep pre). }
  intros v Hv. by apply (Hgen lines []).
Qed.

Lemma field_of_label_Some (line : pystr) (f : simple_field) :
  field_of_label line = Some f -> line = label f.
Proof.
  unfold field_of_label. intros H.
  apply find_some in H as [_ H]. by apply str_eqb_eq.
Qed.


Lemma adjacent_cons_rest (pre : list pystr) (a : pystr) (rest : list pystr) :
  str_truthy (next_of rest) = true ->
  adjacent (pre ++ a :: rest) a (next_of rest).
Proof.
  destruct rest as [|b rest]; [discriminate|]. intros _.
  by exists pre, rest.
Qed.

Lemma in_middle (pre : list pystr) (a : pystr) (rest : list pystr) :
  In a (pre ++ a :: rest).
Proof. apply in_or_app. right. by left. Qed.

Lemma located_initial (lines : list pystr) : located lines initial_view.
Proof. split; cbn; auto. Qed.

Lemma located_step (pre : list pystr) (line : pystr) (rest : list pystr)
    (v : view) :
  located (pre ++ line :: rest) v ->
  located (pre ++ line :: rest) (view_line line (next_of rest) rest v).
Proof.
  intros Hv. unfold view_line.
  destruct (field_of_label line) as [f|] eqn:Hf.
  - apply field_of_label_Some in Hf. subst line.
    destruct (str_truthy (next_of rest) && negb (is_label (next_of rest)))
      eqn:Hc; [|exact Hv].
    apply andb_prop in Hc as [Hn Hl]. apply negb_true_iff in Hl.
    assert (located (pre ++ label f :: rest)
              (set_simple f (next_of rest) v)) as Hset.
    { destruct Hv. split; try assumption. intros g. cbn. unfold upd.
      destruct (decide (g = f)) as [->|]; [|by auto].
      right. split; [by apply adjacent_cons_rest | exact Hl]. }
    destruct f; try exact Hset.
    by destruct (str_truthy (simple v FEndNumero)).
  - destruct (branch_of line (next_of rest)) eqn:Hb;
      unfold branch_of in Hb;
      repeat match type of Hb with
             | (if ?c then _ else _) = _ => destruct c eqn:?; try discriminate
             end.
    + destruct Hv. split; try assumption. right.
      assert (line = py "MATRIZ") as -> by by apply str_eqb_eq.
      split; [apply in_middle | by left].
    + destruct Hv. split; try assumption. right.
      assert (line = py "FILIAL") as -> by by apply str_eqb_eq.
      split; [apply in_middle | by right].
    + destruct (contains sep (next_of rest)) eqn:Hs; [|exact Hv].
      destruct Hv. split; try assumption. right.
      match goal with H : _ && _ = true |- _ =>
        apply andb_prop in H as [Hh Hn] end.
      exists line, (next_of rest).
      repeat split; auto using adjacent_cons_rest.
    + destruct (contains sep (next_of rest)) eqn:Hs; [|exact Hv].
      destruct Hv. split; try assumption. right.
      match goal with H : _ && _ = true |- _ =>
        apply andb_prop in H as [Hh Hn] end.
      exists line, (next_of rest).
      repeat split; auto using adjacent_cons_rest.
    + destruct Hv. split; try assumption. right.
      exists line. split; [apply in_middle | assumption].
    + destruct (re_search emitido_pattern line) as [m|] eqn:Hm; [|exact Hv].
      destruct Hv. split; try assumption. right.
      exists line, m. repeat split; auto using in_middle.
    + exact Hv.
Qed.

Lemma located_view_lines (lines : list pystr) :
  located lines (view_lines lines initial_view).
Proof.
  apply (view_lines_invariant lines (located lines)).
  - intros pre line rest v ->. apply located_step.
  - apply located_initial.
Qed.

(** *** Reading the parts of a view back from its dictionary *)



Lemma get_tipo (clock : pystr) (v : view) :
  getitem2 (encode clock v) (py "cnpj") (py "tipo") = inr (VStr (tipo v)).
Proof. by destruct v. Qed.

Lemma get_natureza (clock : pystr) (v : view) :
  getitem2 (encode clock v) (py "empresa") (py "natureza_juridica")
  = inr (enc_cd (natureza v)).
Proof. by destruct v. Qed.

Lemma get_principal (clock : pystr) (v : view) :
  getitem2 (encode clock v) (py "atividades") (py "principal")
  = inr (enc_cd (principal v)).
Proof. by destruct v. Qed.

Lemma get_secundarias (clock : pystr) (v : view) :
  getitem2 (encode clock v) (py "atividades") (py "secundarias")
  = inr (VList (map enc_cd (secundarias v))).
Proof. by destruct v. Qed.

Lemma get_data_emissao (clock : pystr) (v : view) :
  getitem2 (encode clock v) (py "comprovante") (py "data_emissao")
  = inr (VStr (View.data_emissao v)).
Proof. by destruct v. Qed.

Lemma get_hora_emissao (clock : pystr) (v : view) :
  getitem2 (encode clock v) (py "comprovante") (py "hora_emissao")
  = inr (VStr (View.hora_emissao v)).
Proof. by destruct v. Qed.

(** *** How one iteration changes a view *)

Lemma label_not_header (f : simple_field) :
  label f <> py "MATRIZ" /\ label f <> py "FILIAL"
  /\ contains natureza_header (label f) = false
  /\ contains principal_header (label f) = false
  /\ contains secundarias_header (label f) = false
  /\ contains emitido_marker (label f) = false.
Proof. destruct f; repeat split; by vm_compute. Qed.

Lemma header_not_label (h line : pystr) :
  (forall f, contains h (label f) = false) ->
  contains h line = true -> field_of_label line = None.
Proof.
  intros Hh Hc. destruct (field_of_label line) as [f|] eqn:Hf; [|done].
  apply field_of_label_Some in Hf. subst. by rewrite Hh in Hc.
Qed.



Lemma secundarias_not_label (line : pystr) :
  contains secundarias_header line = true -> field_of_label line = None.
Proof. apply header_not_label. intros f. apply label_not_header. Qed.


Lemma contains_false_of_eq (h a line : pystr) :
  contains h a = false -> contains h line = true -> str_eqb line a = false.
Proof.
  intros Ha Hl. destruct (str_eqb line a) eqn:E; [|done].
  apply str_eqb_eq in E. subst. by rewrite Ha in Hl.
Qed.







Lemma branch_secundarias (line next_line : pystr) :
  branch_of line next_line = BSecundarias
  <-> takes_secundarias line next_line = true.
Proof.
  unfold branch_of, takes_secundarias. split.
  - repeat match goal with
           | |- (if ?c then _ else _) = _ -> _ => destruct c eqn:?
           end; try discriminate.
    by intros _.
  - intros H. apply andb_prop in H as [H H3]. apply andb_prop in H as [H1 H2].
    apply negb_true_iff in H2, H3.
    rewrite (contains_false_of_eq secundarias_header (py "MATRIZ") line),
            (contains_false_of_eq secundarias_header (py "FILIAL") line);
      try done.
    by rewrite H2, H3, H1.
Qed.


Lemma view_line_secundarias (line next_line : pystr) (rest : list pystr)
    (v : view) :
  secundarias (view_line line next_line rest v)
  = secundarias v
    ++ (if takes_secundarias line next_line then scan_activities rest
        else []).
Proof.
  unfold view_line.
  destruct (field_of_label line) as [f|] eqn:Hf.
  - assert (takes_secundarias line next_line = false) as ->.
    { unfold takes_secundarias.
      destruct (contains secundarias_header line) eqn:Hc; [|done].
      apply secundarias_not_label in Hc. congruence. }
    rewrite app_nil_r.
    destruct (str_truthy next_line && negb (is_label next_line)); [|done].
    destruct f; try done.
    by destruct (str_truthy (simple v FEndNumero)).
  - destruct (branch_of line next_line) eqn:Hb.
    all: try (destruct (takes_secundarias line next_line) eqn:Ht;
              [apply branch_secundarias in Ht; congruence|]).
    all: try (by rewrite app_nil_r).
    + destruct (contains sep next_line); by rewrite app_nil_r.
    + destruct (contains sep next_line); by rewrite app_nil_r.
    + apply branch_secundarias in Hb. by rewrite Hb.
    + destruct (re_search emitido_pattern line); by rewrite app_nil_r.
Qed.

Lemma view_lines_secundarias (lines : list pystr) (v : view) :
  secundarias (view_lines lines v)
  = secundarias v ++ secundarias_of_lines lines.
Proof.
  revert v. induction lines as [|line rest IH]; intros v.
  - cbn. by rewrite app_nil_r.
  - cbn [view_lines secundarias_of_lines].
    by rewrite IH, view_line_secundarias, app_assoc.
Qed.





End ExtractorView.

(** ** The claims about the extractor *)

Section ExtractorClaims.
Import Extractor View.

(** C3, at the input on which the code departs from it: for the text whose
    lines are [TELEFONE] and a run of eight asterisks, [extract_from_text]
    stores the asterisks under [contato.telefone], while [_processar_dados]
    of [main.py], which guards the assignment, leaves the field empty. *)
Theorem C3_masked_phone_is_stored (clock : pystr) :
  (exists c,
      extract_from_text clock masked_phone_text = inr c
      /\ field_value c (py "contato") (py "telefone")
         = inr (VStr (py "********")))
  /\ (exists dados,
        Legacy._processar_dados masked_phone_text = inr dados
        /\ getitem2 dados (py "contato") (py "telefone") = inr (VStr [])).
Proof.
  split.
  - eexists. split; [apply extract_from_text_view|]. by vm_compute.
  - eexists. split; by vm_compute.
Qed.

(** The three status fields of C3 are never assigned by
    [extract_from_text]: they keep the empty string whatever the text. *)
Lemma status_fields_stay_empty (clock text : pystr) :
  exists c,
    extract_from_text clock text = inr c
    /\ field_value c (py "situacao") (py "motivo") = inr (VStr [])
    /\ field_value c (py "situacao") (py "situacao_especial") = inr (VStr [])
    /\ field_value c (py "situacao") (py "data_situacao_especial")
       = inr (VStr [])
    /\ field_value c (py "contato") (py "email") = inr (VStr []).
Proof.
  eexists. split; [apply extract_from_text_view|].
  unfold field_value. rewrite asdict_view.
  by destruct (view_lines _ _).
Qed.

(** C4 as stated fails: the record carries the reading of the clock, so
    two calls on the same text, one second apart, differ. *)
Lemma C4_counterexample :
  extract_from_text (py "2026-11-04 10:00:00") (py "MATRIZ")
  <> extract_from_text (py "2026-11-04 10:00:01") (py "MATRIZ").
Proof. by vm_compute. Qed.

(** C4, amended: two calls of [extract_from_text] on the same text return
    records that agree on every section except [metadados], and each
    [metadados] holds the clock reading of its call and [sucesso = True];
    with the same clock reading the records are equal. *)
Theorem C4_extract_deterministic_up_to_clock (clock1 clock2 text : pystr) :
  exists c1 c2,
    extract_from_text clock1 text = inr c1
    /\ extract_from_text clock2 text = inr c2
    /\ cnpj c1 = cnpj c2 /\ empresa c1 = empresa c2
    /\ atividades c1 = atividades c2 /\ endereco c1 = endereco c2
    /\ contato c1 = contato c2 /\ situacao c1 = situacao c2
    /\ comprovante c1 = comprovante c2
    /\ metadados c1
       = VDict [(py "timestamp", VStr clock1); (py "sucesso", VBool true)]
    /\ metadados c2
       = VDict [(py "timestamp", VStr clock2); (py "sucesso", VBool true)].
Proof.
  do 2 eexists.
  split; [apply extract_from_text_view|].
  split; [apply extract_from_text_view|].
  by destruct (view_lines _ _).
Qed.

(** C6: on every text whose stripped non-empty lines are the
    secondary-activities header, [01.01-1 - A], [02.02-2 - B], [LOGRADOURO],
    [Rua X] (the lines joined by newlines are such a text), the list of
    secondary activities is exactly the two activities, in order, and the
    line after [LOGRADOURO] is read as the street; on every text, the list
    is, for each line that runs the loop, what the loop reads after it; and
    the loop, from any dictionary of the extractor's shape, appends the
    longest run of lines that contain [" - "] and no boundary marker, each
    split at its first [" - "], in order of appearance and with repetitions
    kept. *)
Theorem C6_secondary_activities_scan (clock text : pystr) :
  text_lines (unlines boundary_lines) = boundary_lines
  /\ (forall input,
        text_lines input = boundary_lines ->
        exists c,
          extract_from_text clock input = inr c
          /\ field_value c (py "atividades") (py "secundarias")
             = inr (VList [ cod_desc (py "01.01-1") (py "A");
                            cod_desc (py "02.02-2") (py "B") ])
          /\ field_value c (py "endereco") (py "logradouro")
             = inr (VStr (py "Rua X")))
  /\ (exists c,
        extract_from_text clock text = inr c
        /\ field_value c (py "atividades") (py "secundarias")
           = inr (VList (map enc_cd (secundarias_of_lines (text_lines text)))))
  /\ (forall rest v,
        exists data',
          secundarias_loop rest (encode clock v) = inr data'
          /\ getitem2 data' (py "atividades") (py "secundarias")
             = inr (VList (map enc_cd
                      (secundarias v
                       ++ map split_activity
                            (take_while is_activity_line rest))))).
Proof.
  split; [by vm_compute|]. split; [|split].
  - intros input Hlines. eexists.
    split; [apply extract_from_text_view|]. rewrite Hlines. by vm_compute.
  - eexists. split; [apply extract_from_text_view|].
    unfold field_value. rewrite asdict_view, get_secundarias.
    by rewrite view_lines_secundarias.
  - intros rest v. eexists. split; [apply secundarias_loop_view|].
    by rewrite get_secundarias.
Qed.

(** C7: on every text [extract_from_text] returns a record and does not
    raise; the record has the sections and keys of the initial dictionary,
    in the same order and with values of the same types, and every part of
    it is at its zero value unless the scan read it at a line of the text. *)
Theorem C7_extract_total_complete_record (clock text : pystr) :
  exists c v,
    extract_from_text clock text = inr c
    /\ asdict c = encode clock v
    /\ same_shape (VDict (asdict c)) (VDict (initial_data clock)) = true
    /\ located (text_lines text) v.
Proof.
  exists (to_CNPJData clock (view_lines (text_lines text) initial_view)),
         (view_lines (text_lines text) initial_view).
  split; [apply extract_from_text_view|].
  split; [apply asdict_view|].
  split; [|apply located_view_lines].
  rewrite asdict_view. by destruct (view_lines _ _).
Qed.



(** The end-to-end scenario of the specification. *)
Example scenario_identification (clock : pystr) :
  Coordinator._clean_cnpj sample_id = inr (py "38139407000177")
  /\ exists c,
       extract_from_text clock scenario_text = inr c
       /\ field_value c (py "cnpj") (py "numero") = inr (VStr sample_id)
       /\ field_value c (py "cnpj") (py "tipo") = inr (VStr (py "MATRIZ")).
Proof.
  split; [by vm_compute|].
  eexists. split; [apply extract_from_text_view|]. by vm_compute.
Qed.

(** On the empty text the record is the initial dictionary. *)
Example extract_empty_text (clock : pystr) :
  exists c,
    extract_from_text clock [] = inr c /\ asdict c = initial_data clock.
Proof. eexists. split; reflexivity. Qed.

(** [_processar_dados] of [main.py] differs from [extract_from_text] on
    the two points of C6 and C10: its loop over the secondary activities
    skips a line without [" - "] and goes on, and it takes a line that
    contains a label for the label. *)
Remark legacy_extractor_differs (clock : pystr) :
  let text :=
    unlines [ secundarias_header; py "01.01-1 - A"; py "sem separador";
              py "02.02-2 - B"; py "TELEFONE / FAX"; py "(11) 5555-0000" ] in
  (exists dados,
      Legacy._processar_dados text = inr dados
      /\ getitem2 dados (py "atividades") (py "secundarias")
         = inr (VList [ cod_desc (py "01.01-1") (py "A");
                        cod_desc (py "02.02-2") (py "B") ])
      /\ getitem2 dados (py "contato") (py "telefone")
         = inr (VStr (py "(11) 5555-0000")))
  /\ (exists c,
        extract_from_text clock text = inr c
        /\ field_value c (py "atividades") (py "secundarias")
           = inr (VList [ cod_desc (py "01.01-1") (py "A") ])
        /\ field_value c (py "contato") (py "telefone") = inr (VStr [])).
Proof.
  split.
  - eexists. split; by vm_compute.
  - eexists. split; [apply extract_from_text_view|]. by vm_compute.
Qed.

End ExtractorClaims.

(** ** The challenge client *)

Section CaptchaClaims.
Import Captcha.

Lemma poll_action_sleep (r : reply) (secs : Z) :
  poll_action r = SleepAndContinue secs -> secs = 3%Z \/ secs = 5%Z.
Proof.
  unfold poll_action. intros H.
  destruct (poll_try r) as [e|a] eqn:E; [inversion H; auto|].
  subst a. left. unfold poll_try, bind, ret, raise in E.
  repeat match type of E with
         | match ?x with _ => _ end = _ => destruct x; try discriminate
         end.
  by inversion E.
Qed.

Lemma wait_loop_run (svc : service) (timeout : Z) (fuel k : nat)
    (elapsed : Z) (tr0 : list event) :
  (Z.to_nat (timeout - elapsed) < fuel)%nat ->
  exists result tr,
    wait_loop fuel svc timeout k elapsed tr0 = Some (result, tr0 ++ tr)
    /\ run svc timeout k elapsed result tr.
Proof.
  revert k elapsed tr0.
  induction fuel as [|fuel IH]; intros k elapsed tr0 Hfuel; [lia|].
  cbn [wait_loop]. destruct (elapsed <? timeout)%Z eqn:Hlt.
  - apply Z.ltb_lt in Hlt.
    destruct (poll_action (reply_of svc k)) as [token| |secs] eqn:Ha.
    + exists token, [Poll k]. split; [done|]. by constructor.
    + exists VNone, [Poll k]. split; [done|]. by constructor.
    + pose proof (poll_action_sleep _ _ Ha) as Hs.
      set (elapsed' := (elapsed + Z.of_N (latency svc k) + secs
                        + Z.of_N (overshoot svc k))%Z).
      destruct (IH (S k) elapsed' (tr0 ++ [Poll k; Sleep secs]))
        as (result & tr & Hrun & Hr).
      { subst elapsed'. lia. }
      exists result, (Poll k :: Sleep secs :: tr). split.
      * rewrite Hrun. by rewrite <- app_assoc.
      * by apply run_sleep.
  - apply Z.ltb_ge in Hlt. exists VNone, []. split.
    + by rewrite app_nil_r.
    + by constructor.
Qed.

Lemma run_functional (svc : service) (timeout : Z) (k : nat) (elapsed : Z)
    (r1 r2 : pyval) (t1 t2 : list event) :
  run svc timeout k elapsed r1 t1 -> run svc timeout k elapsed r2 t2 ->
  r1 = r2 /\ t1 = t2.
Proof.
  intros H1. revert r2 t2.
  induction H1 as [k e Ht|k e tok Ht Ha|k e Ht Ha|k e secs r tr Ht Ha H IH];
    intros r2 t2 H2;
    inversion H2 as [| | |k' e' secs' r' tr' Ht' Ha' H']; subst;
    try lia; try congruence; try (split; congruence).
  assert (secs' = secs) as -> by congruence.
  destruct (IH _ _ H') as [-> ->]. auto.
Qed.

Lemma run_well_paced (svc : service) (timeout : Z) (k : nat) (elapsed : Z)
    (result : pyval) (tr : list event) :
  run svc timeout k elapsed result tr -> well_paced tr = true.
Proof.
  induction 1 as [| | |k e secs r tr Ht Ha H IH]; try reflexivity.
  cbn [well_paced]. rewrite IH, andb_true_r. apply Z.leb_le.
  destruct (poll_action_sleep _ _ Ha); lia.
Qed.

Lemma run_polls (svc : service) (timeout : Z) (k : nat) (elapsed : Z)
    (result : pyval) (tr : list event) :
  run svc timeout k elapsed result tr ->
  forall j, In (Poll j) tr ->
    (k <= j)%nat
    /\ (elapsed + 3 * Z.of_nat (j - k) < timeout)%Z
    /\ decided_by svc result tr j.
Proof.
  induction 1 as [k e Ht|k e tok Ht Ha|k e Ht Ha|k e secs r tr Ht Ha H IH];
    intros j Hj.
  - destruct Hj.
  - destruct Hj as [[= <-]|[]]. rewrite Nat.sub_diag.
    repeat split; [lia|lia|]. unfold decided_by. by rewrite Ha.
  - destruct Hj as [[= <-]|[]]. rewrite Nat.sub_diag.
    repeat split; [lia|lia|]. unfold decided_by. by rewrite Ha.
  - destruct Hj as [[= <-]|[Hj|Hj]]; [|discriminate|].
    + rewrite Nat.sub_diag. repeat split; [lia|lia|].
      unfold decided_by. rewrite Ha. by exists [], tr.
    + destruct (IH j Hj) as (Hk & Hlt & Hd).
      pose proof (poll_action_sleep _ _ Ha) as Hs.
      repeat split; [lia|lia|].
      unfold decided_by in *.
      destruct (poll_action (reply_of svc j)) as [token| |secs'].
      * destruct Hd as [-> Hl]. split; [done|].
        destruct tr; [done|]. exact Hl.
      * destruct Hd as [-> Hl]. split; [done|].
        destruct tr; [done|]. exact Hl.
      * destruct Hd as (pre & post & ->).
        by exists (Poll k :: Sleep secs :: pre), post.
Qed.

Lemma run_requests (svc : service) (timeout : Z) (k : nat) (elapsed : Z)
    (result : pyval) (tr : list event) :
  run svc timeout k elapsed result tr ->
  requests tr = seq k (length (requests tr)).
Proof.
  induction 1 as [| | |k e secs r tr Ht Ha H IH]; try reflexivity.
  change (requests (Poll k :: Sleep secs :: tr)) with (k :: requests tr).
  cbn [length seq]. by rewrite <- IH.
Qed.

Lemma run_in_time (svc : service) (timeout : Z) (k : nat) (elapsed : Z)
    (result : pyval) (tr : list event) :
  run svc timeout k elapsed result tr ->
  forall pre j post,
    tr = pre ++ Poll j :: post -> (elapsed + duration svc pre < timeout)%Z.
Proof.
  induction 1 as [k e Ht|k e tok Ht Ha|k e Ht Ha|k e secs r tr Ht Ha H IH];
    intros pre j post Htr.
  - by destruct pre.
  - destruct pre as [|x [|y pre]]; try discriminate. cbn. lia.
  - destruct pre as [|x [|y pre]]; try discriminate. cbn. lia.
  - destruct pre as [|x [|y pre]].
    + cbn. lia.
    + discriminate.
    + inversion Htr; subst. cbn [duration].
      specialize (IH pre j post eq_refl). lia.
Qed.

Lemma run_ended (svc : service) (timeout : Z) (k : nat) (elapsed : Z)
    (result : pyval) (tr : list event) :
  run svc timeout k elapsed result tr ->
  match last tr with
  | Some (Poll j) =>
      poll_action (reply_of svc j) = Return result
      \/ (poll_action (reply_of svc j) = Break /\ result = VNone)
  | _ => result = VNone /\ (timeout <= elapsed + duration svc tr)%Z
  end.
Proof.
  induction 1 as [k e Ht|k e tok Ht Ha|k e Ht Ha|k e secs r tr Ht Ha H IH].
  - cbn. split; [done|lia].
  - cbn. by left.
  - cbn. by right.
  - cbn [duration]. destruct tr as [|x tr].
    + cbn in *. destruct IH as [-> Hle]. split; [done|lia].
    + change (last (Poll k :: Sleep secs :: x :: tr)) with (last (x :: tr)).
      destruct (last (x :: tr)) as [[j|s]|].
      * exact IH.
      * destruct IH as [-> Hle]. split; [done|lia].
      * destruct IH as [-> Hle]. split; [done|lia].
Qed.

(** C9: [_wait_solution] terminates for every service and every timeout:
    from [enough_fuel timeout] iterations on, it returns one and the same
    object and trace.  That trace is the whole course of the loop: its
    requests are numbered from 0 without a gap; every request but the last
    is followed by a sleep of at least three seconds; every request is made
    while less than [timeout] has elapsed; and the call ends in one of
    three ways only, at a request answered with the token, which it
    returns, at a request answered with an explicit status other than
    [CAPCHA_NOT_READY], with [None], or with [None] once the timeout has
    elapsed after a sleep (or before the first request, when the timeout is
    not positive).  A request answered with status 1 ends the call with its
    token, a request answered with an explicit status other than
    [CAPCHA_NOT_READY] ends it with [None], and every other request is
    followed by a sleep. *)
Theorem C9_wait_solution_terminates (svc : service) (timeout : Z) :
  exists result tr,
    (forall fuel, (enough_fuel timeout <= fuel)%nat ->
       _wait_solution fuel svc timeout = Some (result, tr))
    /\ well_paced tr = true
    /\ (forall k, In (Poll k) tr ->
          (3 * Z.of_nat k < timeout)%Z /\ decided_by svc result tr k)
    /\ (forall d token,
          assoc (py "status") d = Some (VInt 1) ->
          assoc (py "request") d = Some token ->
          poll_action (ReplyJson (VDict d)) = Return token)
    /\ (forall d status request,
          assoc (py "status") d = Some status -> eq_one status = false ->
          assoc (py "request") d = Some (VStr request) ->
          poll_action (ReplyJson (VDict d))
          = if str_eqb request (py "CAPCHA_NOT_READY")
            then SleepAndContinue 3 else Break)
    /\ (forall e, poll_action (ReplyRaises e) = SleepAndContinue 5)
    /\ run svc timeout 0 0 result tr
    /\ requests tr = seq 0 (length (requests tr))
    /\ (forall pre k post,
          tr = pre ++ Poll k :: post -> (duration svc pre < timeout)%Z)
    /\ ended svc timeout result tr
    /\ (tr = [] <-> (timeout <= 0)%Z).
Proof.
  destruct (wait_loop_run svc timeout (enough_fuel timeout) 0 0 [])
    as (result & tr & Hrun & Hr).
  { unfold enough_fuel. lia. }
  exists result, tr.
  split.
  { intros fuel Hfuel.
    destruct (wait_loop_run svc timeout fuel 0 0 []) as (r' & t' & Hrun' & Hr').
    { unfold enough_fuel in Hfuel. lia. }
    destruct (run_functional _ _ _ _ _ _ _ _ Hr Hr') as [-> ->].
    exact Hrun'. }
  split; [by eapply run_well_paced|].
  split.
  { intros k H. split.
    - destruct (run_polls _ _ _ _ _ _ Hr k H) as (_ & Hlt & _).
      rewrite Nat.sub_0_r in Hlt. lia.
    - by destruct (run_polls _ _ _ _ _ _ Hr k H) as (_ & _ & Hd). }
  split.
  { intros d token Hs Hq. unfold poll_action, poll_try.
    cbn [bind ret pyget getitem]. rewrite Hs. cbn [bind ret].
    change (eq_one (VInt 1)) with true. cbn [bind ret]. by rewrite Hq. }
  split.
  { intros d status request Hs Hone Hq. unfold poll_action, poll_try.
    cbn [bind ret pyget getitem]. rewrite Hs. cbn [bind ret].
    rewrite Hone, Hq. cbn [bind ret eq_str].
    by destruct (str_eqb request (py "CAPCHA_NOT_READY")). }
  split; [done|]. split; [exact Hr|].
  split; [by eapply run_requests|].
  split.
  { intros pre k post Htr.
    pose proof (run_in_time _ _ _ _ _ _ Hr pre k post Htr). lia. }
  split.
  { pose proof (run_ended _ _ _ _ _ _ Hr) as He. unfold ended.
    destruct (last tr) as [[j|s]|]; [exact He| |];
      (destruct He as [-> Hle]; split; [done|lia]). }
  inversion Hr; subst; split; intros H'; try discriminate; try lia; done.
Qed.

(** A run of [_wait_solution]: two answers [CAPCHA_NOT_READY], each
    followed by a sleep of three seconds, then the token. *)
Example wait_solution_run :
  _wait_solution (enough_fuel 300) slow_service 300
  = Some (VStr (py "P1_token"),
          [Poll 0; Sleep 3; Poll 1; Sleep 3; Poll 2]).
Proof. by vm_compute. Qed.

(** With a timeout of four seconds the same service is asked once. *)
Example wait_solution_times_out :
  _wait_solution (enough_fuel 4) slow_service 4
  = Some (VNone, [Poll 0; Sleep 3]).
Proof. by vm_compute. Qed.

(** [_wait_for_result] of [main.py] does not stop at an explicit error
    status: the exception it raises for it is caught by its own [except],
    which sleeps and lets the loop go on; [_wait_solution] stops. *)
Remark legacy_wait_goes_on_after_error :
  LegacyCaptcha._wait_for_result error_then_solved 60
  = (VDict [(py "token", VStr (py "P1_token"))],
     [Poll 0; Sleep 5; Poll 1])
  /\ _wait_solution (enough_fuel 300)
       {| reply_of := error_then_solved; latency := fun _ => 1;
          overshoot := fun _ => 0 |} 300
     = Some (VNone, [Poll 0]).
Proof. split; by vm_compute. Qed.

End CaptchaClaims.

(** ** The coordinator *)

Section CoordinatorClaims.
Import Extractor View Coordinator.

Lemma clean_cnpj_ok (cnpj : pystr) :
  length (strip_non_digits cnpj) = 14%nat ->
  _clean_cnpj cnpj = inr (strip_non_digits cnpj).
Proof. intros H. unfold _clean_cnpj. by rewrite H. Qed.

Lemma clean_cnpj_raises (cnpj : pystr) :
  length (strip_non_digits cnpj) <> 14%nat ->
  _clean_cnpj cnpj = inl (Exn ValueError (py "CNPJ inválido: " ++ cnpj)).
Proof.
  intros H. unfold _clean_cnpj.
  apply Nat.eqb_neq in H. by rewrite H.
Qed.

(** C1: when the digits of [cnpj] are not exactly fourteen, [consultar]
    raises [ValueError] and leaves the state as it found it: no cache
    lookup, no session event, no attempt, no sleep. *)
Theorem C1_invalid_id_raises_first (E : env) (cnpj : pystr)
    (use_cache : bool) (st : state) :
  length (strip_non_digits cnpj) <> 14%nat ->
  consultar E cnpj use_cache st
  = (inl (Exn ValueError (py "CNPJ inválido: " ++ cnpj)), st).
Proof.
  intros H. unfold consultar, mbind, lift.
  by rewrite clean_cnpj_raises.
Qed.

Lemma metadados_view (clock : pystr) (v : view) :
  metadados (to_CNPJData clock v)
  = VDict [(py "timestamp", VStr clock); (py "sucesso", VBool true)].
Proof. by destruct v. Qed.

Lemma perform_consultation_cases (a : attempt_env) (cnpj : pystr)
    (st : state) :
  exists r evs,
    _perform_consultation a cnpj st
    = (r, mkState (cache st) (trace st ++ evs))
    /\ one_attempt evs
    /\ (forall result, r = inr result ->
          exists text,
            a_inner_text a = inr text
            /\ result = consultation_result a text).
Proof.
  destruct a as [s g c q t u k cl].
  unfold _perform_consultation, try_finally, call.
  cbn [a_setup a_goto a_captcha a_submit a_inner_text a_url a_clock
       a_cleanup].
  destruct s, g, c, q, t as [err|text], cl;
    cbn [mbind emit lift mret raise ret trace cache];
    rewrite ?extract_from_text_view;
    cbn [mbind emit lift mret raise ret trace cache];
    rewrite ?metadados_view;
    cbn [mbind emit lift mret raise ret trace cache setitem];
    rewrite <- ?app_assoc;
    perform_case.
  exists text. split; [reflexivity|]. inversion Hr. reflexivity.
Qed.

Lemma attempt_try_fails (E : env) (cnpj_clean : pystr) (use_cache : bool)
    (k : nat) (st : state) :
  attempt_fails (attempt_of E k) ->
  exists e evs,
    attempt_try E cnpj_clean use_cache k st
    = (inl e, mkState (cache st) (trace st ++ evs))
    /\ one_attempt evs.
Proof.
  intros Hfail. destruct (Hfail cnpj_clean st) as (e & st' & He).
  destruct (perform_consultation_cases (attempt_of E k) cnpj_clean st)
    as (r & evs & Hrun & Hone & _).
  rewrite Hrun in He. inversion He; subst.
  exists e, evs. split; [|exact Hone].
  unfold attempt_try, mbind. by rewrite Hrun.
Qed.

Lemma cache_miss_run (E : env) (cnpj_clean : pystr) (st : state) :
  cache_hit E st cnpj_clean = false ->
  exists v,
    _get_cache E cnpj_clean st
    = (inr v, mkState (cache st) (trace st ++ [CacheLookup cnpj_clean]))
    /\ truthy v = false.
Proof.
  unfold cache_hit, _get_cache, mbind, emit. cbn [cache trace].
  destruct (cache st !! cnpj_clean) as [file|]; [|by exists VNone].
  destruct file as [|data|e']; [| |discriminate].
  all: destruct (read_cache E _) as [e|v]; [by exists VNone|].
  all: intros Hv; by exists v.
Qed.

(** C1 at the identifier [38.139.407/0001], which has ten digits. *)
Lemma C1_witness :
  length (strip_non_digits (py "38.139.407/0001")) <> 14%nat
  /\ consultar failing_env (py "38.139.407/0001") true cached_state
     = (inl (Exn ValueError
               (py "CNPJ inválido: " ++ py "38.139.407/0001")),
        cached_state).
Proof.
  assert (length (strip_non_digits (py "38.139.407/0001")) <> 14%nat) as H
    by (vm_compute; lia).
  split; [exact H|].
  exact (C1_invalid_id_raises_first failing_env (py "38.139.407/0001") true
           cached_state H).
Defined.


Lemma failing_attempt_fails : attempt_fails failing_attempt.
Proof. intros cnpj st. eexists _, _. reflexivity. Qed.


(** C8: for an identifier of fourteen digits whose cache file holds a
    dictionary with a [metadados.timestamp] less than 24 hours old,
    [consultar] with [use_cache = True] returns that dictionary itself; it
    looks the cache up and logs, and does nothing else: no session event,
    no extraction, no write. *)
Theorem C8_fresh_cache_entry_is_returned (E : env) (cnpj : pystr)
    (st : state) (d md : dict) (ts : pystr) (t : Z) :
  length (strip_non_digits cnpj) = 14%nat ->
  cache st !! strip_non_digits cnpj = Some (Json (VDict d)) ->
  assoc (py "metadados") d = Some (VDict md) ->
  assoc (py "timestamp") md = Some (VStr ts) ->
  mktime_strptime E ts = Some t ->
  (now E - t < 86400)%Z ->
  consultar E cnpj true st
  = (inr (VDict d),
     mkState (cache st)
       (trace st ++ [CacheLookup (strip_non_digits cnpj); LogInfo]))
  /\ existsb is_session_event [CacheLookup (strip_non_digits cnpj); LogInfo]
     = false.
Proof.
  intros Hlen Hfile Hmd Hts Hparse Hfresh. split; [|reflexivity].
  unfold consultar, mbind at 1, lift. rewrite clean_cnpj_ok by done.
  unfold _get_cache, mbind, emit, mret. cbn [cache trace].
  rewrite Hfile. unfold read_cache. cbn [bind ret pyget].
  rewrite Hmd. cbn [bind ret pyget]. rewrite Hts. cbn [bind ret].
  rewrite Hparse. cbn [bind ret].
  apply Z.ltb_lt in Hfresh. rewrite Hfresh.
  unfold ret. cbn match.
  assert (truthy (VDict d) = true) as -> by (by destruct d).
  cbn [cache trace]. by rewrite <- app_assoc.
Qed.

(** C8 with a record stored 400 seconds ago, in an environment in which
    every attempt would fail. *)
Lemma C8_witness :
  consultar failing_env sample_id true cached_state
  = (inr (VDict cached_record),
     mkState (cache cached_state)
       (trace cached_state
        ++ [CacheLookup (strip_non_digits sample_id); LogInfo])).
Proof.
  refine (proj1 (C8_fresh_cache_entry_is_returned failing_env sample_id
                   cached_state cached_record cached_metadados
                   (py "2026-11-04 09:53:20") 1762250000 _ _ _ _ _ _)).
  - by vm_compute.
  - by vm_compute.
  - by vm_compute.
  - by vm_compute.
  - reflexivity.
  - by vm_compute.
Defined.

(** C5 as stated fails: the record built by [extract_from_text] already
    carries [metadados.sucesso], set to [True]. *)
Lemma C5_counterexample :
  exists c,
    extract_from_text (py "2026-11-04 10:00:00") (py "") = inr c
    /\ getitem (metadados c) (py "sucesso") = inr (VBool true).
Proof. eexists. split; by vm_compute. Qed.

(** C5, amended: [extract_from_text] itself sets [metadados.sucesso] to
    [True], and a consultation that succeeds returns that value unchanged:
    [_perform_consultation] adds [url_consulta] to [metadados] and nothing
    else.  The coordinator sets [sucesso] only in the failure record, to
    [False]. *)
Theorem C5_success_flag_set_by_extractor (a : attempt_env) (cnpj : pystr)
    (st st' : state) (result : pyval) :
  _perform_consultation a cnpj st = (inr result, st') ->
  (exists text c,
      a_inner_text a = inr text
      /\ extract_from_text (a_clock a) text = inr c
      /\ metadados c
         = VDict [ (py "timestamp", VStr (a_clock a));
                   (py "sucesso", VBool true) ]
      /\ result
         = VDict (asdict (mkCNPJData (Extractor.cnpj c) (empresa c)
                            (atividades c) (endereco c) (contato c)
                            (situacao c) (comprovante c)
                            (VDict [ (py "timestamp", VStr (a_clock a));
                                     (py "sucesso", VBool true);
                                     (py "url_consulta", VStr (a_url a)) ]))))
  /\ (forall E error,
        getitem (_error_response E error) (py "metadados")
        = inr (VDict [ (py "sucesso", VBool false);
                       (py "timestamp", VStr (error_clock E)) ])).
Proof.
  intros Hrun. split; [|reflexivity].
  destruct (perform_consultation_cases a cnpj st)
    as (r & evs & Hrun' & _ & Hres).
  rewrite Hrun in Hrun'. inversion Hrun'; subst.
  destruct (Hres result eq_refl) as (text & Htext & ->).
  exists text. eexists. split; [exact Htext|].
  split; [apply extract_from_text_view|].
  split; [by destruct (view_lines _ _)|reflexivity].
Qed.

(** C5 at an attempt in which every call succeeds. *)
Lemma C5_witness :
  exists text c,
    a_inner_text working_attempt = inr text
    /\ extract_from_text (a_clock working_attempt) text = inr c
    /\ metadados c
       = VDict [ (py "timestamp", VStr (a_clock working_attempt));
                 (py "sucesso", VBool true) ].
Proof.
  destruct (_perform_consultation working_attempt (py "38139407000177")
              empty_state) as [[e|result] st'] eqn:Hrun.
  - exfalso. vm_compute in Hrun. discriminate.
  - destruct (C5_success_flag_set_by_extractor _ _ _ _ _ Hrun)
      as [(text & c & H1 & H2 & H3 & _) _].
    exists text, c. auto.
Defined.

(** A successful consultation with the cache in use stores its record. *)
Example consultar_success_is_cached :
  exists result st',
    consultar
      {| attempt_of := fun _ => working_attempt; now := 1762250400;
         mktime_strptime := fun _ => Some 1762250000%Z;
         write_raises := false; write_truncates := false;
         error_clock := sample_clock |}
      sample_id true empty_state = (inr result, st')
    /\ result = consultation_result working_attempt scenario_text
    /\ cache st' !! py "38139407000177" = Some (Json result)
    /\ count_attempts (trace st') = 1%nat.
Proof. eexists _, _. split; [by vm_compute|]. by vm_compute. Qed.

End CoordinatorClaims.

(** ** More on the coordinator *)

Section CoordinatorMore.
Import Extractor View Coordinator.

Lemma count_attempts_app (a b : list event) :
  count_attempts (a ++ b) = (count_attempts a + count_attempts b)%nat.
Proof. unfold count_attempts. by rewrite List.filter_app, length_app. Qed.

Lemma sleeps_of_app (a b : list event) :
  sleeps_of (a ++ b) = sleeps_of a ++ sleeps_of b.
Proof. unfold sleeps_of. apply flat_map_app. Qed.

Lemma session_events_no_cache (evs : list event) :
  forallb is_session_event evs = true -> existsb is_cache_event evs = false.
Proof.
  induction evs as [|ev evs IH]; [done|]. cbn. intros H.
  apply andb_prop in H as [H1 H2]. rewrite (IH H2).
  by destruct ev.
Qed.

Lemma session_events_no_sleep (evs : list event) :
  forallb is_session_event evs = true -> sleeps_of evs = [].
Proof.
  induction evs as [|ev evs IH]; [done|]. intros H. cbn in H.
  apply andb_prop in H as [H1 H2].
  change (sleeps_of (ev :: evs))
    with (match ev with Sleep secs => [secs] | _ => [] end ++ sleeps_of evs).
  rewrite (IH H2). by destruct ev.
Qed.

Lemma consultation_result_sucesso (a : attempt_env) (text : pystr) :
  exists md,
    pyget (consultation_result a text) (py "metadados") (VDict []) = inr md
    /\ pyget md (py "sucesso") VNone = inr (VBool true).
Proof. eexists. split; reflexivity. Qed.

Lemma perform_consultation_succeeds (a : attempt_env) (text cnpj : pystr)
    (st : state) :
  attempt_succeeds a text ->
  _perform_consultation a cnpj st
  = (inr (consultation_result a text),
     mkState (cache st) (trace st ++ success_events cnpj)).
Proof.
  destruct a as [s g c q t u k cl].
  intros (Hs & Hg & Hc & Hq & Ht & Hcl). cbn in Hs, Hg, Hc, Hq, Ht, Hcl.
  subst. unfold _perform_consultation, try_finally, call.
  cbn [a_setup a_goto a_captcha a_submit a_inner_text a_url a_clock
       a_cleanup mbind emit lift mret raise ret trace cache].
  rewrite extract_from_text_view.
  cbn [mbind emit lift mret raise ret trace cache].
  rewrite metadados_view.
  cbn [mbind emit lift mret raise ret trace cache setitem].
  rewrite <- !app_assoc. reflexivity.
Qed.

(** The two ways one attempt of [consultar] ends. *)
Lemma attempt_try_cases (E : env) (cnpj_clean : pystr) (use_cache : bool)
    (k : nat) (st : state) :
  exists evs,
    one_attempt evs
    /\ ((exists e,
           attempt_try E cnpj_clean use_cache k st
           = (inl e, mkState (cache st) (trace st ++ evs)))
        \/ (exists text,
              attempt_try E cnpj_clean use_cache k st
              = (inr (consultation_result (attempt_of E k) text),
                 mkState
                   (saved_cache E cnpj_clean use_cache
                      (consultation_result (attempt_of E k) text) (cache st))
                   (trace st ++ evs ++ save_events E cnpj_clean use_cache)))).
Proof.
  destruct (perform_consultation_cases (attempt_of E k) cnpj_clean st)
    as (r & evs & Hrun & Hone & Hres).
  exists evs. split; [exact Hone|].
  destruct r as [e|result].
  { left. exists e. unfold attempt_try, mbind. by rewrite Hrun. }
  right. destruct (Hres result eq_refl) as (text & _ & ->).
  exists text.
  destruct (consultation_result_sucesso (attempt_of E k) text)
    as (md & Hmd & Hsuc).
  unfold attempt_try, mbind, lift, mret. rewrite Hrun, Hmd, Hsuc.
  unfold saved_cache, save_events, _save_cache, mbind, emit.
  cbn [truthy andb cache trace].
  destruct use_cache; cbn [andb negb cache trace].
  - destruct (write_raises E); [destruct (write_truncates E)|];
      cbn [andb negb cache trace]; by rewrite <- !app_assoc.
  - by rewrite app_nil_r.
Qed.

(** What the retry loop does from any state: it returns, after at most
    one attempt per element of [todo]. *)
Lemma attempts_loop_run (E : env) (cnpj_clean : pystr) (use_cache : bool)
    (todo : list nat) (st : state) :
  exists r c new,
    attempts_loop E cnpj_clean use_cache 3 todo st
    = (inr r, mkState c (trace st ++ new))
    /\ (count_attempts new <= length todo)%nat
    /\ (use_cache = false -> existsb is_cache_event new = false)
    /\ ((exists message, r = _error_response E message /\ c = cache st)
        \/ (exists k text,
              r = consultation_result (attempt_of E k) text
              /\ c = saved_cache E cnpj_clean use_cache r (cache st))).
Proof.
  revert st. induction todo as [|attempt todo IH]; intros st.
  - exists (_error_response E (py "Máximo de tentativas excedido")),
      (cache st), [].
    cbn [attempts_loop mret]. rewrite app_nil_r.
    split; [by destruct st|]. split; [done|]. split; [done|].
    left. by eexists.
  - cbn [attempts_loop]. unfold try_except.
    destruct (attempt_try_cases E cnpj_clean use_cache attempt st)
      as (evs & [Hcount Hsess] & [(e & ->)|(text & ->)]).
    + unfold mbind at 1, emit at 1. cbn [cache trace].
      destruct (attempt <? 3 - 1)%nat.
      * unfold mbind at 1, emit at 1. cbn [cache trace].
        destruct (IH (mkState (cache st)
                        (((trace st ++ evs)
                          ++ [LogError (attempt + 1) (exn_str e)])
                         ++ [Sleep 10])))
          as (r & c & new & -> & Hn & Hc & Hr).
        cbn [cache trace] in *.
        exists r, c,
          (evs ++ [LogError (attempt + 1) (exn_str e); Sleep 10] ++ new).
        split; [by rewrite <- !app_assoc|].
        split.
        { rewrite !count_attempts_app, Hcount. cbn. lia. }
        split; [|exact Hr].
        intros Huc. rewrite !existsb_app, (Hc Huc).
        by rewrite session_events_no_cache.
      * exists (_error_response E (exn_str e)), (cache st),
          (evs ++ [LogError (attempt + 1) (exn_str e)]).
        unfold mret. cbn [cache trace].
        split; [by rewrite <- !app_assoc|].
        split.
        { rewrite count_attempts_app, Hcount. cbn. lia. }
        split.
        { intros _. rewrite existsb_app.
          by rewrite session_events_no_cache. }
        left. by eexists.
    + eexists _, _, (evs ++ save_events E cnpj_clean use_cache).
      split; [reflexivity|]. split.
      { rewrite count_attempts_app, Hcount.
        unfold save_events. destruct use_cache, (write_raises E); cbn; lia. }
      split.
      { intros ->. rewrite existsb_app.
        by rewrite session_events_no_cache. }
      right. by exists attempt, text.
Qed.

Lemma read_cache_result (E : env) (file : cache_file) (v : pyval) :
  read_cache E file = inr v -> v = VNone \/ file = Json v.
Proof.
  destruct file as [|data|e]; [discriminate| |discriminate].
  unfold read_cache, bind, ret, raise. intros H.
  repeat match type of H with
         | match ?x with _ => _ end = _ => destruct x eqn:?; try discriminate
         end;
    inversion H; subst; auto.
Qed.

(** [_get_cache] from any state in which the path can be examined. *)
Lemma get_cache_run (E : env) (cnpj_clean : pystr) (st : state) :
  accessible st cnpj_clean ->
  exists v,
    _get_cache E cnpj_clean st
    = (inr v, mkState (cache st) (trace st ++ [CacheLookup cnpj_clean]))
    /\ truthy v = cache_hit E st cnpj_clean
    /\ (v = VNone \/ cache st !! cnpj_clean = Some (Json v)).
Proof.
  intros Hacc. unfold cache_hit, _get_cache, mbind, emit.
  cbn [cache trace].
  destruct (cache st !! cnpj_clean) as [file|] eqn:Hfile;
    [|exists VNone; auto].
  destruct file as [|data|e']; [| |by destruct (Hacc e')].
  all: destruct (read_cache E _) as [e|v] eqn:Hread; [exists VNone; auto|].
  all: exists v; split; [done|]; split; [done|].
  all: destruct (read_cache_result _ _ _ Hread) as [->|Heq]; [by left|].
  all: try discriminate.
  inversion Heq; subst. by right.
Qed.

(** [_get_cache] at a path that cannot be examined. *)
Lemma get_cache_raises (E : env) (cnpj_clean : pystr) (st : state)
    (e : exn) :
  cache st !! cnpj_clean = Some (Inaccessible e) ->
  _get_cache E cnpj_clean st
  = (inl e, mkState (cache st) (trace st ++ [CacheLookup cnpj_clean])).
Proof.
  intros Hfile. unfold _get_cache, mbind, emit. cbn [cache trace].
  by rewrite Hfile.
Qed.

(** A fresh entry is what [consultar] returns. *)
Lemma fresh_entry_is_served (E : env) (cnpj : pystr) (st : state)
    (d md : dict) (ts : pystr) (t : Z) :
  length (strip_non_digits cnpj) = 14%nat ->
  cache st !! strip_non_digits cnpj = Some (Json (VDict d)) ->
  assoc (py "metadados") d = Some (VDict md) ->
  assoc (py "timestamp") md = Some (VStr ts) ->
  mktime_strptime E ts = Some t ->
  (now E - t < 86400)%Z ->
  consultar E cnpj true st
  = (inr (VDict d),
     mkState (cache st)
       (trace st ++ [CacheLookup (strip_non_digits cnpj); LogInfo])).
Proof.
  intros Hlen Hfile Hmd Hts Hparse Hfresh.
  unfold consultar, mbind at 1, lift. rewrite clean_cnpj_ok by done.
  unfold _get_cache, mbind, emit, mret. cbn [cache trace].
  rewrite Hfile. unfold read_cache. cbn [bind ret pyget].
  rewrite Hmd. cbn [bind ret pyget]. rewrite Hts. cbn [bind ret].
  rewrite Hparse. cbn [bind ret].
  apply Z.ltb_lt in Hfresh. rewrite Hfresh.
  unfold ret. cbn match.
  assert (truthy (VDict d) = true) as -> by (by destruct d).
  cbn [cache trace]. by rewrite <- app_assoc.
Qed.

(** [consultar] on an identifier of fourteen digits, from any state. *)
Lemma consultar_run (E : env) (cnpj : pystr) (use_cache : bool)
    (st : state) :
  length (strip_non_digits cnpj) = 14%nat ->
  use_cache = false \/ accessible st (strip_non_digits cnpj) ->
  exists r c new,
    consultar E cnpj use_cache st = (inr r, mkState c (trace st ++ new))
    /\ (count_attempts new <= 3)%nat
    /\ (use_cache = false -> existsb is_cache_event new = false)
    /\ ((truthy r = true /\ c = cache st
         /\ cache st !! strip_non_digits cnpj = Some (Json r))
        \/ (exists message, r = _error_response E message /\ c = cache st)
        \/ (exists k text,
              r = consultation_result (attempt_of E k) text
              /\ c = saved_cache E (strip_non_digits cnpj) use_cache r
                       (cache st))).
Proof.
  intros Hlen Hacc. set (clean := strip_non_digits cnpj) in *.
  unfold consultar, mbind at 1, lift. rewrite clean_cnpj_ok by done.
  fold clean. destruct use_cache.
  - destruct Hacc as [|Hacc]; [done|].
    destruct (get_cache_run E clean st Hacc) as (v & Hget & Hv & Hfile).
    unfold mbind at 1. unfold mbind at 1. rewrite Hget.
    destruct (truthy v) eqn:Htruthy.
    + unfold mbind, emit, mret. cbn [cache trace].
      exists v, (cache st), [CacheLookup clean; LogInfo].
      split; [by rewrite <- app_assoc|]. split; [cbn; lia|].
      split; [done|]. left.
      destruct Hfile as [->|Hfile]; [done|]. done.
    + unfold mret.
      destruct (attempts_loop_run E clean true (seq 0 3)
                  (mkState (cache st) (trace st ++ [CacheLookup clean])))
        as (r & c & new & Hrun & Hn & _ & Hr).
      cbn [cache trace] in *. rewrite Hrun.
      exists r, c, (CacheLookup clean :: new).
      split; [by rewrite <- app_assoc|].
      split; [exact Hn|]. split; [done|]. by right.
  - unfold mbind, mret.
    destruct (attempts_loop_run E clean false (seq 0 3) st)
      as (r & c & new & Hrun & Hn & Hc & Hr).
    rewrite Hrun. exists r, c, new. repeat split; auto.
Qed.

(** X1: on an identifier of fourteen digits [consultar] raises only when
    the cache is in use and [exists()] of the cache file raises: it then
    raises that exception right after the lookup, with no attempt.
    Otherwise, whatever the session and the solver do, it returns an
    object after at most three attempts, and the cache it leaves is the
    one it found, or that one with the returned object stored under the
    normalised identifier, or, when the write raised after it had opened
    the file, that one with an undecodable file under the normalised
    identifier. *)
Theorem consultar_returns_for_valid_id (E : env) (cnpj : pystr)
    (use_cache : bool) (st : state) :
  length (strip_non_digits cnpj) = 14%nat ->
  (forall e,
     use_cache = true ->
     cache st !! strip_non_digits cnpj = Some (Inaccessible e) ->
     consultar E cnpj use_cache st
     = (inl e,
        mkState (cache st)
          (trace st ++ [CacheLookup (strip_non_digits cnpj)])))
  /\ (use_cache = false \/ accessible st (strip_non_digits cnpj) ->
      exists r c new,
        consultar E cnpj use_cache st = (inr r, mkState c (trace st ++ new))
        /\ (count_attempts new <= 3)%nat
        /\ (c = cache st
            \/ (use_cache = true /\ write_raises E = false
                /\ c = <[strip_non_digits cnpj := Json r]> (cache st))
            \/ (use_cache = true /\ write_raises E = true
                /\ write_truncates E = true
                /\ c = <[strip_non_digits cnpj := Unreadable]> (cache st)))).
Proof.
  intros Hlen. split.
  - intros e -> Hfile. unfold consultar, mbind at 1, lift.
    rewrite clean_cnpj_ok by done. unfold mbind.
    by rewrite (get_cache_raises E _ st e Hfile).
  - intros Hacc.
    destruct (consultar_run E cnpj use_cache st Hlen Hacc)
      as (r & c & new & Hrun & Hn & _ & Hr).
    exists r, c, new. split; [exact Hrun|]. split; [exact Hn|].
    destruct Hr as [(_ & -> & _)|[(m & _ & ->)|(k & text & _ & ->)]]; auto.
    unfold saved_cache.
    destruct use_cache; [|by left].
    destruct (write_raises E); [destruct (write_truncates E)|]; auto.
    right. right. auto.
Qed.

Lemma consultar_returns_for_valid_id_witness :
  (forall e,
     true = true ->
     cache empty_state !! strip_non_digits sample_id = Some (Inaccessible e) ->
     consultar recovering_env sample_id true empty_state
     = (inl e,
        mkState (cache empty_state)
          (trace empty_state ++ [CacheLookup (strip_non_digits sample_id)])))
  /\ (true = false \/ accessible empty_state (strip_non_digits sample_id) ->
      exists r c new,
        consultar recovering_env sample_id true empty_state
        = (inr r, mkState c (trace empty_state ++ new))
        /\ (count_attempts new <= 3)%nat
        /\ (c = cache empty_state
            \/ (true = true /\ write_raises recovering_env = false
                /\ c = <[strip_non_digits sample_id := Json r]>
                         (cache empty_state))
            \/ (true = true /\ write_raises recovering_env = true
                /\ write_truncates recovering_env = true
                /\ c = <[strip_non_digits sample_id := Unreadable]>
                         (cache empty_state)))).
Proof.
  apply (consultar_returns_for_valid_id recovering_env sample_id true
           empty_state).
  by vm_compute.
Defined.

(** X5: with [use_cache = False], [consultar] neither reads nor writes the
    cache, whatever the identifier and the environment: the cache of the
    final state is the initial one and the trace holds no cache event. *)
Theorem consultar_without_cache_leaves_cache (E : env) (cnpj : pystr)
    (st : state) :
  exists r new,
    consultar E cnpj false st = (r, mkState (cache st) (trace st ++ new))
    /\ existsb is_cache_event new = false.
Proof.
  destruct (decide (length (strip_non_digits cnpj) = 14%nat)) as [Hlen|Hlen].
  - destruct (consultar_run E cnpj false st Hlen (or_introl eq_refl))
      as (r & c & new & Hrun & _ & Hc & Hr).
    exists (inr r), new. split; [|by apply Hc].
    rewrite Hrun. f_equal. f_equal.
    destruct Hr as [(_ & -> & _)|[(m & _ & ->)|(k & text & _ & ->)]]; done.
  - eexists _, []. split; [|done].
    unfold consultar, mbind, lift. rewrite clean_cnpj_raises by done.
    rewrite app_nil_r. by destruct st.
Qed.

(** X4: [_get_cache] never changes the cache, and it raises exactly when
    [exists()] of the cache file raises.  Everything that goes wrong
    inside its [try] is a miss, not an error: it returns [None] when there
    is no file, when the file cannot be read or decoded, when the content
    has no timestamp that parses, and when the timestamp is 86400 seconds
    old or older.  What it returns other than [None] is the object stored
    in the file, and that object carries a timestamp that parses to a
    time less than 86400 seconds before [time.time()]. *)
Theorem get_cache_degrades_to_miss (E : env) (cnpj_clean : pystr)
    (st : state) :
  exists r,
    _get_cache E cnpj_clean st
    = (r, mkState (cache st) (trace st ++ [CacheLookup cnpj_clean]))
    /\ (forall e,
          r = inl e <-> cache st !! cnpj_clean = Some (Inaccessible e))
    /\ (cache st !! cnpj_clean = None -> r = inr VNone)
    /\ (cache st !! cnpj_clean = Some Unreadable -> r = inr VNone)
    /\ (forall data,
          cache st !! cnpj_clean = Some (Json data) ->
          r = inr data \/ r = inr VNone)
    /\ (forall v,
          r = inr v -> v <> VNone ->
          cache st !! cnpj_clean = Some (Json v)
          /\ exists md ts t,
               pyget v (py "metadados") (VDict []) = inr md
               /\ pyget md (py "timestamp") (VStr []) = inr (VStr ts)
               /\ mktime_strptime E ts = Some t
               /\ (now E - t < 86400)%Z)
    /\ (forall data md ts t,
          cache st !! cnpj_clean = Some (Json data) ->
          pyget data (py "metadados") (VDict []) = inr md ->
          pyget md (py "timestamp") (VStr []) = inr (VStr ts) ->
          mktime_strptime E ts = Some t ->
          r = inr (if (now E - t <? 86400)%Z then data else VNone)).
Proof.
  assert (forall data md ts t,
            pyget data (py "metadados") (VDict []) = inr md ->
            pyget md (py "timestamp") (VStr []) = inr (VStr ts) ->
            mktime_strptime E ts = Some t ->
            read_cache E (Json data)
            = inr (if (now E - t <? 86400)%Z then data else VNone))
    as Hfresh.
  { intros data md ts t Hmd Hts Hparse. unfold read_cache.
    cbn [bind ret]. rewrite Hmd. cbn [bind ret]. rewrite Hts.
    cbn [bind ret]. rewrite Hparse. cbn [bind ret].
    by destruct (now E - t <? 86400)%Z. }
  assert (forall v,
            read_cache E (Json v) = inr v -> v <> VNone ->
            exists md ts t,
              pyget v (py "metadados") (VDict []) = inr md
              /\ pyget md (py "timestamp") (VStr []) = inr (VStr ts)
              /\ mktime_strptime E ts = Some t
              /\ (now E - t < 86400)%Z) as Hhit.
  { intros v Hread Hv. unfold read_cache in Hread. cbn [bind ret] in Hread.
    destruct (pyget v (py "metadados") (VDict [])) as [e|md] eqn:Hmd;
      [discriminate|].
    cbn [bind ret] in Hread.
    destruct (pyget md (py "timestamp") (VStr [])) as [e|tsv] eqn:Hts;
      [discriminate|].
    cbn [bind ret] in Hread.
    destruct tsv as [| | |ts| |]; try discriminate.
    destruct (mktime_strptime E ts) as [t|] eqn:Hparse; [|discriminate].
    cbn [bind ret] in Hread.
    destruct (now E - t <? 86400)%Z eqn:Hlt.
    - exists md, ts, t. split; [done|]. split; [done|]. split; [done|].
      by apply Z.ltb_lt.
    - inversion Hread. congruence. }
  unfold _get_cache, mbind, emit. cbn [cache trace].
  destruct (cache st !! cnpj_clean) as [[|data|e']|] eqn:Hfile.
  - exists (inr VNone). split; [reflexivity|].
    split; [intros e0; split; discriminate|].
    split; [done|]. split; [done|]. split; [discriminate|].
    split; [intros v0 Hv0 Hne; inversion Hv0; by subst|].
    discriminate.
  - destruct (read_cache E (Json data)) as [e|v] eqn:Hread.
    + exists (inr VNone). split; [reflexivity|].
      split; [intros e0; split; discriminate|].
      split; [done|]. split; [done|].
      split; [intros d0 _; by right|].
      split; [intros v0 Hv0 Hne; inversion Hv0; by subst|].
      intros d0 md ts t Hd0 Hmd Hts Hparse. inversion Hd0; subst d0.
      rewrite (Hfresh _ _ _ _ Hmd Hts Hparse) in Hread. discriminate.
    + exists (inr v). split; [reflexivity|].
      split; [intros e0; split; discriminate|].
      split; [done|]. split; [done|].
      split.
      { intros d0 Hd0. inversion Hd0; subst d0.
        destruct (read_cache_result _ _ _ Hread) as [->|Heq]; [by right|].
        inversion Heq. by left. }
      split.
      { intros v0 Hv0 Hne. inversion Hv0; subst v0.
        destruct (read_cache_result _ _ _ Hread) as [->|Heq]; [done|].
        inversion Heq; subst data. split; [done|]. by apply Hhit. }
      intros d0 md ts t Hd0 Hmd Hts Hparse. inversion Hd0; subst d0.
      rewrite (Hfresh _ _ _ _ Hmd Hts Hparse) in Hread. by rewrite Hread.
  - exists (inl e'). split; [reflexivity|].
    split; [intros e0; split; intros H0; by inversion H0|].
    split; [done|]. split; [done|]. split; [discriminate|].
    split; [discriminate|]. discriminate.
  - exists (inr VNone). split; [reflexivity|].
    split; [intros e0; split; discriminate|].
    split; [done|]. split; [done|]. split; [discriminate|].
    split; [intros v0 Hv0 Hne; inversion Hv0; by subst|].
    discriminate.
Qed.

Lemma attempt_try_succeeds (E : env) (cnpj_clean text : pystr)
    (use_cache : bool) (k : nat) (st : state) :
  attempt_succeeds (attempt_of E k) text ->
  attempt_try E cnpj_clean use_cache k st
  = (inr (consultation_result (attempt_of E k) text),
     mkState
       (saved_cache E cnpj_clean use_cache
          (consultation_result (attempt_of E k) text) (cache st))
       (trace st ++ success_events cnpj_clean
        ++ save_events E cnpj_clean use_cache)).
Proof.
  intros Hok.
  pose proof (perform_consultation_succeeds _ _ cnpj_clean st Hok) as Hrun.
  destruct (consultation_result_sucesso (attempt_of E k) text)
    as (md & Hmd & Hsuc).
  unfold attempt_try, mbind, lift, mret. rewrite Hrun, Hmd, Hsuc.
  unfold saved_cache, save_events, _save_cache, mbind, emit.
  cbn [truthy andb cache trace].
  destruct use_cache; cbn [andb negb cache trace].
  - destruct (write_raises E); [destruct (write_truncates E)|];
      cbn [andb negb cache trace]; by rewrite <- !app_assoc.
  - by rewrite app_nil_r.
Qed.

(** The retry loop when the attempts [i .. i+k-1] fail and the attempt
    [i+k] succeeds. *)
Lemma attempts_loop_first_success (E : env) (cnpj_clean text : pystr)
    (use_cache : bool) (k : nat) :
  forall i st,
    (i + k < 3)%nat ->
    (forall j, (i <= j < i + k)%nat -> attempt_fails (attempt_of E j)) ->
    attempt_succeeds (attempt_of E (i + k)) text ->
    exists new,
      attempts_loop E cnpj_clean use_cache 3 (seq i (3 - i)) st
      = (inr (consultation_result (attempt_of E (i + k)) text),
         mkState
           (saved_cache E cnpj_clean use_cache
              (consultation_result (attempt_of E (i + k)) text) (cache st))
           (trace st ++ new ++ success_events cnpj_clean
            ++ save_events E cnpj_clean use_cache))
      /\ count_attempts new = k
      /\ sleeps_of new = repeat 10%Z k.
Proof.
  induction k as [|k IH]; intros i st Hlt Hfail Hok.
  - rewrite Nat.add_0_r in *.
    destruct (3 - i)%nat as [|n] eqn:Hn; [lia|].
    cbn [seq attempts_loop]. unfold try_except.
    rewrite (attempt_try_succeeds _ _ text) by done.
    exists []. by split.
  - destruct (3 - i)%nat as [|n] eqn:Hn; [lia|].
    cbn [seq attempts_loop]. unfold try_except.
    destruct (attempt_try_fails E cnpj_clean use_cache i st)
      as (e & evs & -> & Hcount & Hsess); [apply Hfail; lia|].
    assert ((i <? 3 - 1)%nat = true) as -> by (apply Nat.ltb_lt; lia).
    unfold mbind at 1, emit at 1. cbn [cache trace].
    unfold mbind at 1, emit at 1. cbn [cache trace].
    assert (n = (3 - S i)%nat) as -> by lia.
    destruct (IH (S i)
                (mkState (cache st)
                   (((trace st ++ evs) ++ [LogError (i + 1) (exn_str e)])
                    ++ [Sleep 10])))
      as (new & Hrun & Hn' & Hs).
    { lia. }
    { intros j Hj. apply Hfail. lia. }
    { by replace (S i + k)%nat with (i + S k)%nat by lia. }
    replace (S i + k)%nat with (i + S k)%nat in Hrun by lia.
    cbn [cache trace] in Hrun. rewrite Hrun.
    exists (evs ++ [LogError (i + 1) (exn_str e); Sleep 10] ++ new).
    split; [by rewrite <- !app_assoc|]. split.
    + rewrite !count_attempts_app, Hcount, Hn'. cbn. lia.
    + rewrite !sleeps_of_app, Hs, session_events_no_sleep by done.
      reflexivity.
Qed.

(** X2: for an identifier of fourteen digits that is not served from the
    cache, when the first [k] attempts fail and the next one succeeds
    ([k < 3]), [consultar] returns the record of that attempt after exactly
    [k + 1] attempts and [k] sleeps of ten seconds.  With the cache in use
    the record is stored under the normalised identifier, unless the write
    raises, which is logged and does not change the result; the cache is
    then as it was when the write raised before opening the file, and
    holds an undecodable file under the normalised identifier when it
    raised after. *)
Theorem consultar_first_success (E : env) (cnpj text : pystr)
    (use_cache : bool) (st : state) (k : nat) :
  length (strip_non_digits cnpj) = 14%nat ->
  use_cache = false \/ cache_hit E st (strip_non_digits cnpj) = false ->
  (k < 3)%nat ->
  (forall j, (j < k)%nat -> attempt_fails (attempt_of E j)) ->
  attempt_succeeds (attempt_of E k) text ->
  exists st',
    consultar E cnpj use_cache st
    = (inr (consultation_result (attempt_of E k) text), st')
    /\ cache st'
       = (if use_cache then
            if write_raises E then
              if write_truncates E
              then <[strip_non_digits cnpj := Unreadable]> (cache st)
              else cache st
            else <[strip_non_digits cnpj
                   := Json (consultation_result (attempt_of E k) text)]>
                   (cache st)
          else cache st)
    /\ exists new,
         trace st' = trace st ++ new
         /\ count_attempts new = S k
         /\ sleeps_of new = repeat 10%Z k
         /\ (use_cache = true -> write_raises E = true -> In LogWarning new).
Proof.
  intros Hlen Hmiss Hk Hfail Hok.
  set (clean := strip_non_digits cnpj) in *.
  destruct (attempts_loop_first_success E clean text use_cache k 0
              (mkState (cache st) (trace st ++ lookup_events clean use_cache)))
    as (new & Hrun & Hn & Hs); [lia| |done|].
  { intros j Hj. apply Hfail. lia. }
  cbn [Nat.add Nat.sub cache trace] in Hrun.
  eexists. split; [|split].
  - unfold consultar, mbind at 1, lift. rewrite clean_cnpj_ok by done.
    fold clean. destruct use_cache.
    + destruct Hmiss as [|Hmiss]; [done|].
      destruct (cache_miss_run E clean st Hmiss) as (v & Hget & Hv).
      unfold mbind. rewrite Hget, Hv. exact Hrun.
    + unfold mbind, mret.
      assert (mkState (cache st) (trace st ++ lookup_events clean false) = st)
        as Heq by (destruct st; cbn; by rewrite app_nil_r).
      rewrite Heq in Hrun. exact Hrun.
  - reflexivity.
  - cbn [trace].
    exists (lookup_events clean use_cache ++ new ++ success_events clean
            ++ save_events E clean use_cache).
    split; [by rewrite <- !app_assoc|].
    split.
    { rewrite !count_attempts_app, Hn.
      unfold lookup_events, save_events.
      destruct use_cache, (write_raises E); cbn; lia. }
    split.
    { rewrite !sleeps_of_app, Hs.
      unfold lookup_events, save_events.
      destruct use_cache, (write_raises E); cbn; by rewrite app_nil_r. }
    intros -> Hw. unfold save_events. rewrite Hw.
    rewrite !in_app_iff. right. right. right. cbn. auto.
Qed.

Lemma working_attempt_succeeds :
  attempt_succeeds working_attempt scenario_text.
Proof. by repeat split. Qed.

Lemma consultar_first_success_witness :
  exists st',
    consultar recovering_env sample_id true empty_state
    = (inr (consultation_result working_attempt scenario_text), st')
    /\ cache st' !! py "38139407000177"
       = Some (Json (consultation_result working_attempt scenario_text))
    /\ exists new,
         trace st' = new /\ count_attempts new = 2%nat
         /\ sleeps_of new = [10%Z].
Proof.
  destruct (consultar_first_success recovering_env sample_id scenario_text
              true empty_state 1)
    as (st' & Hrun & Hcache & new & Htr & Hn & Hs & _).
  - by vm_compute.
  - right. by vm_compute.
  - lia.
  - intros j Hj. assert (j = 0%nat) as -> by lia.
    apply failing_attempt_fails.
  - apply working_attempt_succeeds.
  - exists st'. split; [exact Hrun|]. split.
    + rewrite Hcache. cbn [recovering_env write_raises write_truncates].
      apply lookup_insert_eq.
    + exists new. split; [exact Htr|]. split; [exact Hn|exact Hs].
Defined.

(** X3: what [consultar] returned with the cache in use, when it is a
    record with [metadados.sucesso = True] and the write does not raise, is
    what the next call for the same digits returns while the record's
    timestamp is less than 24 hours old: the same object, with no attempt. *)
Theorem consultar_serves_what_it_stored (E E' : env) (cnpj cnpj' : pystr)
    (st st1 : state) (d md : dict) (ts : pystr) (t : Z) :
  consultar E cnpj true st = (inr (VDict d), st1) ->
  write_raises E = false ->
  assoc (py "metadados") d = Some (VDict md) ->
  assoc (py "sucesso") md = Some (VBool true) ->
  assoc (py "timestamp") md = Some (VStr ts) ->
  strip_non_digits cnpj' = strip_non_digits cnpj ->
  mktime_strptime E' ts = Some t ->
  (now E' - t < 86400)%Z ->
  consultar E' cnpj' true st1
  = (inr (VDict d),
     mkState (cache st1)
       (trace st1 ++ [CacheLookup (strip_non_digits cnpj); LogInfo])).
Proof.
  intros Hrun Hw Hmd Hsuc Hts Hsame Hparse Hfresh.
  assert (length (strip_non_digits cnpj) = 14%nat) as Hlen.
  { destruct (decide (length (strip_non_digits cnpj) = 14%nat)); [done|].
    unfold consultar, mbind, lift in Hrun.
    rewrite clean_cnpj_raises in Hrun by done. discriminate. }
  assert (accessible st (strip_non_digits cnpj)) as Hacc.
  { intros e He. unfold consultar, mbind at 1, lift in Hrun.
    rewrite clean_cnpj_ok in Hrun by done. unfold mbind in Hrun.
    rewrite (get_cache_raises E _ st e He) in Hrun. discriminate. }
  destruct (consultar_run E cnpj true st Hlen (or_intror Hacc))
    as (r & c & new & Hrun' & _ & _ & Hr).
  rewrite Hrun in Hrun'. inversion Hrun'; subst r st1. clear Hrun'.
  assert (c !! strip_non_digits cnpj = Some (Json (VDict d))) as Hfile.
  { destruct Hr as [(_ & -> & Hfile)|[(m & Hm & _)|(k & text & _ & ->)]].
    - exact Hfile.
    - unfold _error_response in Hm. inversion Hm; subst d.
      vm_compute in Hmd. inversion Hmd; subst md.
      vm_compute in Hsuc. discriminate.
    - unfold saved_cache. rewrite Hw. apply lookup_insert_eq. }
  rewrite <- Hsame.
  apply (fresh_entry_is_served E' cnpj' _ d md ts t); try done.
  - by rewrite Hsame.
  - cbn [cache]. by rewrite Hsame.
Qed.

Lemma consultar_serves_what_it_stored_witness :
  exists st1 d st2,
    consultar recovering_env sample_id true empty_state = (inr (VDict d), st1)
    /\ consultar failing_env (py "38139407000177") true st1
       = (inr (VDict d), st2)
    /\ count_attempts (trace st2) = count_attempts (trace st1).
Proof.
  destruct (consultar recovering_env sample_id true empty_state)
    as [[e|r] st1] eqn:Hrun; [exfalso; vm_compute in Hrun; discriminate|].
  destruct r as [| | | | |d]; try (exfalso; vm_compute in Hrun; discriminate).
  exists st1, d. eexists. split; [reflexivity|].
  assert (d = [ (py "cnpj", VDict [ (py "numero", VStr sample_id);
                                     (py "tipo", VStr (py "MATRIZ"));
                                     (py "data_abertura", VStr []) ]) ]
              ++ skipn 1 d) as Hd.
  { vm_compute in Hrun. inversion Hrun. reflexivity. }
  split.
  - apply (consultar_serves_what_it_stored recovering_env failing_env
             sample_id (py "38139407000177") empty_state st1 d
             [ (py "timestamp", VStr sample_clock);
               (py "sucesso", VBool true);
               (py "url_consulta", VStr (a_url working_attempt)) ]
             sample_clock 1762250000 Hrun).
    + reflexivity.
    + vm_compute in Hrun. inversion Hrun. reflexivity.
    + by vm_compute.
    + by vm_compute.
    + by vm_compute.
    + reflexivity.
    + by vm_compute.
  - cbn [trace]. rewrite count_attempts_app. cbn. lia.
Defined.

(** A write that fails after opening the file, over an entry that has
    expired: the record is returned, a warning is logged, and the cache
    holds an undecodable file in place of the entry. *)
Example failed_write_leaves_undecodable_file :
  exists st',
    consultar truncating_env sample_id true cached_state
    = (inr (consultation_result working_attempt scenario_text), st')
    /\ cache st' !! py "38139407000177" = Some Unreadable
    /\ In LogWarning (trace st').
Proof.
  eexists. split; [by vm_compute|]. split; [by vm_compute|].
  cbn. auto 12.
Qed.

(** A cache file that cannot be examined: [consultar] raises what
    [exists()] raises, after the lookup and before any attempt. *)
Example inaccessible_cache_file_raises :
  consultar failing_env sample_id true locked_state
  = (inl permission_denied,
     mkState (cache locked_state) [CacheLookup (py "38139407000177")]).
Proof. by vm_compute. Qed.

End CoordinatorMore.

(** ** The session of one attempt and the normalised identifier *)

Section CoordinatorSession.
Import Extractor View Coordinator.

(** X6: [_perform_consultation] releases the session exactly once, as its
    last action, however its body ends; the events before it are an initial
    part of those of a complete body.  An exception of [_cleanup] replaces
    the result or the exception of the body; otherwise the call raises the
    exception of the first call that raised, or returns the record read
    from the page.  The cache is not touched. *)
Theorem perform_consultation_always_cleans_up (a : attempt_env)
    (cnpj : pystr) (st : state) :
  exists r evs,
    _perform_consultation a cnpj st
    = (r, mkState (cache st) (trace st ++ evs ++ [Cleanup]))
    /\ count_cleanups evs = 0%nat
    /\ (exists rest, evs ++ rest = body_events cnpj)
    /\ r = match a_cleanup a, body_failure a, a_inner_text a with
           | Some e, _, _ => inl e
           | None, Some e, _ => inl e
           | None, None, inl e => inl e
           | None, None, inr text => inr (consultation_result a text)
           end.
Proof.
  destruct a as [s g c q t u k cl].
  unfold _perform_consultation, try_finally, call, body_failure.
  cbn [a_setup a_goto a_captcha a_submit a_inner_text a_url a_clock
       a_cleanup].
  destruct s, g, c, q, t as [err|text], cl;
    cbn [mbind emit lift mret raise ret trace cache];
    rewrite ?extract_from_text_view;
    cbn [mbind emit lift mret raise ret trace cache];
    rewrite ?metadados_view;
    cbn [mbind emit lift mret raise ret trace cache setitem];
    rewrite <- ?app_assoc;
    (eexists _, _; split;
     [ match goal with
       | |- (_, mkState _ (_ ++ ?l)) = _ =>
           change l with (removelast l ++ [Cleanup]); reflexivity
       end
     | split; [reflexivity|]; split; [|reflexivity];
       cbn [removelast]; eexists; reflexivity ]).
Qed.

Lemma filter_is_subsequence (p : N -> bool) (s : pystr) :
  is_subsequence (List.filter p s) s = true.
Proof.
  induction s as [|c s IH]; [done|]. cbn [List.filter].
  destruct (p c) eqn:Hc.
  - cbn [is_subsequence]. by rewrite N.eqb_refl.
  - destruct (List.filter p s) as [|d f] eqn:Hf; [done|].
    cbn [is_subsequence]. destruct (d =? c)%N eqn:Hd; [|exact IH].
    apply N.eqb_eq in Hd. subst d.
    assert (In c (List.filter p s)) as Hin by (rewrite Hf; by left).
    apply List.filter_In in Hin as [_ Hp]. congruence.
Qed.

Lemma filter_all (p : N -> bool) (s : pystr) :
  forallb p s = true -> List.filter p s = s.
Proof.
  induction s as [|c s IH]; [done|]. cbn. intros H.
  apply andb_prop in H as [-> H]. by rewrite IH.
Qed.

Lemma forallb_filter (p : N -> bool) (s : pystr) :
  forallb p (List.filter p s) = true.
Proof.
  induction s as [|c s IH]; [done|]. cbn [List.filter].
  destruct (p c) eqn:Hc; [|exact IH]. cbn. by rewrite Hc.
Qed.

(** X7: what [_clean_cnpj] returns is a normal form: fourteen characters,
    each matched by [\d], taken from the argument in their order, and
    [_clean_cnpj] returns it unchanged when applied to it again.  Two
    arguments with the same digits in the same order get the same result,
    so they share one cache file. *)
Theorem clean_cnpj_normal_form (cnpj clean : pystr) :
  _clean_cnpj cnpj = inr clean ->
  length clean = 14%nat
  /\ forallb re_digit clean = true
  /\ is_subsequence clean cnpj = true
  /\ _clean_cnpj clean = inr clean
  /\ (forall other,
        strip_non_digits other = strip_non_digits cnpj ->
        _clean_cnpj other = inr clean).
Proof.
  unfold _clean_cnpj. intros H.
  destruct (length (strip_non_digits cnpj) =? 14)%nat eqn:Hlen;
    cbn [negb] in H; [|discriminate].
  inversion H; subst clean. clear H.
  assert (strip_non_digits (strip_non_digits cnpj) = strip_non_digits cnpj)
    as Hidem by apply filter_all, forallb_filter.
  repeat split.
  - by apply Nat.eqb_eq.
  - apply forallb_filter.
  - apply filter_is_subsequence.
  - by rewrite Hidem, Hlen.
  - intros other ->. by rewrite Hlen.
Qed.

Lemma clean_cnpj_normal_form_witness :
  length (py "38139407000177") = 14%nat
  /\ forallb re_digit (py "38139407000177") = true
  /\ is_subsequence (py "38139407000177") sample_id = true
  /\ _clean_cnpj (py "38139407000177") = inr (py "38139407000177")
  /\ (forall other,
        strip_non_digits other = strip_non_digits sample_id ->
        _clean_cnpj other = inr (py "38139407000177")).
Proof.
  apply (clean_cnpj_normal_form sample_id (py "38139407000177")).
  by vm_compute.
Defined.

End CoordinatorSession.

(** ** The challenge solvers *)

Section SolverMore.
Import Captcha Solver.

Lemma submit_captcha_returns (r : reply) :
  exists v, _submit_captcha r = inr v.
Proof. unfold _submit_captcha. destruct (submit_try r); by eexists. Qed.

Lemma wait_solution_enough (svc : service) (timeout : Z) (fuel : nat) :
  (enough_fuel timeout <= fuel)%nat ->
  _wait_solution fuel svc timeout
  = _wait_solution (enough_fuel timeout) svc timeout.
Proof.
  intros Hf. unfold _wait_solution, enough_fuel in *.
  destruct (wait_loop_run svc timeout fuel 0 0 []) as (r1 & t1 & H1 & R1);
    [lia|].
  destruct (wait_loop_run svc timeout (S (Z.to_nat timeout)) 0 0 [])
    as (r2 & t2 & H2 & R2); [lia|].
  destruct (run_functional _ _ _ _ _ _ _ _ R1 R2) as [-> ->].
  by rewrite H1, H2.
Qed.

Lemma wait_solution_returns (svc : service) (timeout : Z) :
  exists token polls,
    _wait_solution (enough_fuel timeout) svc timeout = Some (token, polls).
Proof.
  unfold _wait_solution, enough_fuel.
  destruct (wait_loop_run svc timeout (S (Z.to_nat timeout)) 0 0 [])
    as (r & t & H & _); [lia|].
  by exists r, t.
Qed.

Lemma submissions_app (a b : list event) :
  submissions (a ++ b) = (submissions a + submissions b)%nat.
Proof. unfold submissions. by rewrite List.filter_app, length_app. Qed.

(** One attempt of [solve_hcaptcha]. *)
Lemma solver_attempt_cases (sv : solver_env) (k : nat) :
  exists o evs,
    (forall fuel, (enough_fuel (timeout sv) <= fuel)%nat ->
       attempt_try fuel sv k = Some (inr o, evs))
    /\ submissions evs = 1%nat
    /\ existsb is_pause evs = false
    /\ (forall token, delivers sv k token <-> o = ReturnToken token)
    /\ (forall token, o = ReturnToken token -> truthy token = true).
Proof.
  unfold attempt_try, delivers.
  destruct (submit_captcha_returns (submit_reply sv k)) as (id & Hid).
  rewrite Hid. destruct (truthy id) eqn:Ht; cbn [negb].
  - destruct (wait_solution_returns (service_of sv k) (timeout sv))
      as (token & polls & Hw).
    exists (if truthy token then ReturnToken token else NextAttempt).
    exists [Submit k; Wait k polls].
    split; [|split; [done|split; [done|split]]].
    + intros fuel Hf. by rewrite wait_solution_enough, Hw.
    + intros t. split.
      * intros (id' & polls' & Hid' & _ & Hw' & Ht').
        rewrite Hw in Hw'. inversion Hw'; subst. by rewrite Ht'.
      * destruct (truthy token) eqn:Htok; [|done].
        intros [= <-]. by exists id, polls.
    + intros t. destruct (truthy token) eqn:Htok; [|done].
      by intros [= <-].
  - exists NextAttempt, [Submit k].
    split; [done|]. split; [done|]. split; [done|]. split; [|done].
    intros t. split; [|done].
    intros (id' & polls' & Hid' & Ht' & _). congruence.
Qed.

Lemma delivers_functional (sv : solver_env) (k : nat) (t1 t2 : pyval) :
  delivers sv k t1 -> delivers sv k t2 -> t1 = t2.
Proof.
  intros (id1 & p1 & _ & _ & Hw1 & _) (id2 & p2 & _ & _ & Hw2 & _).
  congruence.
Qed.

(** The loop of [solve_hcaptcha] over the attempts of [todo]: it ends at
    the first attempt that delivers a token, or runs through all of them. *)
Lemma solve_loop_run (sv : solver_env) (todo : list nat) :
  exists result tr,
    (forall fuel, (enough_fuel (timeout sv) <= fuel)%nat ->
       solve_loop fuel sv 3 todo = Some (result, tr))
    /\ existsb is_pause tr = false
    /\ ((result = VNone /\ submissions tr = length todo
         /\ forall k t, In k todo -> ~ delivers sv k t)
        \/ (truthy result = true
            /\ exists pre k post,
                 todo = pre ++ k :: post
                 /\ delivers sv k result
                 /\ (forall j t, In j pre -> ~ delivers sv j t)
                 /\ submissions tr = S (length pre))).
Proof.
  induction todo as [|a todo IH].
  - exists VNone, []. split; [done|]. split; [done|]. left. by repeat split.
  - destruct (solver_attempt_cases sv a) as (o & evs & Ho & Hs & Hp & Hd & Ht).
    destruct o as [|token].
    + destruct IH as (result & tr & Hrun & Hpause & Hend).
      exists result, (evs ++ tr). split.
      { intros fuel Hf. cbn [solve_loop].
        by rewrite (Ho fuel Hf), (Hrun fuel Hf). }
      split; [by rewrite existsb_app, Hp, Hpause|].
      rewrite submissions_app, Hs.
      destruct Hend as [(-> & Hn & Hnone)
                       |(Htr & pre & k & post & -> & Hk & Hpre & Hn)].
      * left. split; [done|]. split; [cbn; lia|].
        intros k t [<-|Hin]; [|by apply Hnone].
        intros Hdel. apply Hd in Hdel. discriminate.
      * right. split; [done|]. exists (a :: pre), k, post.
        split; [done|]. split; [done|]. split; [|cbn; lia].
        intros j t [<-|Hin]; [|by apply Hpre].
        intros Hdel. apply Hd in Hdel. discriminate.
    + exists token, evs. split.
      { intros fuel Hf. cbn [solve_loop]. by rewrite (Ho fuel Hf). }
      split; [done|]. right. split; [by apply Ht|].
      exists [], a, todo. split; [done|]. split; [by apply Hd|].
      split; [intros j t []|]. by rewrite Hs.
Qed.

Lemma seq_split_at (a n : nat) (pre : list nat) (k : nat) (post : list nat) :
  seq a n = pre ++ k :: post ->
  k = (a + length pre)%nat /\ (k < a + n)%nat
  /\ forall j, (a <= j < k)%nat -> In j pre.
Proof.
  revert a pre. induction n as [|n IH]; intros a pre H.
  - destruct pre; discriminate.
  - cbn [seq] in H. destruct pre as [|x pre].
    + inversion H; subst. cbn. split; [lia|]. split; [lia|]. intros j Hj. lia.
    + inversion H; subst. destruct (IH (S x) pre H2) as (-> & Hlt & Hin).
      cbn [length]. split; [lia|]. split; [lia|].
      intros j Hj. destruct (decide (j = x)) as [->|Hne]; [by left|].
      right. apply Hin. lia.
Qed.

(** What [_solve_captcha] needs of [solve_hcaptcha]. *)
Lemma solve_hcaptcha_summary (sv : solver_env) :
  exists result tr,
    (forall fuel, (enough_fuel (timeout sv) <= fuel)%nat ->
       solve_hcaptcha fuel sv = Some (result, tr))
    /\ (submissions tr <= 3)%nat
    /\ (truthy result = true ->
        exists k, (k < 3)%nat /\ delivers sv k result).
Proof.
  destruct (solve_loop_run sv (seq 0 3)) as (result & tr & Hrun & _ & Hend).
  exists result, tr. split; [exact Hrun|].
  destruct Hend as [(-> & Hn & _)|(Ht & pre & k & post & Hsplit & Hk & _ & Hn)].
  - split; [rewrite Hn; cbn; lia|]. done.
  - destruct (seq_split_at _ _ _ _ _ Hsplit) as (Hk' & Hlt & _).
    split; [lia|]. intros _. exists k. split; [lia|done].
Qed.

(** X8: [solve_hcaptcha] of [cnpj_consultor_v2.py] returns for every
    service, after at most three submissions.  Its [except] branch never
    runs, because [_submit_captcha] and [_wait_solution] catch every
    exception themselves: no warning is logged and the attempts follow one
    another without the pause of five seconds.  The result is the token of
    the first attempt that delivers one, and [None] when none of the three
    does; a token that [if token] rejects is never returned, and a returned
    token is the one some attempt delivered. *)
Theorem solve_hcaptcha_first_delivery (sv : solver_env) :
  exists result tr,
    (forall fuel, (enough_fuel (timeout sv) <= fuel)%nat ->
       solve_hcaptcha fuel sv = Some (result, tr))
    /\ (1 <= submissions tr <= 3)%nat
    /\ existsb is_pause tr = false
    /\ (result = VNone \/ truthy result = true)
    /\ (forall k token,
          (k < 3)%nat -> delivers sv k token ->
          (forall j t, (j < k)%nat -> ~ delivers sv j t) ->
          result = token /\ submissions tr = S k)
    /\ ((forall k t, (k < 3)%nat -> ~ delivers sv k t) ->
        result = VNone /\ submissions tr = 3%nat)
    /\ (truthy result = true ->
        exists k, (k < 3)%nat /\ delivers sv k result).
Proof.
  destruct (solve_loop_run sv (seq 0 3)) as (result & tr & Hrun & Hp & Hend).
  exists result, tr. split; [exact Hrun|].
  destruct Hend as [(-> & Hn & Hnone)
                   |(Ht & pre & k' & post & Hsplit & Hk' & Hpre & Hn)].
  - split; [rewrite Hn; cbn; lia|]. split; [exact Hp|]. split; [by left|].
    split; [|split; [|done]].
    + intros k token Hk Hdel _. destruct (Hnone k token); [|done].
      apply in_seq. lia.
    + intros _. by rewrite Hn.
  - destruct (seq_split_at _ _ _ _ _ Hsplit) as (Hlen & Hlt & Hin).
    split; [lia|]. split; [exact Hp|]. split; [by right|].
    split; [|split].
    + intros k token Hk Hdel Hfirst.
      destruct (lt_eq_lt_dec k k') as [[Hlt'| ->]|Hgt].
      * destruct (Hpre k token); [apply Hin; lia|done].
      * split; [by apply (delivers_functional sv k')|lia].
      * destruct (Hfirst k' result Hgt Hk').
    + intros Hnone. destruct (Hnone k' result); [lia|done].
    + intros _. exists k'. split; [lia|done].
Qed.

Lemma solve_hcaptcha_first_delivery_witness :
  exists tr,
    solve_hcaptcha (enough_fuel 300) second_try_env
    = Some (VStr (py "P1_token"), tr)
    /\ submissions tr = 2%nat.
Proof.
  destruct (solve_hcaptcha_first_delivery second_try_env)
    as (result & tr & Hrun & _ & _ & _ & Hfirst & _ & _).
  destruct (Hfirst 1%nat (VStr (py "P1_token"))) as [-> Hn].
  - lia.
  - exists (VStr (py "7001")), [Poll 0; Sleep 3; Poll 1; Sleep 3; Poll 2].
    repeat split; by vm_compute.
  - intros j t Hj (id & polls & Hid & Ht & _).
    assert (j = 0%nat) as -> by lia.
    vm_compute in Hid. inversion Hid; subst id. discriminate.
  - exists tr. split; [|exact Hn]. apply Hrun. cbn [second_try_env timeout].
    lia.
Defined.

(** What one request of [_wait_for_result] leads to: the token of a
    solution is returned, and every other reply is followed by a sleep of
    five seconds. *)
Lemma legacy_poll_action (r : reply) :
  LegacyCaptcha.poll_action r
  = match LegacySolver.solution_of r with
    | Some token => Return (VDict [(py "token", token)])
    | None => SleepAndContinue 5
    end.
Proof.
  unfold LegacyCaptcha.poll_action, LegacyCaptcha.poll_try,
    LegacySolver.solution_of.
  destruct r as [e|v]; [done|]. destruct v as [| | | | |d]; try done.
  unfold pyget, getitem, bind, ret, raise.
  destruct (assoc (py "status") d) as [status|].
  - destruct (eq_one status).
    + by destruct (assoc (py "request") d).
    + destruct (assoc (py "request") d) as [request|]; [|done].
      by destruct (eq_str request (py "CAPCHA_NOT_READY")).
  - cbn [eq_one].
    destruct (assoc (py "request") d) as [request|]; [|done].
    by destruct (eq_str request (py "CAPCHA_NOT_READY")).
Qed.

Lemma rounds_from_S (k n : nat) :
  LegacySolver.rounds_from k (S n)
  = [Poll k; Sleep 5] ++ LegacySolver.rounds_from (S k) n.
Proof. reflexivity. Qed.

Lemma rounds_from_snoc (k n : nat) :
  LegacySolver.rounds_from k (S n)
  = LegacySolver.rounds_from k n ++ [Poll (k + n); Sleep 5].
Proof.
  unfold LegacySolver.rounds_from. rewrite seq_S, flat_map_app. cbn.
  reflexivity.
Qed.

Lemma slept_app (a b : list Captcha.event) :
  LegacySolver.slept (a ++ b)
  = (LegacySolver.slept a + LegacySolver.slept b)%Z.
Proof.
  unfold LegacySolver.slept.
  induction a as [|ev a IH]; [done|]. cbn [app fold_right].
  destruct ev; rewrite IH; lia.
Qed.

Lemma polls_app (a b : list Captcha.event) :
  LegacySolver.polls (a ++ b)
  = (LegacySolver.polls a + LegacySolver.polls b)%nat.
Proof. unfold LegacySolver.polls. by rewrite List.filter_app, length_app. Qed.

Lemma slept_rounds_from (k n : nat) :
  LegacySolver.slept (LegacySolver.rounds_from k n) = (5 * Z.of_nat n)%Z.
Proof.
  revert k. induction n as [|n IH]; intros k; [done|].
  rewrite rounds_from_S, slept_app, IH. cbn. lia.
Qed.

Lemma polls_rounds_from (k n : nat) :
  LegacySolver.polls (LegacySolver.rounds_from k n) = n.
Proof.
  revert k. induction n as [|n IH]; intros k; [done|].
  rewrite rounds_from_S, polls_app, IH. reflexivity.
Qed.

(** The loop of [_wait_for_result] from the [k]-th request on. *)
Lemma legacy_wait_loop_rounds (reply_of : nat -> reply) (todo k : nat)
    (tr0 : list Captcha.event) :
  exists m result tr,
    LegacyCaptcha.wait_loop todo reply_of k tr0 = (result, tr0 ++ tr)
    /\ (m <= todo)%nat
    /\ (forall j, (j < m)%nat ->
          LegacySolver.solution_of (reply_of (k + j)%nat) = None)
    /\ ((m < todo)%nat
         /\ (exists token,
               LegacySolver.solution_of (reply_of (k + m)%nat) = Some token
               /\ result = VDict [(py "token", token)])
         /\ tr = LegacySolver.rounds_from k m ++ [Poll (k + m)]
        \/ m = todo /\ result = VNone
           /\ tr = LegacySolver.rounds_from k todo).
Proof.
  revert k tr0. induction todo as [|todo IH]; intros k tr0.
  - exists 0%nat, VNone, []. cbn [LegacyCaptcha.wait_loop].
    rewrite app_nil_r. split; [done|]. split; [done|].
    split; [intros j Hj; lia|]. by right.
  - cbn [LegacyCaptcha.wait_loop]. rewrite legacy_poll_action.
    destruct (LegacySolver.solution_of (reply_of k)) as [token|] eqn:Hsol.
    + exists 0%nat, (VDict [(py "token", token)]), [Poll k].
      split; [done|]. split; [lia|]. split; [intros j Hj; lia|].
      left. rewrite Nat.add_0_r. split; [lia|]. split; [|done].
      by exists token.
    + destruct (IH (S k) (tr0 ++ [Poll k; Sleep 5]))
        as (m & result & tr & Hrun & Hm & Hnone & Hend).
      exists (S m), result, ([Poll k; Sleep 5] ++ tr).
      split; [by rewrite Hrun, <- app_assoc|]. split; [lia|].
      split.
      { intros j Hj. destruct j as [|j]; [by rewrite Nat.add_0_r|].
        replace (k + S j)%nat with (S k + j)%nat by lia.
        apply Hnone. lia. }
      replace (k + S m)%nat with (S k + m)%nat by lia.
      destruct Hend as [(Hlt & Htok & ->)|(-> & -> & ->)].
      * left. split; [lia|]. split; [exact Htok|].
        by rewrite rounds_from_S, <- app_assoc.
      * right. by rewrite rounds_from_S.
Qed.

(** X9: [_wait_for_result] of [main.py] asks until the first reply that
    carries a solution and returns its token wrapped in an object; every
    other reply, an explicit error status as much as [CAPCHA_NOT_READY], an
    undecodable body or a failed request, is followed by a sleep of five
    seconds and the next request, the last one included.  So a call that
    returns [None] has made [max_attempts] requests and slept
    [5 * max_attempts] seconds. *)
Theorem legacy_wait_for_result_rounds (reply_of : nat -> reply)
    (max_attempts : nat) :
  exists k result tr,
    LegacyCaptcha._wait_for_result reply_of max_attempts = (result, tr)
    /\ (k <= max_attempts)%nat
    /\ (forall j, (j < k)%nat ->
          LegacySolver.solution_of (reply_of j) = None)
    /\ LegacySolver.slept tr = (5 * Z.of_nat k)%Z
    /\ ((k < max_attempts)%nat
         /\ (exists token,
               LegacySolver.solution_of (reply_of k) = Some token
               /\ result = VDict [(py "token", token)])
         /\ tr = LegacySolver.rounds k ++ [Poll k]
        \/ k = max_attempts /\ result = VNone
           /\ tr = LegacySolver.rounds max_attempts).
Proof.
  destruct (legacy_wait_loop_rounds reply_of max_attempts 0 [])
    as (k & result & tr & Hrun & Hk & Hnone & Hend).
  exists k, result, tr. split; [exact Hrun|]. split; [exact Hk|].
  split; [exact Hnone|]. split.
  - destruct Hend as [(_ & _ & ->)|(-> & _ & ->)].
    + rewrite slept_app, slept_rounds_from. cbn. lia.
    + apply slept_rounds_from.
  - exact Hend.
Qed.

(** X10: [solve_hcaptcha] of [main.py] never raises.  Unless the reply to
    the submission carries status 1 and a [request] entry it returns [None]
    without a single request for the result; otherwise it returns what
    [_wait_for_result] returns within its sixty requests, whatever the
    identifier is.  The result is [None] or an object with the one key
    [token], and the call sleeps 300 seconds at most. *)
Theorem legacy_solve_hcaptcha_bounded (submit : reply)
    (reply_of : nat -> reply) :
  exists result tr,
    LegacySolver.solve_hcaptcha submit reply_of = inr (result, tr)
    /\ (LegacySolver.solution_of submit = None -> result = VNone /\ tr = [])
    /\ (forall captcha_id,
          LegacySolver.solution_of submit = Some captcha_id ->
          (result, tr) = LegacyCaptcha._wait_for_result reply_of 60)
    /\ (result = VNone \/ exists token, result = VDict [(py "token", token)])
    /\ (LegacySolver.polls tr <= 60)%nat
    /\ (LegacySolver.slept tr <= 300)%Z.
Proof.
  destruct (legacy_wait_loop_rounds reply_of 60 0 [])
    as (k & result & tr & Hrun & Hk & _ & Hend).
  change (LegacyCaptcha.wait_loop 60 reply_of 0 [])
    with (LegacyCaptcha._wait_for_result reply_of 60) in Hrun.
  cbn [app] in Hrun.
  assert ((result = VNone \/ exists token, result = VDict [(py "token", token)])
          /\ (LegacySolver.polls tr <= 60)%nat
          /\ (LegacySolver.slept tr <= 300)%Z) as Hbound.
  { destruct Hend as [(Hlt & (token & _ & ->) & ->)|(-> & -> & ->)].
    - split; [right; by exists token|].
      rewrite polls_app, slept_app, polls_rounds_from, slept_rounds_from.
      cbn. lia.
    - split; [by left|].
      rewrite polls_rounds_from, slept_rounds_from. lia. }
  assert ((VNone = VNone
           \/ exists token, VNone = VDict [(py "token", token)])
          /\ (LegacySolver.polls [] <= 60)%nat
          /\ (LegacySolver.slept [] <= 300)%Z) as Hnil.
  { split; [by left|]. cbn. lia. }
  unfold LegacySolver.solve_hcaptcha, LegacySolver.solve_try,
    LegacySolver.solution_of.
  destruct submit as [e|v].
  { exists VNone, []. split; [done|]. split; [done|]. split; [done|].
    exact Hnil. }
  destruct v as [| | | | |d];
    try (exists VNone, []; split; [done|]; split; [done|]; split; [done|];
         exact Hnil).
  unfold pyget, getitem, bind, ret, raise.
  destruct (assoc (py "status") d) as [status|];
    [destruct (eq_one status)|];
    destruct (assoc (py "request") d) as [request|];
    cbv beta iota; cbn [eq_one negb];
    try (exists VNone, []; split; [done|]; split; [done|]; split; [done|];
         exact Hnil).
  exists result, tr. rewrite Hrun.
  split; [done|]. split; [done|]. split; [done|]. exact Hbound.
Qed.

End SolverMore.

(** ** The browser session *)

Section SessionMore.
Import Session.

Lemma calls_of_app (a b : list event) :
  calls_of (a ++ b) = calls_of a ++ calls_of b.
Proof. unfold calls_of. apply flat_map_app. Qed.

(** X11: when neither [browser.close()] nor [playwright.stop()] raises,
    [_cleanup] returns with no browser and no driver held; it closes the
    browser if one is held, then stops the driver if one is held, and
    calls nothing else.  [self.page] is left as it was, and a second
    [_cleanup] calls nothing. *)
Theorem cleanup_releases (w : world) (st : state) :
  (forall b, browser st = Some b -> raises w Close b = None) ->
  (forall p, playwright st = Some p -> raises w Stop p = None) ->
  exists st',
    _cleanup w st = (inr tt, st')
    /\ released st'
    /\ page st' = page st
    /\ calls_of (trace st')
       = calls_of (trace st)
         ++ match browser st with Some b => [(Close, b)] | None => [] end
         ++ match playwright st with Some p => [(Stop, p)] | None => [] end
    /\ _cleanup w st' = (inr tt, st').
Proof.
  destruct st as [pw br pg n tr]. cbn [browser playwright].
  intros Hc Hs. unfold _cleanup, mbind, driver, perform, set_browser,
    set_playwright, log, released.
  cbn [browser playwright page started trace].
  destruct br as [b|], pw as [p|];
    rewrite ?(Hc _ eq_refl), ?(Hs _ eq_refl);
    cbn [browser playwright page started trace];
    rewrite ?(Hs _ eq_refl);
    eexists; (split; [reflexivity|]);
    cbn [browser playwright page started trace];
    rewrite ?calls_of_app, <- ?app_assoc, ?app_nil_r; done.
Qed.

Lemma cleanup_releases_witness :
  exists st',
    _cleanup quiet_world (mkState (Some 0%nat) (Some 0%nat) (Some 0%nat) 1 [])
    = (inr tt, st')
    /\ released st'
    /\ page st' = Some 0%nat
    /\ calls_of (trace st') = [(Close, 0%nat); (Stop, 0%nat)]
    /\ _cleanup quiet_world st' = (inr tt, st').
Proof.
  apply (cleanup_releases quiet_world
           (mkState (Some 0%nat) (Some 0%nat) (Some 0%nat) 1 [])); done.
Defined.

(** X12: when [browser.close()] raises, [_cleanup] raises that exception
    with [self.browser] and [self.playwright] still set and without
    stopping the driver.  The next [_setup_browser] then finds
    [self.playwright] set and does nothing: it starts no driver, launches
    no browser and leaves [self.page], the page of the browser whose
    closing failed, in place. *)
Theorem failed_close_keeps_session (w : world) (st : state) (b p : nat)
    (e : exn) :
  browser st = Some b ->
  playwright st = Some p ->
  raises w Close b = Some e ->
  exists st',
    _cleanup w st = (inl e, st')
    /\ playwright st' = Some p
    /\ browser st' = Some b
    /\ page st' = page st
    /\ calls_of (trace st') = calls_of (trace st) ++ [(Close, b)]
    /\ _setup_browser w st' = (inr tt, st').
Proof.
  destruct st as [pw br pg n tr]. cbn [browser playwright].
  intros -> -> He. unfold _cleanup, mbind, driver, perform, log.
  cbn [browser playwright page started trace]. rewrite He.
  eexists. split; [reflexivity|].
  cbn [browser playwright page started trace].
  by rewrite calls_of_app.
Qed.

Lemma failed_close_keeps_session_witness :
  exists st',
    _cleanup stuck_world (mkState (Some 0%nat) (Some 0%nat) (Some 0%nat) 1 [])
    = (inl navigation_timeout, st')
    /\ playwright st' = Some 0%nat
    /\ browser st' = Some 0%nat
    /\ page st' = Some 0%nat
    /\ calls_of (trace st') = [(Close, 0%nat)]
    /\ _setup_browser stuck_world st' = (inr tt, st').
Proof.
  apply (failed_close_keeps_session stuck_world
           (mkState (Some 0%nat) (Some 0%nat) (Some 0%nat) 1 [])
           0%nat 0%nat navigation_timeout); reflexivity.
Defined.

(** X13: from a session that holds nothing, [_setup_browser] followed by
    a [_cleanup] whose calls do not raise ends with a session that holds
    nothing, at whichever call [_setup_browser] raised: the driver is
    stopped exactly when it was started, the browser is closed exactly
    when it was launched, and every call is made on the handles of this
    one start.  [_setup_browser] returns exactly when none of its five
    calls raises, and then [self.page] is the new page. *)
Theorem setup_then_cleanup_balanced (w : world) (st : state) :
  released st ->
  raises w Close (started st) = None ->
  raises w Stop (started st) = None ->
  exists r st1 st2 new,
    _setup_browser w st = (r, st1)
    /\ _cleanup w st1 = (inr tt, st2)
    /\ released st2
    /\ calls_of (trace st2) = calls_of (trace st) ++ new
    /\ (forall c h, In (c, h) new -> h = started st)
    /\ (In (Stop, started st) new <-> raises w Start (started st) = None)
    /\ (In (Close, started st) new
        <-> raises w Start (started st) = None
            /\ raises w Launch (started st) = None)
    /\ (r = inr tt
        <-> forall c, In c [Start; Launch; NewContext; NewPage; Route] ->
              raises w c (started st) = None)
    /\ (r = inr tt -> page st1 = Some (started st)).
Proof.
  destruct st as [pw br pg n tr]. unfold released.
  cbn [browser playwright started trace].
  intros [-> ->] Hc Hs.
  unfold _setup_browser, _cleanup, start, mbind, driver, perform,
    set_browser, set_playwright, set_page, log.
  cbn [browser playwright page started trace].
  destruct (raises w Start n) as [e1|] eqn:H1;
    [|destruct (raises w Launch n) as [e2|] eqn:H2;
      [|destruct (raises w NewContext n) as [e3|] eqn:H3;
        [|destruct (raises w NewPage n) as [e4|] eqn:H4;
          [|destruct (raises w Route n) as [e5|] eqn:H5]]]];
    cbn [browser playwright page started trace];
    (eexists _, _, _, _; split; [reflexivity|]);
    cbn [browser playwright page started trace];
    rewrite ?Hc; cbn [browser playwright page started trace];
    rewrite ?Hs; cbn [browser playwright page started trace];
    (split; [reflexivity|]);
    cbn [browser playwright page started trace];
    (split; [done|]);
    (split; [rewrite !calls_of_app, <- ?app_assoc;
             cbn [calls_of flat_map app]; reflexivity|]).
  all: cbn [In].
  all: split; [intros c h Hin; intuition congruence|].
  all: split; [split; [intros Hin; intuition congruence
                      |intros Hn; try done; intuition]|].
  all: split; [split; [intros Hin; intuition congruence
                      |intros [Hn Hn']; try done; intuition]|].
  all: split; [|intros Hr; try done].
  all: split; [intros Hr; try done|].
  all: try (intros H; pose proof (H Start); pose proof (H Launch);
            pose proof (H NewContext); pose proof (H NewPage);
            pose proof (H Route); intuition congruence).
  intros c Hin. intuition (subst; assumption).
Qed.

Lemma setup_then_cleanup_balanced_witness :
  exists r st1 st2 new,
    _setup_browser quiet_world (mkState None None None 0 []) = (r, st1)
    /\ _cleanup quiet_world st1 = (inr tt, st2)
    /\ released st2
    /\ calls_of (trace st2) = [] ++ new
    /\ (forall c h, In (c, h) new -> h = 0%nat)
    /\ (In (Stop, 0%nat) new <-> raises quiet_world Start 0 = None)
    /\ (In (Close, 0%nat) new
        <-> raises quiet_world Start 0 = None
            /\ raises quiet_world Launch 0 = None)
    /\ (r = inr tt
        <-> forall c, In c [Start; Launch; NewContext; NewPage; Route] ->
              raises quiet_world c 0 = None)
    /\ (r = inr tt -> page st1 = Some 0%nat).
Proof.
  apply (setup_then_cleanup_balanced quiet_world
           (mkState None None None 0 [])); done.
Defined.

Lemma submissions_of_app (a b : list event) :
  submissions_of (a ++ b) = (submissions_of a + submissions_of b)%nat.
Proof.
  unfold submissions_of. by rewrite map_app, list_sum_app.
Qed.

Lemma log_trace (ev : event) (st : state) :
  log ev st
  = mkState (playwright st) (browser st) (page st) (started st)
            (trace st ++ [ev]).
Proof. reflexivity. Qed.

(** [_save_debug_info] returns, changes no attribute, calls only for the
    screenshot, the content and the file, and with a page it asks for the
    screenshot. *)
Lemma save_debug_info_run (w : world) (error_type : pystr) (st : state) :
  exists new,
    _save_debug_info w error_type st
    = (inr tt,
       mkState (playwright st) (browser st) (page st) (started st)
               (trace st ++ new))
    /\ forallb is_debug_event new = true
    /\ (page st <> None -> In (Screenshot error_type) new).
Proof.
  destruct st as [pw br pg n tr].
  unfold _save_debug_info, mbind, perform, log.
  cbn [playwright browser page started trace].
  destruct pg as [h|].
  - destruct (screenshot w), (content w), (write_text w);
      cbn [playwright browser page started trace];
      rewrite <- ?app_assoc; cbn [app];
      (eexists; split; [reflexivity|]; split; [reflexivity|];
       intros _; cbn; auto).
  - exists []. rewrite app_nil_r. by split.
Qed.

(** The [except] of [_solve_captcha] on an exception [e] of the body. *)
Lemma solve_captcha_except (w : world) (e : exn) (st : state)
    (body : list event) :
  exists debug,
    (let! _ := _save_debug_info w (py "captcha_error") in
     fun st'' => (inl e, st''))
      (mkState (playwright st) (browser st) (page st) (started st)
               (trace st ++ body))
    = (@inl exn unit e,
       mkState (playwright st) (browser st) (page st) (started st)
               (trace st ++ body ++ debug))
    /\ forallb is_debug_event debug = true
    /\ (page st <> None -> In (Screenshot (py "captcha_error")) debug).
Proof.
  destruct (save_debug_info_run w (py "captcha_error")
              (mkState (playwright st) (browser st) (page st) (started st)
                       (trace st ++ body)))
    as (debug & Hrun & Hd & Hs).
  exists debug. unfold mbind. rewrite Hrun.
  cbn [playwright browser page started trace].
  by rewrite <- app_assoc.
Qed.

Lemma debug_no_submissions (l : list event) :
  forallb is_debug_event l = true -> submissions_of l = 0%nat.
Proof.
  induction l as [|ev l IH]; [done|]. cbn [forallb]. intros H.
  apply andb_prop in H as [Hev Hl].
  change (submissions_of (ev :: l))
    with ((match ev with Solve t => Solver.submissions t | _ => 0 end
           + submissions_of l)%nat).
  rewrite (IH Hl). by destruct ev.
Qed.

Lemma evaluate_step (token : pyval) (outcome : option exn) (st : state) :
  (let! _ := perform (Evaluate token) outcome in perform (Sleep 2) None) st
  = match outcome with
    | Some e => (inl e, log (Evaluate token) st)
    | None => (inr tt, log (Sleep 2) (log (Evaluate token) st))
    end.
Proof. unfold mbind, perform. by destruct outcome. Qed.

(** X14: [_solve_captcha] returns or raises for every session, every page
    and every service, changes none of the attributes of the session, and
    submits to the solving service at most three times.  Without a page
    it raises the [AttributeError] of the lookup on [None] and calls
    nothing.  With a page, it returns when the page has no challenge
    element, or when the solver delivered a token and the token was
    written into the page, followed by a sleep of two seconds; and when
    the page has the element and none of the three attempts of the solver
    delivers a token it raises [Exception("Falha ao resolver captcha")].
    Whenever it raises with a page, the debug information was asked for
    first; when it returns, none was. *)
Theorem solve_captcha_outcomes (w : world) (st : state) :
  exists r new,
    (forall fuel,
       (Captcha.enough_fuel (Solver.timeout (solver w)) <= fuel)%nat ->
       _solve_captcha fuel w st
       = Some (r, mkState (playwright st) (browser st) (page st)
                          (started st) (trace st ++ new)))
    /\ (submissions_of new <= 3)%nat
    /\ (page st = None -> r = inl no_page /\ new = [])
    /\ (page st <> None -> selector w = inr false ->
        r = inr tt /\ new = [WaitSelector])
    /\ (page st <> None -> selector w = inr true ->
        get_attribute w = None ->
        (forall k t, (k < 3)%nat -> ~ Solver.delivers (solver w) k t) ->
        r = inl (Exn OtherException (py "Falha ao resolver captcha")))
    /\ (r = inr tt ->
        page st <> None
        /\ existsb is_debug_event new = false
        /\ (selector w = inr true ->
            exists k token,
              (k < 3)%nat /\ Solver.delivers (solver w) k token
              /\ In (Evaluate token) new
              /\ last new = Some (Sleep 2)))
    /\ (forall e, r = inl e ->
        page st <> None -> In (Screenshot (py "captcha_error")) new).
Proof.
  destruct (solve_hcaptcha_summary (solver w))
    as (token & tr & Hrun & Hsub & Hdel).
  assert (forall body debug,
            (submissions_of body <= 3)%nat ->
            forallb is_debug_event debug = true ->
            (submissions_of (body ++ debug) <= 3)%nat) as Hle.
  { intros body debug Hb Hd.
    rewrite submissions_of_app, (debug_no_submissions _ Hd). lia. }
  destruct st as [pw br [pg|] n tr0].
  2:{ exists (inl no_page), [].
      split.
      { intros fuel Hf.
        unfold _solve_captcha, solve_body, _save_debug_info, mbind.
        cbn [playwright browser page started trace].
        by rewrite app_nil_r. }
      split; [cbn; lia|].
      split; [intros _; split; reflexivity|].
      split; [intros Hp; exfalso; by apply Hp|].
      split; [intros Hp; exfalso; by apply Hp|].
      split; [intros H; discriminate H|].
      intros e0 _ Hp. exfalso. by apply Hp. }
  pose proof (fun e body =>
                solve_captcha_except w e (mkState pw br (Some pg) n tr0) body)
    as Hexcept.
  cbn [playwright browser page started trace] in Hexcept.
  unfold _solve_captcha, solve_body.
  cbn [playwright browser page started trace].
  destruct (selector w) as [e|[|]] eqn:Hsel.
  - destruct (Hexcept e [WaitSelector]) as (debug & Hex & Hd & Hs).
    exists (inl e), ([WaitSelector] ++ debug).
    split.
    { intros fuel Hf. rewrite log_trace.
      cbn [playwright browser page started trace]. by rewrite Hex. }
    split; [apply Hle; [cbn; lia|done]|].
    split; [intros H; discriminate H|]. split; [done|]. split; [done|]. split; [done|].
    intros e0 _ Hp. rewrite in_app_iff. right. by apply Hs.
  - destruct (get_attribute w) as [e|] eqn:Hattr.
    { destruct (Hexcept e [WaitSelector; GetAttribute])
        as (debug & Hex & Hd & Hs).
      exists (inl e), ([WaitSelector; GetAttribute] ++ debug).
      split.
      { intros fuel Hf. rewrite !log_trace.
        cbn [playwright browser page started trace].
        rewrite <- !app_assoc. cbn [app]. by rewrite Hex. }
      split; [apply Hle; [cbn; lia|done]|].
      split; [intros H; discriminate H|]. split; [done|]. split; [done|]. split; [done|].
      intros e0 _ Hp. rewrite in_app_iff. right. by apply Hs. }
    destruct (truthy token) eqn:Htok.
    + destruct (evaluate w) as [e|] eqn:Hev.
      * destruct (Hexcept e
                    [WaitSelector; GetAttribute; Solve tr; Evaluate token])
          as (debug & Hex & Hd & Hs).
        exists (inl e),
          ([WaitSelector; GetAttribute; Solve tr; Evaluate token] ++ debug).
        split.
        { intros fuel Hf. rewrite (Hrun fuel Hf), Htok.
          rewrite evaluate_step, !log_trace.
          cbn [playwright browser page started trace].
          rewrite <- !app_assoc. cbn [app]. by rewrite Hex. }
        split.
        { apply Hle; [|done]. unfold submissions_of.
          cbn [map list_sum fold_right]. lia. }
        split; [intros H; discriminate H|]. split; [done|]. split.
        { intros _ _ _ Hno. destruct (Hdel eq_refl) as (k & Hk & Hdk).
          destruct (Hno k token Hk Hdk). }
        split; [done|].
        intros e0 _ Hp. rewrite in_app_iff. right. by apply Hs.
      * exists (inr tt),
          [WaitSelector; GetAttribute; Solve tr; Evaluate token; Sleep 2].
        split.
        { intros fuel Hf. rewrite (Hrun fuel Hf), Htok.
          rewrite evaluate_step, !log_trace.
          cbn [playwright browser page started trace].
          rewrite <- !app_assoc. reflexivity. }
        split.
        { unfold submissions_of. cbn [map list_sum fold_right]. lia. }
        split; [intros H; discriminate H|]. split; [done|]. split.
        { intros _ _ _ Hno. destruct (Hdel eq_refl) as (k & Hk & Hdk).
          destruct (Hno k token Hk Hdk). }
        split; [|done]. intros _. split; [done|]. split; [done|].
        intros _. destruct (Hdel eq_refl) as (k & Hk & Hdk).
        exists k, token. repeat split; [exact Hk|exact Hdk|cbn; auto].
    + destruct (Hexcept
                  (Exn OtherException (py "Falha ao resolver captcha"))
                  [WaitSelector; GetAttribute; Solve tr])
        as (debug & Hex & Hd & Hs).
      exists (inl (Exn OtherException (py "Falha ao resolver captcha"))),
        ([WaitSelector; GetAttribute; Solve tr] ++ debug).
      split.
      { intros fuel Hf. rewrite (Hrun fuel Hf), Htok, !log_trace.
        cbn [playwright browser page started trace].
        rewrite <- !app_assoc. cbn [app]. by rewrite Hex. }
      split.
      { apply Hle; [|done]. unfold submissions_of.
        cbn [map list_sum fold_right]. lia. }
      split; [intros H; discriminate H|]. split; [done|]. split; [done|]. split; [done|].
      intros e0 _ Hp. rewrite in_app_iff. right. by apply Hs.
  - exists (inr tt), [WaitSelector].
    split; [done|]. split; [cbn; lia|]. split; [intros H; discriminate H|].
    split; [done|]. split; [done|]. split; [|done].
    intros _. split; [done|]. split; [done|]. done.
Qed.

End SessionMore.

(** ** More on the extractor *)

Section ExtractorMore.
Import Extractor View.

Lemma startswith_self_app (p s : pystr) : startswith p (p ++ s) = true.
Proof.
  induction p as [|c p IH]; [done|]. cbn. by rewrite N.eqb_refl, IH.
Qed.

Lemma startswith_decompose (p s : pystr) :
  startswith p s = true -> s = p ++ drop (length p) s.
Proof.
  revert s. induction p as [|c p IH]; intros s H; [done|].
  destruct s as [|d s]; [discriminate|]. cbn in H.
  apply andb_prop in H as [Hc Hp]. apply N.eqb_eq in Hc. subst d.
  cbn. f_equal. by apply IH.
Qed.

Lemma startswith_app_l (p s t : pystr) :
  startswith p s = true -> startswith p (s ++ t) = true.
Proof.
  revert s. induction p as [|c p IH]; intros s H; [done|].
  destruct s as [|d s]; [discriminate|]. cbn in *.
  apply andb_prop in H as [-> Hp]. by rewrite IH.
Qed.

(** [s.split(sep, 1)] cuts at the leftmost occurrence: the parts join back
    to [s] and the first part holds no separator. *)
Lemma partition_first_spec (sp s a b : pystr) :
  sp <> [] ->
  partition_first sp s = Some (a, b) ->
  s = a ++ sp ++ b /\ contains sp a = false.
Proof.
  intros Hsp. revert a b. induction s as [|c s IH]; intros a b H.
  - cbn in H. destruct sp as [|x sp]; [done|]. discriminate.
  - cbn [partition_first] in H.
    destruct (startswith sp (c :: s)) eqn:Hst.
    + inversion H; subst. split.
      * cbn [app]. by apply startswith_decompose.
      * by destruct sp.
    + destruct (partition_first sp s) as [[a' b']|] eqn:Hp; [|discriminate].
      inversion H; subst. destruct (IH a' b eq_refl) as [-> Hc].
      split; [done|]. cbn [contains]. rewrite Hc, orb_false_r.
      destruct (startswith sp (c :: a')) eqn:Hst'; [|done].
      apply (startswith_app_l _ _ (sp ++ b)) in Hst'. cbn [app] in Hst'.
      congruence.
Qed.

Lemma split_activity_cut (line : pystr) :
  contains sep line = true ->
  joined (split_activity line) = line
  /\ contains sep (codigo (split_activity line)) = false.
Proof.
  intros Hc. unfold split_activity, joined.
  destruct (contains_partition _ _ Hc) as (a & b & Hp). rewrite Hp.
  cbn [codigo descricao].
  destruct (partition_first_spec sep line a b) as [-> Hn]; done.
Qed.

Lemma take_while_In {A} (p : A -> bool) (l : list A) (x : A) :
  In x (take_while p l) -> In x l /\ p x = true.
Proof.
  induction l as [|y l IH]; [done|]. cbn. destruct (p y) eqn:Hy; [|done].
  intros [<-|Hin]; [auto|]. destruct (IH Hin). auto.
Qed.

Lemma secundarias_of_lines_In (lines : list pystr) (a : cd) :
  In a (secundarias_of_lines lines) ->
  exists line,
    In line lines /\ is_activity_line line = true /\ a = split_activity line.
Proof.
  induction lines as [|line rest IH]; [done|].
  cbn [secundarias_of_lines]. rewrite in_app_iff. intros [Hin|Hin].
  - destruct (takes_secundarias line (next_of rest)); [|done].
    unfold scan_activities in Hin. apply in_map_iff in Hin as (l & <- & Hl).
    apply take_while_In in Hl as [Hl Hp].
    exists l. split; [by right|]. by split.
  - destruct (IH Hin) as (l & Hl & Hp & ->).
    exists l. split; [by right|]. by split.
Qed.

(** X15: the activities of a record were split without loss.  Every
    secondary activity, and the main activity and the legal nature when
    they are not empty, is a line of the text cut at its first [" - "]:
    code, separator and description join back to the line, and the code
    holds no separator.  A secondary activity is never a line that carries
    a boundary marker. *)
Theorem activities_split_losslessly (clock text : pystr) :
  exists c nat pri secs,
    extract_from_text clock text = inr c
    /\ field_value c (py "empresa") (py "natureza_juridica") = inr (enc_cd nat)
    /\ field_value c (py "atividades") (py "principal") = inr (enc_cd pri)
    /\ field_value c (py "atividades") (py "secundarias")
       = inr (VList (map enc_cd secs))
    /\ (nat = CD [] [] \/ cut_from (text_lines text) nat)
    /\ (pri = CD [] [] \/ cut_from (text_lines text) pri)
    /\ (forall a, In a secs ->
          cut_from (text_lines text) a
          /\ has_stop_marker (joined a) = false).
Proof.
  set (lines := text_lines text).
  set (v := view_lines lines initial_view).
  exists (to_CNPJData clock v), (natureza v), (principal v), (secundarias v).
  split; [apply extract_from_text_view|].
  unfold field_value. rewrite asdict_view.
  split; [apply get_natureza|]. split; [apply get_principal|].
  split; [apply get_secundarias|].
  pose proof (located_view_lines lines) as Hloc. fold v in Hloc.
  assert (forall pre a b rest, lines = pre ++ a :: b :: rest -> In b lines)
    as Hadj.
  { intros pre a b rest ->. rewrite in_app_iff. right. right. by left. }
  split; [|split].
  - destruct (loc_natureza _ _ Hloc)
      as [Hn|(line & nl & (pre & rest & Hl) & _ & Hs & Hn)]; [by left|].
    right. rewrite Hn. destruct (split_activity_cut nl Hs) as [Hj Hc].
    split; [|exact Hc]. rewrite Hj. by apply (Hadj pre line nl rest).
  - destruct (loc_principal _ _ Hloc)
      as [Hn|(line & nl & (pre & rest & Hl) & _ & Hs & Hn)]; [by left|].
    right. rewrite Hn. destruct (split_activity_cut nl Hs) as [Hj Hc].
    split; [|exact Hc]. rewrite Hj. by apply (Hadj pre line nl rest).
  - intros a Ha. subst v. rewrite view_lines_secundarias in Ha.
    cbn [secundarias initial_view app] in Ha.
    destruct (secundarias_of_lines_In lines a Ha) as (line & Hl & Hp & ->).
    unfold is_activity_line in Hp. apply andb_prop in Hp as [Hs Hm].
    destruct (split_activity_cut line Hs) as [Hj Hc].
    unfold cut_from. rewrite Hj. split; [by split|].
    by destruct (has_stop_marker line).
Qed.

Lemma match_here_app (p1 p2 : list re_tok) (s : pystr) :
  match_here (p1 ++ p2) s = true ->
  match_here p1 (take (length p1) s) = true
  /\ match_here p2 (drop (length p1) s) = true.
Proof.
  revert s. induction p1 as [|t p1 IH]; intros s H.
  - cbn. rewrite drop_0. by destruct s.
  - destruct s as [|c s]; [discriminate|]. cbn in H.
    apply andb_prop in H as [Ht Hp]. destruct (IH s Hp) as [H1 H2].
    cbn. by rewrite Ht, H1.
Qed.

Lemma match_here_length (p : list re_tok) (s : pystr) :
  match_here p s = true -> (length p <= length s)%nat.
Proof.
  revert s. induction p as [|t p IH]; intros s H; [cbn; lia|].
  destruct s as [|c s]; [discriminate|]. cbn in H.
  apply andb_prop in H as [_ Hp]. apply IH in Hp. cbn. lia.
Qed.

Lemma match_here_take (p : list re_tok) (s : pystr) :
  match_here p s = true -> match_here p (take (length p) s) = true.
Proof.
  intros H. rewrite <- (app_nil_r p) in H.
  by destruct (match_here_app p [] s H).
Qed.

Lemma match_here_lits (x s : pystr) :
  match_here (lits x) s = true -> take (length x) s = x.
Proof.
  revert s. induction x as [|c x IH]; intros s H; [done|].
  destruct s as [|d s]; [discriminate|]. cbn in H.
  apply andb_prop in H as [Hc Hx]. apply N.eqb_eq in Hc. subst d.
  cbn. f_equal. by apply IH.
Qed.

Lemma startswith_take (n : nat) (s : pystr) : startswith (take n s) s = true.
Proof.
  revert n. induction s as [|c s IH]; intros [|n]; try done.
  cbn. by rewrite N.eqb_refl, IH.
Qed.

Lemma re_search_sound (p : list re_tok) (s m : pystr) :
  re_search p s = Some m ->
  match_here p m = true /\ length m = length p /\ contains m s = true.
Proof.
  induction s as [|c s IH]; cbn [re_search].
  - destruct (match_here p []) eqn:Hm; [|done]. intros [= <-].
    destruct p; [done|discriminate].
  - destruct (match_here p (c :: s)) eqn:Hm.
    + intros [= <-]. split; [by apply match_here_take|].
      apply match_here_length in Hm. split.
      * rewrite length_take. lia.
      * cbn [contains]. by rewrite startswith_take.
    + intros H. destruct (IH H) as (H1 & H2 & H3).
      split; [done|]. split; [done|]. cbn [contains]. rewrite H3.
      apply orb_true_r.
Qed.

(** A match of the regular expression of the stamp: its two groups and
    the text between them. *)
Lemma emitido_groups (m : pystr) :
  match_here emitido_pattern m = true -> length m = 22%nat ->
  match_here date_pattern (emitido_group1 m) = true
  /\ length (emitido_group1 m) = 10%nat
  /\ match_here time_pattern (emitido_group2 m) = true
  /\ length (emitido_group2 m) = 8%nat
  /\ emitido_group1 m ++ stamp_infix ++ emitido_group2 m = m.
Proof.
  intros Hm Hlen. unfold emitido_group1, emitido_group2.
  change emitido_pattern
    with (date_pattern ++ lits stamp_infix ++ time_pattern) in Hm.
  apply match_here_app in Hm as [Hd Hrest].
  apply match_here_app in Hrest as [Hi Ht].
  change (length date_pattern) with 10%nat in *.
  change (length (lits stamp_infix)) with 4%nat in *.
  rewrite drop_drop in Ht. cbn [Nat.add] in Ht.
  split; [exact Hd|]. split; [rewrite length_take; lia|].
  split; [exact Ht|]. split; [rewrite length_drop; lia|].
  apply match_here_lits in Hi.
  change (length stamp_infix) with 4%nat in Hi.
  rewrite take_take in Hi. cbn [Nat.min] in Hi.
  transitivity (take 10 m ++ drop 10 m); [|apply take_drop].
  f_equal. rewrite <- Hi.
  transitivity (take 4 (drop 10 m) ++ drop 4 (drop 10 m)); [|apply take_drop].
  f_equal. by rewrite drop_drop.
Qed.

(** X16: the emission stamp of a record is all or nothing.  Either
    [data_emissao] and [hora_emissao] are both empty, or the first is ten
    characters of the form [dd/dd/dddd], the second eight characters of the
    form [dd:dd:dd], with [d] any character that [\d] matches, and the two
    joined by [" às "] occur in a line of the text that contains
    ["Emitido no dia"].  Nothing else is checked: the digits need not form
    a date. *)
Theorem emission_stamp_well_formed (clock text : pystr) :
  exists c d h,
    extract_from_text clock text = inr c
    /\ field_value c (py "comprovante") (py "data_emissao") = inr (VStr d)
    /\ field_value c (py "comprovante") (py "hora_emissao") = inr (VStr h)
    /\ ((d = [] /\ h = [])
        \/ (match_here date_pattern d = true /\ length d = 10%nat
            /\ match_here time_pattern h = true /\ length h = 8%nat
            /\ exists line,
                 In line (text_lines text)
                 /\ contains emitido_marker line = true
                 /\ contains (d ++ stamp_infix ++ h) line = true)).
Proof.
  set (lines := text_lines text).
  set (v := view_lines lines initial_view).
  exists (to_CNPJData clock v), (View.data_emissao v), (View.hora_emissao v).
  split; [apply extract_from_text_view|].
  unfold field_value. rewrite asdict_view.
  split; [apply get_data_emissao|]. split; [apply get_hora_emissao|].
  pose proof (located_view_lines lines) as Hloc. fold v in Hloc.
  destruct (loc_emissao _ _ Hloc)
    as [He|(line & m & Hin & Hmark & Hsearch & -> & ->)]; [by left|].
  right. apply re_search_sound in Hsearch as (Hm & Hlen & Hc).
  change (length emitido_pattern) with 22%nat in Hlen.
  destruct (emitido_groups m Hm Hlen) as (H1 & H2 & H3 & H4 & H5).
  split; [exact H1|]. split; [exact H2|]. split; [exact H3|].
  split; [exact H4|]. exists line. rewrite H5. by repeat split.
Qed.

End ExtractorMore.

(** ** The extractor of [main.py] *)

Section LegacyMore.
Import Extractor View Legacy LegacyView.

Lemma lset_view (f : lfield) (x : pystr) (v : lview) :
  setitem2 (lencode v) (fst (lpath f)) (snd (lpath f)) (VStr x)
  = inr (lencode (lset f x v)).
Proof. destruct v, f; reflexivity. Qed.

Lemma lget_view (f : lfield) (v : lview) :
  getitem2 (lencode v) (fst (lpath f)) (snd (lpath f))
  = inr (VStr (lsimple v f)).
Proof. destruct v, f; reflexivity. Qed.

Lemma lset_natureza_view (a b : pystr) (v : lview) :
  (let* dados :=
     setitem3 (lencode v) (py "empresa") (py "natureza_juridica")
              (py "codigo") (VStr a) in
   setitem3 dados (py "empresa") (py "natureza_juridica") (py "descricao")
            (VStr b))
  = inr (lencode (lset_natureza (CD a b) v)).
Proof. destruct v as [s [c d] p secs]. reflexivity. Qed.

Lemma lset_principal_view (a b : pystr) (v : lview) :
  (let* dados :=
     setitem3 (lencode v) (py "atividades") (py "principal")
              (py "codigo") (VStr a) in
   setitem3 dados (py "atividades") (py "principal") (py "descricao")
            (VStr b))
  = inr (lencode (lset_principal (CD a b) v)).
Proof. destruct v as [s n [c d] secs]. reflexivity. Qed.

Lemma ladd_nil (v : lview) : ladd [] v = v.
Proof. destruct v. unfold ladd. cbn. by rewrite app_nil_r. Qed.

Lemma ladd_app (cs ds : list cd) (v : lview) :
  ladd ds (ladd cs v) = ladd (cs ++ ds) v.
Proof. destruct v. unfold ladd. cbn. by rewrite app_assoc. Qed.

Lemma lappend_view (a b : pystr) (v : lview) :
  append2 (lencode v) (py "atividades") (py "secundarias") (cod_desc a b)
  = inr (lencode (ladd [CD a b] v)).
Proof.
  destruct v as [s n p secs]. unfold ladd, lencode.
  cbn [lsecundarias lsimple lnatureza lprincipal].
  rewrite map_app. reflexivity.
Qed.

Lemma legacy_loop_view (ls : list pystr) (v : lview) :
  Legacy.secundarias_loop ls (lencode v)
  = inr (lencode (ladd (legacy_scan ls) v)).
Proof.
  revert v. induction ls as [|l ls IH]; intros v.
  - cbn. by rewrite ladd_nil.
  - cbn [Legacy.secundarias_loop legacy_scan].
    destruct (negb (str_truthy (strip l))); [apply IH|].
    destruct (existsb _ marcadores); [by rewrite ladd_nil|].
    destruct (contains sep (strip l)) eqn:Hsep.
    + unfold split_activity, split1.
      destruct (contains_partition _ _ Hsep) as (a & b & ->).
      cbn [unpack2 bind ret]. rewrite lappend_view. cbn [bind].
      by rewrite IH, ladd_app.
    + cbn [bind ret app]. apply IH.
Qed.

(** The branches of [processar_linha] after the test of the house
    number. *)
Ltac legacy_tail proxima :=
  destruct (contains (py "BAIRRO/DISTRITO") _);
    [exact (lset_view LBairro _ _)|];
  destruct (contains (py "MUNICÍPIO") _);
    [exact (lset_view LMunicipio _ _)|];
  destruct (contains (py "UF") _ && (_ <? 10)%nat);
    [exact (lset_view LUf _ _)|];
  destruct (contains (py "CEP") _);
    [exact (lset_view LCep _ _)|];
  destruct (contains (py "TELEFONE") _);
    [unfold unmasked; destruct (str_truthy proxima
                                && negb (str_eqb proxima asteriscos));
     [exact (lset_view LTelefone _ _)|reflexivity]|];
  destruct (str_eqb _ (py "SITUAÇÃO CADASTRAL"));
    [destruct (str_truthy proxima && negb (existsb (str_eqb proxima) _));
     [exact (lset_view LCadastral _ _)|reflexivity]|];
  destruct (contains (py "DATA DA SITUAÇÃO CADASTRAL") _);
    [destruct (str_truthy proxima && contains (py "/") proxima);
     [exact (lset_view LDataSituacao _ _)|reflexivity]|];
  destruct (contains (py "MOTIVO DE SITUAÇÃO CADASTRAL") _);
    [unfold unmasked;
     destruct (str_truthy proxima && negb (str_eqb proxima asteriscos)
               && str_truthy (strip proxima));
     [exact (lset_view LMotivo _ _)|reflexivity]|];
  destruct (str_eqb _ (py "SITUAÇÃO ESPECIAL"));
    [unfold unmasked;
     destruct (str_truthy proxima && negb (str_eqb proxima asteriscos)
               && str_truthy (strip proxima));
     [exact (lset_view LSitEspecial _ _)|reflexivity]|];
  destruct (contains (py "DATA DA SITUAÇÃO ESPECIAL") _);
    [unfold unmasked;
     destruct (str_truthy proxima && negb (str_eqb proxima asteriscos)
               && contains (py "/") proxima);
     [exact (lset_view LDataEspecial _ _)|reflexivity]|];
  destruct (contains emitido_marker _); [|reflexivity];
  destruct (re_search emitido_pattern _); [|reflexivity];
  rewrite (lset_view LDataEmissao); cbn [bind];
  exact (lset_view LHoraEmissao _ _).

Lemma processar_linha_view (linha : pystr) (resto : list pystr) (v : lview) :
  processar_linha linha resto (lencode v)
  = inr (lencode (lstep linha resto v)).
Proof.
  unfold processar_linha, lstep.
  set (proxima := proxima_linha resto).
  destruct (contains (py "NÚMERO DE INSCRIÇÃO") linha).
  { rewrite (lset_view LNumero). cbn [bind].
    destruct (in_line_i2 (py "MATRIZ") resto);
      [exact (lset_view LTipo _ _)|].
    destruct (in_line_i2 (py "FILIAL") resto);
      [exact (lset_view LTipo _ _)|]. reflexivity. }
  destruct (contains (py "DATA DE ABERTURA") linha);
    [exact (lset_view LDataAbertura _ _)|].
  destruct (contains (py "NOME EMPRESARIAL") linha);
    [exact (lset_view LRazaoSocial _ _)|].
  destruct (contains (py "TÍTULO DO ESTABELECIMENTO (NOME DE FANTASIA)")
              linha);
    [exact (lset_view LNomeFantasia _ _)|].
  destruct (contains (py "PORTE") linha && (length linha <? 20)%nat);
    [exact (lset_view LPorte _ _)|].
  destruct (contains natureza_header linha).
  { destruct (contains sep proxima) eqn:Hsep; [|reflexivity].
    unfold split_activity, split1.
    destruct (contains_partition _ _ Hsep) as (a & b & ->).
    cbn [unpack2 bind ret]. apply lset_natureza_view. }
  destruct (contains principal_header linha).
  { destruct (contains sep proxima) eqn:Hsep; [|reflexivity].
    unfold split_activity, split1.
    destruct (contains_partition _ _ Hsep) as (a & b & ->).
    cbn [unpack2 bind ret]. apply lset_principal_view. }
  destruct (contains secundarias_header linha); [apply legacy_loop_view|].
  destruct (contains (py "LOGRADOURO") linha);
    [exact (lset_view LLogradouro _ _)|].
  destruct (contains (py "NÚMERO") linha).
  { rewrite (lget_view LEndNumero). cbn [bind ret truthy andb].
    destruct (str_truthy (lsimple v LEndNumero)); cbn [negb];
      [|exact (lset_view LEndNumero _ _)].
    legacy_tail proxima. }
  cbn [bind ret andb].
  legacy_tail proxima.
Qed.

Lemma processar_linhas_view (linhas : list pystr) (v : lview) :
  processar_linhas linhas (lencode v) = inr (lencode (lsteps linhas v)).
Proof.
  revert v. induction linhas as [|l resto IH]; intros v; [reflexivity|].
  cbn [processar_linhas lsteps]. rewrite processar_linha_view. cbn [bind].
  apply IH.
Qed.

(** The scan of [main.py] never raises, and its result is the dictionary of
    the view reached by the typed scan. *)
Lemma processar_dados_view (texto : pystr) :
  _processar_dados texto
  = inr (lencode (lsteps (split_chr 10 texto) linitial)).
Proof. apply (processar_linhas_view _ linitial). Qed.

(** Every iteration keeps the fields within what their branches admit. *)
Lemma lstep_admitted (linha : pystr) (resto : list pystr) (v : lview) :
  (forall f, admitted f (lsimple v f) = true) ->
  forall f, admitted f (lsimple (lstep linha resto v) f) = true.
Proof.
  intros Hv f. unfold lstep, unmasked.
  set (proxima := proxima_linha resto).
  repeat match goal with
         | |- context [if ?c then _ else _] => destruct c eqn:?
         | |- context [match ?c with Some _ => _ | None => _ end] =>
             destruct c eqn:?
         end;
    cbn [lsimple lset ladd lset_natureza lset_principal]; unfold lupd;
    repeat case_decide; subst; try apply Hv;
    repeat match goal with
           | H : _ && _ = true |- _ => apply andb_prop in H as [? ?]
           end;
    try reflexivity.
  all: cbn [admitted];
    repeat match goal with
           | H : ?x = true |- context [?x] => rewrite H
           end;
    reflexivity.
Qed.

Lemma lsteps_admitted (linhas : list pystr) (v : lview) :
  (forall f, admitted f (lsimple v f) = true) ->
  forall f, admitted f (lsimple (lsteps linhas v) f) = true.
Proof.
  revert v. induction linhas as [|l resto IH]; intros v Hv; [exact Hv|].
  cbn [lsteps]. apply IH. by apply lstep_admitted.
Qed.

(** X17: [_processar_dados] of [main.py] returns a dictionary on every
    text, with the keys of its initial dictionary at every level.  It never
    stores the mask ["********"] as telephone, reason, special situation or
    date of the special situation; the two dates of the situation are empty
    or contain ["/"]; the type is empty, ["MATRIZ"] or ["FILIAL"]; the
    status is never one of the labels ["DATA DA SITUAÇÃO CADASTRAL"] and
    ["MOTIVO"]; and [complemento] and [email] are always empty, since no
    branch assigns them. *)
Theorem legacy_never_stores_mask (texto : pystr) :
  exists dados,
    _processar_dados texto = inr dados
    /\ same_shape (VDict dados) (VDict dados_iniciais) = true
    /\ (forall f,
          exists x,
            getitem2 dados (fst (lpath f)) (snd (lpath f)) = inr (VStr x)
            /\ admitted f x = true)
    /\ getitem2 dados (py "endereco") (py "complemento") = inr (VStr [])
    /\ getitem2 dados (py "contato") (py "email") = inr (VStr []).
Proof.
  set (v := lsteps (split_chr 10 texto) linitial).
  exists (lencode v). split; [apply processar_dados_view|].
  split; [by destruct v as [s [a b] [c d] secs]|].
  split.
  - intros f. exists (lsimple v f). split; [apply lget_view|].
    apply lsteps_admitted. intros g. by destruct g.
  - by destruct v.
Qed.

End LegacyMore.
